(** * Pet health tracker: day status, default amounts and trends

    A shallow embedding of the server of the health tracker
    ([server/src/db.ts], [server/src/status.ts], [server/src/app.ts] and
    [importCsv] of [server/src/import.ts]) and the properties of its
    specification.

    The SQLite database is a record of tables; a table is the list of its
    rows in rowid order together with its AUTOINCREMENT counter.  A prepared
    statement is a function on that record: [SELECT ... WHERE] is [filter],
    [.get] is the first row of the result, [ORDER BY] is a stable sort,
    [INSERT ... ON CONFLICT DO UPDATE] updates the conflicting row in place or
    appends a new one, and takes a value of the counter either way.  TEXT
    values are [string]s compared bytewise, as SQLite's BINARY collation
    does; INTEGER values are [Z], and where JavaScript adds or prints one it
    is the double nearest to it ([to_double], [js_add], [render_Z]); a
    nullable TEXT column is an [option string].  Rows and request bodies
    have the fields and types of their TypeScript interfaces, the rows of
    [daily_records] the two timestamp columns besides; what is left of the
    body of [PUT /api/day/:date] without [medications] and [meals] is the
    [Partial<DailyRecord>] the handler gives to [updateDailyRecord].
    [datetime('now')] and [new Date()] are the clock values [now] and
    [today] handed to the operation.

    The FOREIGN KEY of [medication_entries] is enforced, as the driver does
    unless told otherwise: [upsertMedicationEntry] throws when it would
    insert an entry for a medication that is not stored.  A function that
    can throw returns a [Thrown] outcome with the database as the exception
    leaves it; no handler runs in a transaction, so the statements before
    the exception stay written.  The reachable states are those after any
    sequence of requests, answered or ended by an exception.

    Left out are [updateMealConfigAmount], which no route calls, the
    reading of the CSV file and the assembly of a row from its fields, the
    parsing of the [period] parameter of the two trends routes, which only
    choose the rows and the range the modelled functions are given, and
    the schema statements of [initializeDatabase]. *)

From Stdlib Require Import ZArith List String Ascii Bool Lia.
From Stdlib Require Import Sorted Permutation OrderedTypeEx DecimalString.
Import ListNotations.

Local Open Scope string_scope.
Local Open Scope list_scope.
Local Open Scope Z_scope.

(* ================================================================= *)
(** ** Values *)

(** [a <= b] on TEXT. *)
Definition text_le (a b : string) : bool := String.leb a b.

(** JavaScript's [x || d] on a nullable string: NULL and the empty string
    are falsy. *)
Definition or_else (x : option string) (d : string) : string :=
  match x with
  | Some EmptyString | None => d
  | Some v => v
  end.

(** [x BETWEEN lo AND hi]. *)
Definition between (x lo hi : string) : bool :=
  text_le lo x && text_le x hi.

(** JavaScript's [x ?? d]. *)
Definition nullish {A : Type} (x : option A) (d : A) : A :=
  match x with
  | Some v => v
  | None => d
  end.

(** A JavaScript string: the sequence of its UTF-16 code units. *)
Definition jsstring : Set := list N.

(** The code units of a literal of ASCII characters. *)
Definition js (s : string) : jsstring :=
  map N_of_ascii (list_ascii_of_string s).

(** A result or the message of the exception thrown. *)
Inductive Thrown (A : Type) : Type :=
| Returns (value : A)
| Throws (message : jsstring).
Arguments Returns {A} _.
Arguments Throws {A} _.

(** *** Numbers

    An INTEGER column and a JavaScript number that holds an integer are
    both a [Z].  A number is a double: [to_double z] is what a number
    holds of the integer [z], the nearest double with ties to the even
    significand.  Integers below 2^53 in size are held exactly; a result
    from 2^1024 on stands for [Infinity]. *)
Definition to_double (z : Z) : Z :=
  let a := Z.abs z in
  if a <? 2 ^ 53 then z
  else
    let ulp := 2 ^ (Z.log2 a - 52) in
    let q := a / ulp in
    let r := a mod ulp in
    let q :=
      if 2 * r <? ulp then q
      else if ulp <? 2 * r then q + 1
      else if Z.even q then q else q + 1 in
    Z.sgn z * (q * ulp).

(** [a + b] on numbers. *)
Definition js_add (a b : Z) : Z := to_double (to_double a + to_double b).

(** The decimal digits of an integer. *)
Definition decimal (z : Z) : string := NilZero.string_of_int (Z.to_int z).

(** [x] is read back as the double [a], for [a] from 2^53 on: it lies
    within half a unit in the last place of [a], the bounds counting when
    the significand of [a] is even.  The bounds are taken four times, the
    double below a power of two being half as far. *)
Definition reads_as (a x : Z) : bool :=
  let ulp := 2 ^ (Z.log2 a - 52) in
  let significand := a / ulp in
  let low := 4 * a - (if significand =? 2 ^ 52 then ulp else 2 * ulp) in
  let high := 4 * a + 2 * ulp in
  if Z.even significand then (low <=? 4 * x) && (4 * x <=? high)
  else (low <? 4 * x) && (4 * x <? high).

(** The decimal with the fewest digits that is read back as the double
    [a], and the power of ten that ends it: the multiple of the greatest
    power of ten, [10 ^ p] at most, that is read back as [a], the nearest
    to [a] if there are two, the one of even last digit if they are as
    near. *)
Fixpoint shortest (a : Z) (p : nat) : Z * Z :=
  let t := 10 ^ Z.of_nat p in
  let below := a / t * t in
  let above := below + t in
  let found :=
    match reads_as a below, reads_as a above with
    | true, true =>
        if a - below <? above - a then Some below
        else if above - a <? a - below then Some above
        else if Z.even (below / t) then Some below else Some above
    | true, false => Some below
    | false, true => Some above
    | false, false => None
    end in
  match found, p with
  | Some x, _ => (x, t)
  | None, S p' => shortest a p'
  | None, O => (a, 1)
  end.

(** Template-literal rendering of a number that holds an integer,
    [`${n}`], which is [Number::toString]: the digits of the integer below
    2^53, from there on the fewest digits that are read back as the same
    double, followed by zeros up to 21 digits and in exponent form
    beyond. *)
Definition render_Z (z : Z) : string :=
  let v := to_double z in
  let a := Z.abs v in
  let sign := if v <? 0 then "-" else "" in
  if 2 ^ 1024 <=? a then String.append sign "Infinity"
  else if a <? 2 ^ 53 then decimal v
  else
    let '(x, t) := shortest a (Z.to_nat (Z.log2 a)) in
    let n := Z.of_nat (String.length (decimal x)) in
    if n <=? 21 then String.append sign (decimal x)
    else
      let exponent := String.append "e+" (decimal (n - 1)) in
      match decimal (x / t) with
      | String first EmptyString =>
          String.append sign (String first exponent)
      | String first rest =>
          String.append sign
            (String first (String.append "." (String.append rest exponent)))
      | EmptyString => EmptyString
      end.

(* ================================================================= *)
(** ** status.ts: the classifier *)

Inductive DayStatus : Set := RED | ORANGE | GREEN.

(** The literal a [DayStatus] is at run time. *)
Definition DayStatus_text (s : DayStatus) : string :=
  match s with
  | RED => "RED"
  | ORANGE => "ORANGE"
  | GREEN => "GREEN"
  end.

Record DayData : Set := mkDayData {
  dd_vomited : Z;
  dd_peed : Z;
  dd_pooped : Z;
  (** the [status] of each element of [meals] *)
  dd_meals : list string
}.

Definition calculateDayStatus (data : DayData) : DayStatus :=
  let '(mkDayData vomited peed pooped meals) := data in
  let hasVomit := 0 <? vomited in
  let noPee := peed =? 0 in
  let noPoop := pooped =? 0 in
  let hasMissedMeal :=
    existsb (fun m => negb (String.eqb m "ate_fully")) meals in
  if hasVomit && (noPee || noPoop || hasMissedMeal) then RED
  else if noPee && noPoop then RED
  else if hasVomit then ORANGE
  else if noPee || noPoop then ORANGE
  else if hasMissedMeal then ORANGE
  else GREEN.

(** Severity, RED > ORANGE > GREEN. *)
Definition severity (s : DayStatus) : Z :=
  match s with
  | GREEN => 0
  | ORANGE => 1
  | RED => 2
  end.

(** *** The rule list of the specification

    The conditions of the six ordered rules, in the specification's words,
    and "first match wins" over them. *)

Definition some_meal_missed (meals : list string) : Prop :=
  exists m, In m meals /\ m <> "ate_fully".

Definition rule1 (d : DayData) : Prop :=
  dd_vomited d > 0 /\
  (dd_peed d = 0 \/ dd_pooped d = 0 \/ some_meal_missed (dd_meals d)).
Definition rule2 (d : DayData) : Prop := dd_peed d = 0 /\ dd_pooped d = 0.
Definition rule3 (d : DayData) : Prop := dd_vomited d > 0.
Definition rule4 (d : DayData) : Prop := dd_peed d = 0 \/ dd_pooped d = 0.
Definition rule5 (d : DayData) : Prop := some_meal_missed (dd_meals d).

Definition ordered_rules : list ((DayData -> Prop) * DayStatus) :=
  [ (rule1, RED); (rule2, RED); (rule3, ORANGE); (rule4, ORANGE);
    (rule5, ORANGE) ].

(** [first_match rules d s]: [s] is the result of the first rule of [rules]
    whose condition holds of [d], and GREEN when none does. *)
Inductive first_match (d : DayData) :
  list ((DayData -> Prop) * DayStatus) -> DayStatus -> Prop :=
| fm_otherwise : first_match d [] GREEN
| fm_here c s rest : c d -> first_match d ((c, s) :: rest) s
| fm_later c s rest s' :
    ~ c d -> first_match d rest s' -> first_match d ((c, s) :: rest) s'.

(* ================================================================= *)
(** ** SQL statements over tables *)

(** A table: its rows in rowid order and the last AUTOINCREMENT id. *)
Record Table (A : Type) : Type := mkTable {
  rows : list A;
  seq : Z
}.
Arguments mkTable {A} _ _.
Arguments rows {A} _.
Arguments seq {A} _.

Definition empty_table {A : Type} : Table A := mkTable [] 0.

(** [INSERT INTO t ... VALUES ...]; [mk] builds the row from its new id. *)
Definition sql_insert {A : Type} (mk : Z -> A) (t : Table A) : Table A :=
  mkTable (rows t ++ [mk (seq t + 1)]) (seq t + 1).

(** [UPDATE t SET ... WHERE p]. *)
Definition sql_update {A : Type} (p : A -> bool) (set : A -> A)
    (t : Table A) : Table A :=
  mkTable (map (fun r => if p r then set r else r) (rows t)) (seq t).

(** [INSERT ... ON CONFLICT(key) DO UPDATE SET ...]: the row that conflicts
    on the unique key is updated in place, otherwise the row is inserted.
    The id of the row that was to be inserted is taken from the counter
    in either case. *)
Definition sql_upsert {A : Type} (conflicts : A -> bool) (set : A -> A)
    (mk : Z -> A) (t : Table A) : Table A :=
  if existsb conflicts (rows t)
  then mkTable (rows (sql_update conflicts set t)) (seq t + 1)
  else sql_insert mk t.

(** [INSERT OR IGNORE]. *)
Definition sql_insert_or_ignore {A : Type} (conflicts : A -> bool)
    (mk : Z -> A) (t : Table A) : Table A :=
  if existsb conflicts (rows t) then t else sql_insert mk t.

(** [stmt.get(...)]: the first row of the result, if any. *)
Definition sql_get {A : Type} (result : list A) : option A := hd_error result.

(** [ORDER BY]: a stable sort by the order [le]. *)
Fixpoint insert_by {A : Type} (le : A -> A -> bool) (x : A) (l : list A)
  : list A :=
  match l with
  | [] => [x]
  | y :: l' => if le x y then x :: l else y :: insert_by le x l'
  end.

Definition order_by {A : Type} (le : A -> A -> bool) (l : list A) : list A :=
  fold_right (insert_by le) [] l.

(** [COUNT( * )]. *)
Definition sql_count {A : Type} (l : list A) : Z := Z.of_nat (List.length l).

(** [SELECT DISTINCT]. *)
Definition distinct (l : list string) : list string := nodup string_dec l.

(** [MAX(col)] and [MIN(col)], NULL on no rows. *)
Definition sql_max (l : list Z) : option Z :=
  match l with
  | [] => None
  | x :: l' => Some (fold_left Z.max l' x)
  end.

Definition sql_min_text (l : list string) : option string :=
  match l with
  | [] => None
  | x :: l' => Some (fold_left (fun m y => if text_le y m then y else m) l' x)
  end.

(* ================================================================= *)
(** ** db.ts: rows *)

Module Medication.
Record t : Set := mk {
  id : Z;
  name : string;
  time_label : string;
  is_active : Z;
  sort_order : Z
}.
End Medication.

Module MedicationEntry.
Record t : Set := mk {
  id : Z;
  date : string;
  medication_id : Z;
  taken : Z;
  comment : option string
}.
End MedicationEntry.

Module MealEntry.
Record t : Set := mk {
  id : Z;
  date : string;
  meal_slot : Z;
  status : string;
  actual_amount : option Z;
  comment : option string
}.
End MealEntry.

Module MealDefaultHistory.
Record t : Set := mk {
  id : Z;
  meal_slot : Z;
  default_amount : Z;
  effective_date : string
}.
End MealDefaultHistory.

Module MealConfig.
Record t : Set := mk {
  id : Z;
  meal_slot : Z;
  label : string;
  default_amount : Z
}.
End MealConfig.

(** A row of [daily_records]: the columns of the [DailyRecord] interface and
    the two timestamps the statements write. *)
Module DailyRecord.
Record t : Set := mk {
  id : Z;
  date : string;
  teeth_brushed : Z;
  teeth_comment : option string;
  vomited : Z;
  vomited_comment : option string;
  peed : Z;
  peed_comment : option string;
  pooped : Z;
  pooped_comment : option string;
  drank : Z;
  drank_comment : option string;
  daily_notes : option string;
  day_status : string;
  created_at : string;
  updated_at : string
}.

Definition set_id (v : Z) (r : t) : t :=
  let '(mk _ b c d e f g h i j k l m n o p) := r in
  mk v b c d e f g h i j k l m n o p.
Definition set_date (v : string) (r : t) : t :=
  let '(mk a _ c d e f g h i j k l m n o p) := r in
  mk a v c d e f g h i j k l m n o p.
Definition set_teeth_brushed (v : Z) (r : t) : t :=
  let '(mk a b _ d e f g h i j k l m n o p) := r in
  mk a b v d e f g h i j k l m n o p.
Definition set_teeth_comment (v : option string) (r : t) : t :=
  let '(mk a b c _ e f g h i j k l m n o p) := r in
  mk a b c v e f g h i j k l m n o p.
Definition set_vomited (v : Z) (r : t) : t :=
  let '(mk a b c d _ f g h i j k l m n o p) := r in
  mk a b c d v f g h i j k l m n o p.
Definition set_vomited_comment (v : option string) (r : t) : t :=
  let '(mk a b c d e _ g h i j k l m n o p) := r in
  mk a b c d e v g h i j k l m n o p.
Definition set_peed (v : Z) (r : t) : t :=
  let '(mk a b c d e f _ h i j k l m n o p) := r in
  mk a b c d e f v h i j k l m n o p.
Definition set_peed_comment (v : option string) (r : t) : t :=
  let '(mk a b c d e f g _ i j k l m n o p) := r in
  mk a b c d e f g v i j k l m n o p.
Definition set_pooped (v : Z) (r : t) : t :=
  let '(mk a b c d e f g h _ j k l m n o p) := r in
  mk a b c d e f g h v j k l m n o p.
Definition set_pooped_comment (v : option string) (r : t) : t :=
  let '(mk a b c d e f g h i _ k l m n o p) := r in
  mk a b c d e f g h i v k l m n o p.
Definition set_drank (v : Z) (r : t) : t :=
  let '(mk a b c d e f g h i j _ l m n o p) := r in
  mk a b c d e f g h i j v l m n o p.
Definition set_drank_comment (v : option string) (r : t) : t :=
  let '(mk a b c d e f g h i j k _ m n o p) := r in
  mk a b c d e f g h i j k v m n o p.
Definition set_daily_notes (v : option string) (r : t) : t :=
  let '(mk a b c d e f g h i j k l _ n o p) := r in
  mk a b c d e f g h i j k l v n o p.
Definition set_day_status (v : string) (r : t) : t :=
  let '(mk a b c d e f g h i j k l m _ o p) := r in
  mk a b c d e f g h i j k l m v o p.
Definition set_updated_at (v : string) (r : t) : t :=
  let '(mk a b c d e f g h i j k l m n o _) := r in
  mk a b c d e f g h i j k l m n o v.
End DailyRecord.

(** [Partial<DailyRecord>]: each field of the interface is present or not. *)
Module DailyPatch.
Record t : Set := mk {
  id : option Z;
  date : option string;
  teeth_brushed : option Z;
  teeth_comment : option (option string);
  vomited : option Z;
  vomited_comment : option (option string);
  peed : option Z;
  peed_comment : option (option string);
  pooped : option Z;
  pooped_comment : option (option string);
  drank : option Z;
  drank_comment : option (option string);
  daily_notes : option (option string);
  day_status : option string
}.

Definition empty : t :=
  mk None None None None None None None None None None None None None None.
End DailyPatch.

(** [keyof DailyRecord]. *)
Inductive Field : Set :=
| f_id
| f_date
| f_teeth_brushed
| f_teeth_comment
| f_vomited
| f_vomited_comment
| f_peed
| f_peed_comment
| f_pooped
| f_pooped_comment
| f_drank
| f_drank_comment
| f_daily_notes
| f_day_status.

Definition Field_eqb (a b : Field) : bool :=
  match a, b with
  | f_id, f_id => true
  | f_date, f_date => true
  | f_teeth_brushed, f_teeth_brushed => true
  | f_teeth_comment, f_teeth_comment => true
  | f_vomited, f_vomited => true
  | f_vomited_comment, f_vomited_comment => true
  | f_peed, f_peed => true
  | f_peed_comment, f_peed_comment => true
  | f_pooped, f_pooped => true
  | f_pooped_comment, f_pooped_comment => true
  | f_drank, f_drank => true
  | f_drank_comment, f_drank_comment => true
  | f_daily_notes, f_daily_notes => true
  | f_day_status, f_day_status => true
  | _, _ => false
  end.

(** The key [f], when the property it names is there. *)
Definition present {A K : Type} (f : K) (x : option A) : list K :=
  match x with
  | Some _ => [f]
  | None => []
  end.

(** [Object.keys(data)]. *)
Definition Object_keys (data : DailyPatch.t) : list Field :=
  present f_id (DailyPatch.id data)
  ++ present f_date (DailyPatch.date data)
  ++ present f_teeth_brushed (DailyPatch.teeth_brushed data)
  ++ present f_teeth_comment (DailyPatch.teeth_comment data)
  ++ present f_vomited (DailyPatch.vomited data)
  ++ present f_vomited_comment (DailyPatch.vomited_comment data)
  ++ present f_peed (DailyPatch.peed data)
  ++ present f_peed_comment (DailyPatch.peed_comment data)
  ++ present f_pooped (DailyPatch.pooped data)
  ++ present f_pooped_comment (DailyPatch.pooped_comment data)
  ++ present f_drank (DailyPatch.drank data)
  ++ present f_drank_comment (DailyPatch.drank_comment data)
  ++ present f_daily_notes (DailyPatch.daily_notes data)
  ++ present f_day_status (DailyPatch.day_status data).

(** One assignment [f = ?] of a SET clause, bound to [data[f]]. *)
Definition assign (data : DailyPatch.t) (r : DailyRecord.t) (f : Field)
  : DailyRecord.t :=
  match f with
  | f_id =>
      match DailyPatch.id data with
      | Some v => DailyRecord.set_id v r
      | None => r
      end
  | f_date =>
      match DailyPatch.date data with
      | Some v => DailyRecord.set_date v r
      | None => r
      end
  | f_teeth_brushed =>
      match DailyPatch.teeth_brushed data with
      | Some v => DailyRecord.set_teeth_brushed v r
      | None => r
      end
  | f_teeth_comment =>
      match DailyPatch.teeth_comment data with
      | Some v => DailyRecord.set_teeth_comment v r
      | None => r
      end
  | f_vomited =>
      match DailyPatch.vomited data with
      | Some v => DailyRecord.set_vomited v r
      | None => r
      end
  | f_vomited_comment =>
      match DailyPatch.vomited_comment data with
      | Some v => DailyRecord.set_vomited_comment v r
      | None => r
      end
  | f_peed =>
      match DailyPatch.peed data with
      | Some v => DailyRecord.set_peed v r
      | None => r
      end
  | f_peed_comment =>
      match DailyPatch.peed_comment data with
      | Some v => DailyRecord.set_peed_comment v r
      | None => r
      end
  | f_pooped =>
      match DailyPatch.pooped data with
      | Some v => DailyRecord.set_pooped v r
      | None => r
      end
  | f_pooped_comment =>
      match DailyPatch.pooped_comment data with
      | Some v => DailyRecord.set_pooped_comment v r
      | None => r
      end
  | f_drank =>
      match DailyPatch.drank data with
      | Some v => DailyRecord.set_drank v r
      | None => r
      end
  | f_drank_comment =>
      match DailyPatch.drank_comment data with
      | Some v => DailyRecord.set_drank_comment v r
      | None => r
      end
  | f_daily_notes =>
      match DailyPatch.daily_notes data with
      | Some v => DailyRecord.set_daily_notes v r
      | None => r
      end
  | f_day_status =>
      match DailyPatch.day_status data with
      | Some v => DailyRecord.set_day_status v r
      | None => r
      end
  end.

(* ================================================================= *)
(** ** db.ts: the database *)

Record Db : Type := mkDb {
  medications : Table Medication.t;
  meal_config : Table MealConfig.t;
  daily_records : Table DailyRecord.t;
  medication_entries : Table MedicationEntry.t;
  meal_entries : Table MealEntry.t;
  meal_default_history : Table MealDefaultHistory.t
}.

Definition on_medications (f : Table Medication.t -> Table Medication.t)
    (db : Db) : Db :=
  let '(mkDb a b c d e h) := db in mkDb (f a) b c d e h.
Definition on_meal_config (f : Table MealConfig.t -> Table MealConfig.t)
    (db : Db) : Db :=
  let '(mkDb a b c d e h) := db in mkDb a (f b) c d e h.
Definition on_daily_records (f : Table DailyRecord.t -> Table DailyRecord.t)
    (db : Db) : Db :=
  let '(mkDb a b c d e h) := db in mkDb a b (f c) d e h.
Definition on_medication_entries
    (f : Table MedicationEntry.t -> Table MedicationEntry.t) (db : Db) : Db :=
  let '(mkDb a b c d e h) := db in mkDb a b c (f d) e h.
Definition on_meal_entries (f : Table MealEntry.t -> Table MealEntry.t)
    (db : Db) : Db :=
  let '(mkDb a b c d e h) := db in mkDb a b c d (f e) h.
Definition on_meal_default_history
    (f : Table MealDefaultHistory.t -> Table MealDefaultHistory.t)
    (db : Db) : Db :=
  let '(mkDb a b c d e h) := db in mkDb a b c d e (f h).

(** [for (const x of l) body(x)] with a body that may throw: the loop ends
    at the first exception, and what was written before it stays written
    (no statement runs in a transaction). *)
Fixpoint for_of {A : Type} (body : A -> Db -> Thrown unit * Db)
    (l : list A) (db : Db) : Thrown unit * Db :=
  match l with
  | [] => (Returns tt, db)
  | x :: l' =>
      match body x db with
      | (Returns _, db) => for_of body l' db
      | (Throws message, db) => (Throws message, db)
      end
  end.

(** The database file before [initializeDatabase] has ever run. *)
Definition empty_db : Db :=
  mkDb empty_table empty_table empty_table empty_table empty_table
       empty_table.

(** [initializeDatabase], the CREATE and ALTER statements, which concern
    the schema only, left out: the seed rows of [meal_config], the seed rows
    of [medications], and the copy of the configured defaults into the
    history.  [today] is the date of [new Date()]. *)
Definition seed_meal_config (db : Db) : Db :=
  if sql_count (rows (meal_config db)) =? 0 then
    let insertMealConfig slot label amount :=
      on_meal_config
        (sql_insert (fun id => MealConfig.mk id slot label amount)) in
    insertMealConfig 4 "night" 0
      (insertMealConfig 3 "evening" 0
        (insertMealConfig 2 "day" 0
          (insertMealConfig 1 "morning" 0 db)))
  else db.

Definition seed_medications (db : Db) : Db :=
  if sql_count (rows (medications db)) =? 0 then
    let insertMed name time_label sort_order :=
      on_medications
        (sql_insert
           (fun id => Medication.mk id name time_label 1 sort_order)) in
    insertMed "FortiFlora" "evening with food" 4
      (insertMed "Renalvet" "evening with food" 3
        (insertMed "Normolact" "evening" 2
          (insertMed "Normolact" "morning" 1 db)))
  else db.

Definition migrate_defaults (today : string) (db : Db) : Db :=
  if sql_count (rows (meal_default_history db)) =? 0 then
    let earliest :=
      sql_min_text (map DailyRecord.date (rows (daily_records db))) in
    let effectiveDate := or_else earliest today in
    let existingDefaults := rows (meal_config db) in
    fold_left
      (fun db config =>
         if 0 <? MealConfig.default_amount config then
           on_meal_default_history
             (sql_insert_or_ignore
                (fun h =>
                   (MealDefaultHistory.meal_slot h
                      =? MealConfig.meal_slot config)
                   && String.eqb (MealDefaultHistory.effective_date h)
                                 effectiveDate)
                (fun id =>
                   MealDefaultHistory.mk id (MealConfig.meal_slot config)
                     (MealConfig.default_amount config) effectiveDate))
             db
         else db)
      existingDefaults db
  else db.

Definition initializeDatabase (today : string) (db : Db) : Db :=
  migrate_defaults today (seed_medications (seed_meal_config db)).

(** [SELECT * FROM daily_records WHERE date = ?]. *)
Definition select_daily_record (date : string) (db : Db)
  : option DailyRecord.t :=
  sql_get (filter (fun r => String.eqb (DailyRecord.date r) date)
                  (rows (daily_records db))).

(** The row [INSERT INTO daily_records (date) VALUES (?)] creates: every
    other column takes its DEFAULT. *)
Definition new_daily_record (now date : string) (id : Z) : DailyRecord.t :=
  DailyRecord.mk id date 0 None 0 None 0 None 0 None 0 None None "GREEN"
                 now now.

(** The result is the row of the (second) SELECT, which the source casts to
    [DailyRecord]. *)
Definition getOrCreateDailyRecord (now date : string) (db : Db)
  : option DailyRecord.t * Db :=
  match select_daily_record date db with
  | Some record => (Some record, db)
  | None =>
      let db := on_daily_records (sql_insert (new_daily_record now date)) db in
      (select_daily_record date db, db)
  end.

Definition updateDailyRecord (now date : string) (data : DailyPatch.t)
    (db : Db) : Db :=
  let db := snd (getOrCreateDailyRecord now date db) in
  let fields :=
    filter (fun k => negb (Field_eqb k f_id) && negb (Field_eqb k f_date))
           (Object_keys data) in
  if (List.length fields =? 0)%nat then db
  else
    on_daily_records
      (sql_update
         (fun r => String.eqb (DailyRecord.date r) date)
         (fun r => DailyRecord.set_updated_at now
                     (fold_left (assign data) fields r)))
      db.

Definition getMedications (includeInactive : bool) (db : Db)
  : list Medication.t :=
  let by_sort_order a b :=
    Medication.sort_order a <=? Medication.sort_order b in
  if includeInactive then order_by by_sort_order (rows (medications db))
  else
    order_by by_sort_order
      (filter (fun m => Medication.is_active m =? 1) (rows (medications db))).

Definition addMedication (name timeLabel : string) (db : Db)
  : option Medication.t * Db :=
  let maxOrder := sql_max (map Medication.sort_order (rows (medications db))) in
  let sortOrder := js_add (nullish maxOrder 0) 1 in
  let db :=
    on_medications
      (sql_insert (fun id => Medication.mk id name timeLabel 1 sortOrder))
      db in
  let lastInsertRowid := seq (medications db) in
  (sql_get (filter (fun m => Medication.id m =? lastInsertRowid)
                   (rows (medications db))),
   db).

Definition deactivateMedication (id : Z) (db : Db) : Db :=
  on_medications
    (sql_update
       (fun m => Medication.id m =? id)
       (fun m => Medication.mk (Medication.id m) (Medication.name m)
                   (Medication.time_label m) 0 (Medication.sort_order m)))
    db.

(** A row of the join of [medication_entries] with [medications]. *)
Record MedicationEntryRow : Set := mkMedicationEntryRow {
  mer_entry : MedicationEntry.t;
  mer_name : string;
  mer_time_label : string
}.

Definition getMedicationEntries (date : string) (db : Db)
  : list MedicationEntryRow :=
  flat_map
    (fun me =>
       map (fun m => mkMedicationEntryRow me (Medication.name m)
                       (Medication.time_label m))
           (filter (fun m => MedicationEntry.medication_id me
                               =? Medication.id m)
                   (rows (medications db))))
    (filter (fun me => String.eqb (MedicationEntry.date me) date)
            (rows (medication_entries db))).

(** [medication_entries] has FOREIGN KEY (medication_id) REFERENCES
    medications(id), and the driver opens a database with foreign keys
    enforced: the insertion of a row for an id that no medication has is
    refused, the statement throws and writes nothing.  A row that
    conflicts is updated in place and keeps its [medication_id]. *)
Definition upsertMedicationEntry (date : string) (medicationId : Z)
    (taken : bool) (comment : option string) (db : Db)
  : Thrown unit * Db :=
  let taken := if taken then 1 else 0 in
  let conflicts e :=
    String.eqb (MedicationEntry.date e) date
    && (MedicationEntry.medication_id e =? medicationId) in
  if existsb conflicts (rows (medication_entries db))
     || existsb (fun m => Medication.id m =? medicationId)
                (rows (medications db))
  then
    (Returns tt,
     on_medication_entries
       (sql_upsert
          conflicts
          (fun e => MedicationEntry.mk (MedicationEntry.id e)
                      (MedicationEntry.date e)
                      (MedicationEntry.medication_id e) taken comment)
          (fun id => MedicationEntry.mk id date medicationId taken comment))
       db)
  else (Throws (js "FOREIGN KEY constraint failed"), db).

Definition getMealConfig (db : Db) : list MealConfig.t :=
  order_by (fun a b => MealConfig.meal_slot a <=? MealConfig.meal_slot b)
           (rows (meal_config db)).

(** [ORDER BY effective_date DESC]. *)
Definition by_effective_date_desc (a b : MealDefaultHistory.t) : bool :=
  text_le (MealDefaultHistory.effective_date b)
          (MealDefaultHistory.effective_date a).

Definition getEffectiveDefaultAmount (mealSlot : Z) (date : string) (db : Db)
  : Z :=
  let result :=
    sql_get
      (map MealDefaultHistory.default_amount
         (firstn 1
            (order_by by_effective_date_desc
               (filter
                  (fun h => (MealDefaultHistory.meal_slot h =? mealSlot)
                            && text_le (MealDefaultHistory.effective_date h)
                                       date)
                  (rows (meal_default_history db)))))) in
  nullish result 0.

Definition setDefaultAmount (mealSlot amount : Z) (effectiveDate : string)
    (db : Db) : Db :=
  on_meal_default_history
    (sql_upsert
       (fun h => (MealDefaultHistory.meal_slot h =? mealSlot)
                 && String.eqb (MealDefaultHistory.effective_date h)
                               effectiveDate)
       (fun h => MealDefaultHistory.mk (MealDefaultHistory.id h)
                   (MealDefaultHistory.meal_slot h) amount
                   (MealDefaultHistory.effective_date h))
       (fun id => MealDefaultHistory.mk id mealSlot amount effectiveDate))
    db.

Definition getMealEntries (date : string) (db : Db) : list MealEntry.t :=
  order_by (fun a b => MealEntry.meal_slot a <=? MealEntry.meal_slot b)
    (filter (fun e => String.eqb (MealEntry.date e) date)
            (rows (meal_entries db))).

Definition upsertMealEntry (date : string) (mealSlot : Z) (status : string)
    (actualAmount : option Z) (comment : option string) (db : Db) : Db :=
  on_meal_entries
    (sql_upsert
       (fun e => String.eqb (MealEntry.date e) date
                 && (MealEntry.meal_slot e =? mealSlot))
       (fun e => MealEntry.mk (MealEntry.id e) (MealEntry.date e)
                   (MealEntry.meal_slot e) status actualAmount comment)
       (fun id => MealEntry.mk id date mealSlot status actualAmount comment))
    db.

Record MedicationWithStatus : Set := mkMedicationWithStatus {
  mws_med : Medication.t;
  mws_taken : Z;
  mws_comment : option string
}.

Record MealWithStatus : Set := mkMealWithStatus {
  ms_meal_slot : Z;
  ms_label : string;
  ms_default_amount : Z;
  ms_status : string;
  ms_actual_amount : option Z;
  ms_comment : option string
}.

Record FullDayData : Set := mkFullDayData {
  fd_record : option DailyRecord.t;
  fd_date : string;
  fd_medications : list MedicationWithStatus;
  fd_meals : list MealWithStatus
}.

Definition getFullDayData (now date : string) (db : Db) : FullDayData * Db :=
  let '(record, db) := getOrCreateDailyRecord now date db in
  let medications := getMedications false db in
  let medicationEntries := getMedicationEntries date db in
  let mealConfig := getMealConfig db in
  let mealEntries := getMealEntries date db in
  let medicationsWithStatus :=
    map (fun med =>
           let entry :=
             find (fun e => MedicationEntry.medication_id (mer_entry e)
                              =? Medication.id med)
                  medicationEntries in
           mkMedicationWithStatus med
             (nullish (option_map (fun e => MedicationEntry.taken (mer_entry e))
                                  entry) 0)
             (match entry with
              | Some e => MedicationEntry.comment (mer_entry e)
              | None => None
              end))
        medications in
  let mealsWithStatus :=
    map (fun config =>
           let entry :=
             find (fun e => MealEntry.meal_slot e
                              =? MealConfig.meal_slot config)
                  mealEntries in
           let effectiveDefault :=
             getEffectiveDefaultAmount (MealConfig.meal_slot config) date db in
           mkMealWithStatus (MealConfig.meal_slot config)
             (MealConfig.label config) effectiveDefault
             (nullish (option_map MealEntry.status entry) "ate_fully")
             (match entry with
              | Some e => MealEntry.actual_amount e
              | None => None
              end)
             (match entry with
              | Some e => MealEntry.comment e
              | None => None
              end))
        mealConfig in
  (mkFullDayData record date medicationsWithStatus mealsWithStatus, db).

(* ================================================================= *)
(** ** status.ts: the stored status, issues and trends *)

(** [SELECT status FROM meal_entries WHERE date = ?]. *)
Definition select_meal_statuses (date : string) (db : Db) : list string :=
  map MealEntry.status
      (filter (fun e => String.eqb (MealEntry.date e) date)
              (rows (meal_entries db))).

Definition updateDayStatus (date : string) (db : Db) : DayStatus * Db :=
  match select_daily_record date db with
  | None => (GREEN, db)
  | Some record =>
      let meals := select_meal_statuses date db in
      let status :=
        calculateDayStatus
          (mkDayData (DailyRecord.vomited record) (DailyRecord.peed record)
                     (DailyRecord.pooped record) meals) in
      let db :=
        on_daily_records
          (sql_update (fun r => String.eqb (DailyRecord.date r) date)
                      (DailyRecord.set_day_status (DayStatus_text status)))
          db in
      (status, db)
  end.

Definition mealLabels : list string :=
  [""; "morning"; "day"; "evening"; "night"].

(** [`${mealLabels[slot]}`]: an index outside the array reads [undefined]. *)
Definition mealLabel (slot : Z) : string :=
  if slot <? 0 then "undefined"
  else nth (Z.to_nat slot) mealLabels "undefined".

Definition vomit_issue (vomited : Z) : string :=
  String.append "Vomit: " (render_Z vomited).

Definition meal_issue (meal : MealEntry.t) : string :=
  String.append "Meal "
    (String.append (render_Z (MealEntry.meal_slot meal))
       (String.append " ("
          (String.append (mealLabel (MealEntry.meal_slot meal))
             ") not eaten fully"))).

Definition getDayIssues (date : string) (db : Db) : list string :=
  match select_daily_record date db with
  | None => []
  | Some record =>
      let meals :=
        filter (fun e => String.eqb (MealEntry.date e) date)
               (rows (meal_entries db)) in
      let issues := [] in
      let issues :=
        if 0 <? DailyRecord.vomited record
        then issues ++ [vomit_issue (DailyRecord.vomited record)]
        else issues in
      let issues :=
        if DailyRecord.peed record =? 0 then issues ++ ["No pee"]
        else issues in
      let issues :=
        if DailyRecord.pooped record =? 0 then issues ++ ["No poop"]
        else issues in
      let missedMeals :=
        filter (fun m => negb (String.eqb (MealEntry.status m) "ate_fully"))
               meals in
      fold_left (fun issues meal => issues ++ [meal_issue meal])
                missedMeals issues
  end.

(** [SELECT key, COUNT( * ) ... GROUP BY key] over the key column. *)
Definition group_count (keys : list string) : list (string * Z) :=
  map (fun k => (k, sql_count (filter (String.eqb k) keys)))
      (order_by text_le (distinct keys)).

(** [groups.find(s => s.key === k)?.count ?? 0]. *)
Definition count_of (k : string) (groups : list (string * Z)) : Z :=
  nullish (option_map snd (find (fun s => String.eqb (fst s) k) groups)) 0.

Record StatusCounts : Set := mkStatusCounts {
  sc_RED : Z;
  sc_ORANGE : Z;
  sc_GREEN : Z
}.

(** The summary, its nested objects flattened. *)
Record TrendsSummary : Set := mkTrendsSummary {
  period : string * string;
  totalDays : Z;
  statusCounts : StatusCounts;
  daysWithVomit : Z;
  daysWithoutVomit : Z;
  peeDays : Z;
  poopDays : Z;
  noPeeDates : list string;
  noPoopDates : list string;
  meals_total : Z;
  meals_missed : Z;
  dailyMeals : list (string * Z);
  dailyVomit : list (string * Z)
}.

(** [... FROM daily_records WHERE date BETWEEN ? AND ?]. *)
Definition records_between (startDate endDate : string) (db : Db)
  : list DailyRecord.t :=
  filter (fun r => between (DailyRecord.date r) startDate endDate)
         (rows (daily_records db)).

(** [... FROM meal_entries WHERE date BETWEEN ? AND ?]. *)
Definition meals_between (startDate endDate : string) (db : Db)
  : list MealEntry.t :=
  filter (fun e => between (MealEntry.date e) startDate endDate)
         (rows (meal_entries db)).

Definition by_date (a b : DailyRecord.t) : bool :=
  text_le (DailyRecord.date a) (DailyRecord.date b).

Definition by_date_desc (a b : DailyRecord.t) : bool :=
  text_le (DailyRecord.date b) (DailyRecord.date a).

Definition is_missed (e : MealEntry.t) : bool :=
  negb (String.eqb (MealEntry.status e) "ate_fully").

Definition getTrendsSummary (startDate endDate : string) (db : Db)
  : TrendsSummary :=
  let in_range := records_between startDate endDate db in
  let totalDays := sql_count (distinct (map DailyRecord.date in_range)) in
  let statusCounts := group_count (map DailyRecord.day_status in_range) in
  let vomitDays :=
    sql_count (filter (fun r => 0 <? DailyRecord.vomited r) in_range) in
  let peeDays :=
    sql_count (filter (fun r => 0 <? DailyRecord.peed r) in_range) in
  let poopDays :=
    sql_count (filter (fun r => 0 <? DailyRecord.pooped r) in_range) in
  let noPeeDays :=
    order_by by_date_desc
      (filter (fun r => DailyRecord.peed r =? 0) in_range) in
  let noPoopDays :=
    order_by by_date_desc
      (filter (fun r => DailyRecord.pooped r =? 0) in_range) in
  let meals_in_range := meals_between startDate endDate db in
  let totalMeals := sql_count meals_in_range in
  let missedMeals := sql_count (filter is_missed meals_in_range) in
  let dailyMealStats :=
    map (fun d =>
           (d,
            fold_left Z.add
              (map (fun e => if is_missed e then 1 else 0)
                   (filter (fun e => String.eqb (MealEntry.date e) d)
                           meals_in_range))
              0))
        (order_by text_le (distinct (map MealEntry.date meals_in_range))) in
  let dailyVomitStats :=
    map (fun r => (DailyRecord.date r, DailyRecord.vomited r))
        (order_by by_date in_range) in
  mkTrendsSummary
    (startDate, endDate)
    totalDays
    (mkStatusCounts (count_of "RED" statusCounts)
                    (count_of "ORANGE" statusCounts)
                    (count_of "GREEN" statusCounts))
    vomitDays
    (totalDays - vomitDays)
    peeDays
    poopDays
    (map DailyRecord.date noPeeDays)
    (map DailyRecord.date noPoopDays)
    totalMeals
    missedMeals
    dailyMealStats
    dailyVomitStats.

Record ProblemDay : Set := mkProblemDay {
  pd_date : string;
  pd_status : string;
  pd_issues : list string
}.

Definition getProblemDays (startDate endDate : string) (db : Db)
  : list ProblemDay :=
  let problemDays :=
    order_by by_date_desc
      (filter
         (fun r => between (DailyRecord.date r) startDate endDate
                   && negb (String.eqb (DailyRecord.day_status r) "GREEN"))
         (rows (daily_records db))) in
  map (fun day =>
         mkProblemDay (DailyRecord.date day) (DailyRecord.day_status day)
                      (getDayIssues (DailyRecord.date day) db))
      problemDays.

(* ================================================================= *)
(** ** app.ts: the request handlers that touch the database *)

Module MedicationBody.
Record t : Set := mk {
  id : Z;
  taken : bool;
  comment : option string
}.
End MedicationBody.

Module MealBody.
Record t : Set := mk {
  slot : Z;
  status : string;
  actual_amount : option Z;
  set_default_amount : option Z;
  comment : option string
}.
End MealBody.

(** The body of [PUT /api/day/:date]: [recordData] is the rest of the body
    once [medications] and [meals] are taken out, whatever keys it has;
    the handler hands it to [updateDailyRecord] as it is. *)
Record DayBody : Set := mkDayBody {
  body_recordData : DailyPatch.t;
  body_medications : option (list MedicationBody.t);
  body_meals : option (list MealBody.t)
}.

(** [GET /api/day/:date]. *)
Definition get_day (now date : string) (db : Db) : FullDayData * Db :=
  getFullDayData now date db.

(** [PUT /api/day/:date].  The handler runs in no transaction and catches
    nothing: when [upsertMedicationEntry] throws, the request ends there
    with the error, after the statements that ran before it and without
    those that follow. *)
Definition put_day (now date : string) (body : DayBody) (db : Db)
  : Thrown FullDayData * Db :=
  let recordData := body_recordData body in
  let db :=
    if (0 <? List.length (Object_keys recordData))%nat
    then updateDailyRecord now date recordData db
    else db in
  let '(entries, db) :=
    match body_medications body with
    | Some medications =>
        for_of
          (fun med =>
             upsertMedicationEntry date (MedicationBody.id med)
               (MedicationBody.taken med) (MedicationBody.comment med))
          medications db
    | None => (Returns tt, db)
    end in
  match entries with
  | Throws message => (Throws message, db)
  | Returns _ =>
      let db :=
        match body_meals body with
        | Some meals =>
            fold_left
              (fun db meal =>
                 let db :=
                   match MealBody.set_default_amount meal with
                   | Some amount =>
                       setDefaultAmount (MealBody.slot meal) amount date db
                   | None => db
                   end in
                 upsertMealEntry date (MealBody.slot meal)
                   (MealBody.status meal) (MealBody.actual_amount meal)
                   (MealBody.comment meal) db)
              meals db
        | None => db
        end in
      let db := snd (updateDayStatus date db) in
      let '(data, db) := getFullDayData now date db in
      (Returns data, db)
  end.

(** [POST /api/medications]. *)
Definition post_medication (name time_label : string) (db : Db)
  : option Medication.t * Db :=
  addMedication name time_label db.

(** [PUT /api/medications/:id], [id] being the parsed parameter. *)
Definition put_medication (id : Z) (name time_label : option string)
    (sort_order : option Z) (db : Db) : Db :=
  let updates :=
    present "name = ?" name ++ present "time_label = ?" time_label
    ++ present "sort_order = ?" sort_order in
  if (0 <? List.length updates)%nat then
    on_medications
      (sql_update
         (fun m => Medication.id m =? id)
         (fun m => Medication.mk (Medication.id m)
                     (nullish name (Medication.name m))
                     (nullish time_label (Medication.time_label m))
                     (Medication.is_active m)
                     (nullish sort_order (Medication.sort_order m))))
      db
  else db.

(** [DELETE /api/medications/:id]. *)
Definition delete_medication (id : Z) (db : Db) : Db :=
  deactivateMedication id db.

(** [PUT /api/meal-config/:slot], [slot] being the parsed parameter and
    [today] the date of [new Date()]. *)
Definition put_meal_config (slot amount : Z) (effective_date : option string)
    (today : string) (db : Db) : Db :=
  let date := or_else effective_date today in
  setDefaultAmount slot amount date db.

(* ================================================================= *)
(** ** import.ts: the import of the parsed rows *)

(** [CsvRow], with its date parsed by [parseDate] and each meal column as
    the loop passes it on: the status [parseMealStatus] gives and the
    comment. *)
Record CsvDay : Set := mkCsvDay {
  csv_date : string;
  csv_teethBrushed : bool;
  csv_pooped : Z;
  csv_peed : Z;
  csv_drank : Z;
  csv_vomited : Z;
  csv_robeksera : bool;
  csv_gabapentinMorning : bool;
  csv_gabapentinEvening : bool;
  csv_normolactMorning : bool;
  csv_normolactEvening : bool;
  csv_renalvet : bool;
  csv_fortiflora : bool;
  csv_meal1 : string * option string;
  csv_meal2 : string * option string;
  csv_meal3 : string * option string;
  csv_meal4 : string * option string;
  csv_comments : string
}.

(** The ids [importCsv] holds before its loop, [undefined] or a number. *)
Record ImportIds : Set := mkImportIds {
  normolactMorningId : option Z;
  normolactEveningId : option Z;
  renalvetId : option Z;
  fortifloraId : option Z;
  robekserId : option Z;
  gabapentinMorningId : option Z;
  gabapentinEveningId : option Z
}.

(** [existingMeds.find(p)?.id]. *)
Definition find_id (p : Medication.t -> bool)
    (existingMeds : list Medication.t) : option Z :=
  option_map Medication.id (find p existingMeds).

(** An id as a condition: [undefined] and 0 are falsy. *)
Definition truthy (id : option Z) : bool :=
  match id with
  | None | Some 0 => false
  | Some _ => true
  end.

(** The block [if (!id) { const med = addMedication(name, timeLabel);
    id = med.id; db.prepare('UPDATE medications SET is_active = 0 WHERE
    id = ?').run(id) }] that [importCsv] has for each of the three
    medications that are no longer given, and the id after it; the
    statement is that of [deactivateMedication]. *)
Definition ensure_inactive (id : option Z) (name timeLabel : string)
    (db : Db) : Thrown (option Z) * Db :=
  if negb (truthy id) then
    let '(med, db) := addMedication name timeLabel db in
    match med with
    | None =>
        (Throws (js "Cannot read properties of undefined (reading 'id')"),
         db)
    | Some med =>
        (Returns (Some (Medication.id med)),
         deactivateMedication (Medication.id med) db)
    end
  else (Returns id, db).

(** [importCsv] before its loop: the database is initialized, the ids of
    the seven medications of the file are looked up by name, and the three
    that are no longer given are added, inactive, when they are not
    found. *)
Definition importCsv_ids (today : string) (db : Db)
  : Thrown ImportIds * Db :=
  let db := initializeDatabase today db in
  let existingMeds := getMedications true db in
  let named name time_label m :=
    String.eqb (Medication.name m) name
    && String.eqb (Medication.time_label m) time_label in
  let normolactMorningId :=
    find_id (named "Normolact" "morning") existingMeds in
  let normolactEveningId :=
    find_id (named "Normolact" "evening") existingMeds in
  let renalvetId :=
    find_id (fun m => String.eqb (Medication.name m) "Renalvet")
            existingMeds in
  let fortifloraId :=
    find_id (fun m => String.eqb (Medication.name m) "FortiFlora")
            existingMeds in
  let robekserId :=
    find_id (fun m => String.eqb (Medication.name m) "Robeksera")
            existingMeds in
  let gabapentinMorningId :=
    find_id (named "Gabapentin" "morning") existingMeds in
  let gabapentinEveningId :=
    find_id (named "Gabapentin" "evening") existingMeds in
  match ensure_inactive robekserId "Robeksera" "with food or after" db with
  | (Throws message, db) => (Throws message, db)
  | (Returns robekserId, db) =>
      match ensure_inactive gabapentinMorningId "Gabapentin" "morning" db
      with
      | (Throws message, db) => (Throws message, db)
      | (Returns gabapentinMorningId, db) =>
          match ensure_inactive gabapentinEveningId "Gabapentin" "evening"
                                db
          with
          | (Throws message, db) => (Throws message, db)
          | (Returns gabapentinEveningId, db) =>
              (Returns
                 (mkImportIds normolactMorningId normolactEveningId
                    renalvetId fortifloraId robekserId gabapentinMorningId
                    gabapentinEveningId),
               db)
          end
      end
  end.

(** The body of the loop of [importCsv] for a row that is not skipped;
    [row.comments || null] is NULL on the empty string.  The seven
    statements [if (id) upsertMedicationEntry(date, id, flag)] run in
    their order; an exception ends the row, and the [catch] of the loop
    goes on to the next row. *)
Definition importCsv_row (now : string) (ids : ImportIds) (row : CsvDay)
    (db : Db) : Db :=
  let date := csv_date row in
  let db :=
    updateDailyRecord now date
      (DailyPatch.mk None None
         (Some (if csv_teethBrushed row then 1 else 0)) None
         (Some (csv_vomited row)) None
         (Some (csv_peed row)) None
         (Some (csv_pooped row)) None
         (Some (csv_drank row)) None
         (Some (match csv_comments row with
                | EmptyString => None
                | c => Some c
                end))
         None)
      db in
  let '(entries, db) :=
    for_of
      (fun med db =>
         if truthy (fst med)
         then upsertMedicationEntry date (nullish (fst med) 0) (snd med)
                                    None db
         else (Returns tt, db))
      [ (normolactMorningId ids, csv_normolactMorning row);
        (normolactEveningId ids, csv_normolactEvening row);
        (renalvetId ids, csv_renalvet row);
        (fortifloraId ids, csv_fortiflora row);
        (robekserId ids, csv_robeksera row);
        (gabapentinMorningId ids, csv_gabapentinMorning row);
        (gabapentinEveningId ids, csv_gabapentinEvening row) ]
      db in
  match entries with
  | Throws _ => db
  | Returns _ =>
      let db :=
        upsertMealEntry date 1 (fst (csv_meal1 row)) None
                        (snd (csv_meal1 row)) db in
      let db :=
        upsertMealEntry date 2 (fst (csv_meal2 row)) None
                        (snd (csv_meal2 row)) db in
      let db :=
        upsertMealEntry date 3 (fst (csv_meal3 row)) None
                        (snd (csv_meal3 row)) db in
      let db :=
        upsertMealEntry date 4 (fst (csv_meal4 row)) None
                        (snd (csv_meal4 row)) db in
      snd (updateDayStatus date db)
  end.

(** [importCsv] on the rows of the file that are not skipped, each with
    the clock value of its statements; [today] is the date of
    [initializeDatabase]. *)
Definition importCsv (today : string) (rows : list (string * CsvDay))
    (db : Db) : Thrown unit * Db :=
  match importCsv_ids today db with
  | (Throws message, db) => (Throws message, db)
  | (Returns ids, db) =>
      (Returns tt,
       fold_left (fun db row => importCsv_row (fst row) ids (snd row) db)
                 rows db)
  end.

(* ================================================================= *)
(** ** Reachable states *)

(** A request that may write to the database, and a run of the import
    script. *)
Inductive Request : Type :=
| Startup (today : string)
| GetDay (now date : string)
| PutDay (now date : string) (body : DayBody)
| PostMedication (name time_label : string)
| PutMedication (id : Z) (name time_label : option string)
                (sort_order : option Z)
| DeleteMedication (id : Z)
| PutMealConfig (slot amount : Z) (effective_date : option string)
                (today : string)
| Import (today : string) (rows : list (string * CsvDay)).

(** The state a request leaves, whether it is answered or ends with an
    exception. *)
Definition handle (db : Db) (req : Request) : Db :=
  match req with
  | Startup today => initializeDatabase today db
  | GetDay now date => snd (get_day now date db)
  | PutDay now date body => snd (put_day now date body db)
  | PostMedication name time_label => snd (post_medication name time_label db)
  | PutMedication id name time_label sort_order =>
      put_medication id name time_label sort_order db
  | DeleteMedication id => delete_medication id db
  | PutMealConfig slot amount effective_date today =>
      put_meal_config slot amount effective_date today db
  | Import today rows => snd (importCsv today rows db)
  end.

Definition run (reqs : list Request) (db : Db) : Db :=
  fold_left handle reqs db.

(** The states the requests can bring a new database file to.  A server
    runs [Startup] before anything else; the sequences that do not are
    reachable here all the same. *)
Definition reachable (db : Db) : Prop :=
  exists reqs, db = run reqs empty_db.

(* ================================================================= *)
(** ** Weakening a condition of the classifier *)

(** [weakens d d']: [d'] is [d] with one RED-triggering condition taken
    below its threshold and everything else as it was. *)
Inductive weakens : DayData -> DayData -> Prop :=
| weaken_vomit v p q ms :
    weakens (mkDayData v p q ms) (mkDayData 0 p q ms)
| weaken_pee v p' q ms :
    p' > 0 -> weakens (mkDayData v 0 q ms) (mkDayData v p' q ms)
| weaken_poop v p q' ms :
    q' > 0 -> weakens (mkDayData v p 0 ms) (mkDayData v p q' ms)
| weaken_meal v p q before m after :
    m <> "ate_fully" ->
    weakens (mkDayData v p q (before ++ m :: after))
            (mkDayData v p q (before ++ "ate_fully" :: after)).

(** [hasMissedMeal] of the classifier. *)
Definition missedb (meals : list string) : bool :=
  existsb (fun m => negb (String.eqb m "ate_fully")) meals.

(* ================================================================= *)
(** ** The history of default amounts, as the properties speak of it *)

Definition history (db : Db) : list MealDefaultHistory.t :=
  rows (meal_default_history db).

Definition version_key (h : MealDefaultHistory.t) : Z * string :=
  (MealDefaultHistory.meal_slot h, MealDefaultHistory.effective_date h).

(** The constraint [UNIQUE(meal_slot, effective_date)]. *)
Definition history_unique (db : Db) : Prop :=
  NoDup (map version_key (history db)).

(** The conflict target of [setDefaultAmount]: [h] is the version of the
    pair [(slot, date)]. *)
Definition same_version (slot : Z) (date : string)
    (h : MealDefaultHistory.t) : bool :=
  (MealDefaultHistory.meal_slot h =? slot)
  && String.eqb (MealDefaultHistory.effective_date h) date.

(** The assignment [default_amount = excluded.default_amount]. *)
Definition set_amount (amount : Z) (h : MealDefaultHistory.t)
  : MealDefaultHistory.t :=
  MealDefaultHistory.mk (MealDefaultHistory.id h)
    (MealDefaultHistory.meal_slot h) amount
    (MealDefaultHistory.effective_date h).

(** The versions stored for the pair [(slot, date)]. *)
Definition versions_at (slot : Z) (date : string) (db : Db)
  : list MealDefaultHistory.t :=
  filter (same_version slot date) (history db).

(** [h] is a version of [slot] effective on or before [date]. *)
Definition applies (slot : Z) (date : string) (db : Db)
    (h : MealDefaultHistory.t) : Prop :=
  In h (history db)
  /\ MealDefaultHistory.meal_slot h = slot
  /\ text_le (MealDefaultHistory.effective_date h) date = true.

(** [h] is the version of [slot] with the greatest effective date on or
    before [date]. *)
Definition in_force (slot : Z) (date : string) (db : Db)
    (h : MealDefaultHistory.t) : Prop :=
  applies slot date db h
  /\ forall h', applies slot date db h' ->
                text_le (MealDefaultHistory.effective_date h')
                        (MealDefaultHistory.effective_date h) = true.

(** A version of [slot] effective from [from] would be the one in force on
    [date]: [date] is on or after [from] and before the next version that
    [db] holds for the slot. *)
Definition covers (slot : Z) (from date : string) (db : Db) : Prop :=
  text_le from date = true
  /\ forall h, applies slot date db h ->
               text_le (MealDefaultHistory.effective_date h) from = true.

(** A version that [db] holds for [slot] lies after [from] and on or
    before [date]. *)
Definition superseded (slot : Z) (from date : string) (db : Db) : Prop :=
  exists h, applies slot date db h
            /\ text_le (MealDefaultHistory.effective_date h) from = false.

(** The rows [getEffectiveDefaultAmount] selects from. *)
Definition applicable (slot : Z) (date : string) (db : Db)
  : list MealDefaultHistory.t :=
  filter (fun h => (MealDefaultHistory.meal_slot h =? slot)
                   && text_le (MealDefaultHistory.effective_date h) date)
         (history db).

(* ================================================================= *)
(** ** The daily records, as the properties speak of them *)

Definition days (db : Db) : list DailyRecord.t := rows (daily_records db).

Definition meals (db : Db) : list MealEntry.t := rows (meal_entries db).

(** The constraint [UNIQUE] of [daily_records.date]. *)
Definition dates_unique (db : Db) : Prop :=
  NoDup (map DailyRecord.date (days db)).

Definition meal_key (e : MealEntry.t) : string * Z :=
  (MealEntry.date e, MealEntry.meal_slot e).

(** The constraint [UNIQUE(date, meal_slot)] of [meal_entries]. *)
Definition meals_unique (db : Db) : Prop :=
  NoDup (map meal_key (meals db)).

(** The classification of the day of [r], recomputed by the classifier from
    the raw counts of [r] and the meal statuses stored for its date. *)
Definition classify_day (db : Db) (r : DailyRecord.t) : DayStatus :=
  calculateDayStatus
    (mkDayData (DailyRecord.vomited r) (DailyRecord.peed r)
               (DailyRecord.pooped r)
               (select_meal_statuses (DailyRecord.date r) db)).

(** The stored [day_status] of [r] is its recomputed classification. *)
Definition status_fresh (db : Db) (r : DailyRecord.t) : Prop :=
  DailyRecord.day_status r = DayStatus_text (classify_day db r).

(** What a patch makes of a row, field by field: a field the patch names
    takes the patch's value, [id] and [date] excepted; [updated_at] takes
    the clock value when the patch names a field other than those two. *)
Definition names_a_column (data : DailyPatch.t) : bool :=
  negb (List.length
          (filter (fun k => negb (Field_eqb k f_id)
                            && negb (Field_eqb k f_date))
                  (Object_keys data)) =? 0)%nat.

Definition patched (now : string) (data : DailyPatch.t) (r : DailyRecord.t)
  : DailyRecord.t :=
  DailyRecord.mk
    (DailyRecord.id r)
    (DailyRecord.date r)
    (nullish (DailyPatch.teeth_brushed data) (DailyRecord.teeth_brushed r))
    (nullish (DailyPatch.teeth_comment data) (DailyRecord.teeth_comment r))
    (nullish (DailyPatch.vomited data) (DailyRecord.vomited r))
    (nullish (DailyPatch.vomited_comment data) (DailyRecord.vomited_comment r))
    (nullish (DailyPatch.peed data) (DailyRecord.peed r))
    (nullish (DailyPatch.peed_comment data) (DailyRecord.peed_comment r))
    (nullish (DailyPatch.pooped data) (DailyRecord.pooped r))
    (nullish (DailyPatch.pooped_comment data) (DailyRecord.pooped_comment r))
    (nullish (DailyPatch.drank data) (DailyRecord.drank r))
    (nullish (DailyPatch.drank_comment data) (DailyRecord.drank_comment r))
    (nullish (DailyPatch.daily_notes data) (DailyRecord.daily_notes r))
    (nullish (DailyPatch.day_status data) (DailyRecord.day_status r))
    (DailyRecord.created_at r)
    (if names_a_column data then now else DailyRecord.updated_at r).

(** The buckets of the classification recomputed for each day in range. *)
Definition DayStatus_eqb (a b : DayStatus) : bool :=
  match a, b with
  | RED, RED | ORANGE, ORANGE | GREEN, GREEN => true
  | _, _ => false
  end.

Definition recomputed_statusCounts (startDate endDate : string) (db : Db)
  : StatusCounts :=
  let classes := map (classify_day db) (records_between startDate endDate db) in
  mkStatusCounts (sql_count (filter (DayStatus_eqb RED) classes))
                 (sql_count (filter (DayStatus_eqb ORANGE) classes))
                 (sql_count (filter (DayStatus_eqb GREEN) classes)).

(** The problem days selected and labelled by the recomputed
    classification. *)
Definition recomputed_problemDays (startDate endDate : string) (db : Db)
  : list ProblemDay :=
  map (fun day =>
         mkProblemDay (DailyRecord.date day)
                      (DayStatus_text (classify_day db day))
                      (getDayIssues (DailyRecord.date day) db))
      (order_by by_date_desc
         (filter
            (fun r => between (DailyRecord.date r) startDate endDate
                      && negb (DayStatus_eqb (classify_day db r) GREEN))
            (days db))).

(** The issue list of a day, read off its raw data: the vomit count when
    positive, "No pee", "No poop", then a line per meal entry of the date
    that was not eaten fully. *)
Definition issues_of (r : DailyRecord.t) (entries : list MealEntry.t)
  : list string :=
  (if 0 <? DailyRecord.vomited r then [vomit_issue (DailyRecord.vomited r)]
   else [])
  ++ (if DailyRecord.peed r =? 0 then ["No pee"] else [])
  ++ (if DailyRecord.pooped r =? 0 then ["No poop"] else [])
  ++ map meal_issue (filter is_missed entries).

(** The meal entries stored for a date. *)
Definition meals_on (date : string) (db : Db) : list MealEntry.t :=
  filter (fun e => String.eqb (MealEntry.date e) date) (meals db).


(** What holds as long as no request has ended with an exception: the
    UNIQUE constraints, and a stored status that is the recomputed one or
    the default 'GREEN'. *)
Definition fresh_or_green (db : Db) (r : DailyRecord.t) : Prop :=
  status_fresh db r \/ DailyRecord.day_status r = "GREEN".

Record consistent (db : Db) : Prop := mkConsistent {
  c_dates : dates_unique db;
  c_history : history_unique db;
  c_meals : meals_unique db;
  c_status : forall r, In r (days db) -> fresh_or_green db r
}.

(** The same, the record of one date left aside: the state of a request
    that has written to that date and not yet recomputed its status. *)
Record consistent_but (date : string) (db : Db) : Prop := mkConsistentBut {
  cb_dates : dates_unique db;
  cb_history : history_unique db;
  cb_meals : meals_unique db;
  cb_status : forall r, In r (days db) -> DailyRecord.date r <> date ->
                        fresh_or_green db r
}.

(** The keys [updateDailyRecord] keeps. *)
Definition is_column (k : Field) : bool :=
  negb (Field_eqb k f_id) && negb (Field_eqb k f_date).

(** The row after the assignments of the keys [fields]. *)
Definition assigned (fields : list Field) (data : DailyPatch.t)
    (r : DailyRecord.t) : DailyRecord.t :=
  let pick {A : Type} (f : Field) (x : option A) (old : A) : A :=
    if existsb (Field_eqb f) fields then nullish x old else old in
  DailyRecord.mk
    (pick f_id (DailyPatch.id data)
          (DailyRecord.id r))
    (pick f_date (DailyPatch.date data)
          (DailyRecord.date r))
    (pick f_teeth_brushed (DailyPatch.teeth_brushed data)
          (DailyRecord.teeth_brushed r))
    (pick f_teeth_comment (DailyPatch.teeth_comment data)
          (DailyRecord.teeth_comment r))
    (pick f_vomited (DailyPatch.vomited data)
          (DailyRecord.vomited r))
    (pick f_vomited_comment (DailyPatch.vomited_comment data)
          (DailyRecord.vomited_comment r))
    (pick f_peed (DailyPatch.peed data)
          (DailyRecord.peed r))
    (pick f_peed_comment (DailyPatch.peed_comment data)
          (DailyRecord.peed_comment r))
    (pick f_pooped (DailyPatch.pooped data)
          (DailyRecord.pooped r))
    (pick f_pooped_comment (DailyPatch.pooped_comment data)
          (DailyRecord.pooped_comment r))
    (pick f_drank (DailyPatch.drank data)
          (DailyRecord.drank r))
    (pick f_drank_comment (DailyPatch.drank_comment data)
          (DailyRecord.drank_comment r))
    (pick f_daily_notes (DailyPatch.daily_notes data)
          (DailyRecord.daily_notes r))
    (pick f_day_status (DailyPatch.day_status data)
          (DailyRecord.day_status r))
    (DailyRecord.created_at r)
    (DailyRecord.updated_at r).

(** [db'] has the daily records and meal entries of [db], and its history
    is under the UNIQUE constraint if that of [db] is. *)
Definition same_days (db db' : Db) : Prop :=
  days db' = days db /\ meals db' = meals db
  /\ (history_unique db -> history_unique db').

(** The stored status is one of the three literals. *)
Definition status_valid (r : DailyRecord.t) : Prop :=
  DailyRecord.day_status r = "RED" \/ DailyRecord.day_status r = "ORANGE"
  \/ DailyRecord.day_status r = "GREEN".

(** The columns [date] and [day_status] of the daily records, row by
    row. *)
Definition stored_statuses (db : Db) : list (string * string) :=
  map (fun r => (DailyRecord.date r, DailyRecord.day_status r)) (days db).


(** What holds of every reachable state: the UNIQUE constraints of the
    three tables. *)
Record constraints (db : Db) : Prop := mkConstraints {
  k_dates : dates_unique db;
  k_history : history_unique db;
  k_meals : meals_unique db
}.



(* ================================================================= *)
(** ** import.ts: the text of the CSV file *)

(** [a === b] on strings. *)
Fixpoint js_eqb (a b : jsstring) : bool :=
  match a, b with
  | [], [] => true
  | c :: a', d :: b' => (c =? d)%N && js_eqb a' b'
  | _, _ => false
  end.

Fixpoint starts_with (sub s : jsstring) : bool :=
  match sub, s with
  | [], _ => true
  | c :: sub', d :: s' => (c =? d)%N && starts_with sub' s'
  | _ :: _, [] => false
  end.

(** [s.includes(sub)]. *)
Fixpoint includes (s sub : jsstring) : bool :=
  starts_with sub s
  || match s with
     | [] => false
     | _ :: s' => includes s' sub
     end.

(** White space and line terminators, the code units [trim] strips. *)
Definition is_space (c : N) : bool :=
  existsb (N.eqb c)
          [9; 10; 11; 12; 13; 32; 160; 5760; 8232; 8233; 8239; 8287; 12288;
           65279]%N
  || ((8192 <=? c) && (c <=? 8202))%N.

Fixpoint trimStart (s : jsstring) : jsstring :=
  match s with
  | [] => []
  | c :: s' => if is_space c then trimStart s' else s
  end.

(** [s.trim()]. *)
Definition trim (s : jsstring) : jsstring :=
  rev (trimStart (rev (trimStart s))).

(** [s.split(sep)] for a separator of one code unit. *)
Fixpoint split (sep : N) (s : jsstring) : list jsstring :=
  match s with
  | [] => [[]]
  | c :: s' =>
      if (c =? sep)%N then [] :: split sep s'
      else
        match split sep s' with
        | part :: parts => (c :: part) :: parts
        | [] => [[c]]
        end
  end.

(** [s.padStart(n, pad)] for a pad of one code unit. *)
Definition padStart (n : nat) (pad : N) (s : jsstring) : jsstring :=
  repeat pad (n - List.length s) ++ s.

Definition quote : N := 34.
Definition comma : N := 44.
Definition hyphen : N := 45.
Definition dot : N := 46.
Definition zero : N := 48.

Definition parseDate (dateStr : jsstring) : Thrown jsstring :=
  let parts := split dot dateStr in
  match parts with
  | [day; month; year] =>
      Returns (year ++ [hyphen] ++ padStart 2 zero month ++ [hyphen]
               ++ padStart 2 zero day)
  | _ => Throws (js "Invalid date format: " ++ dateStr)
  end.

(** The Cyrillic literals of [parseMealStatus]: "doel" (ate it up), "ne
    doel" (did not eat it up), "ne davala" (did not give) and "byl v
    klinike" (was at the clinic). *)
Definition lit_doel : jsstring := [1076; 1086; 1077; 1083]%N.
Definition lit_ne_doel : jsstring :=
  [1085; 1077; 32; 1076; 1086; 1077; 1083]%N.
Definition lit_ne_davala : jsstring :=
  [1085; 1077; 32; 1076; 1072; 1074; 1072; 1083; 1072]%N.
Definition lit_byl_v_klinike : jsstring :=
  [1073; 1099; 1083; 32; 1074; 32; 1082; 1083; 1080; 1085; 1080; 1082;
   1077]%N.

(** [parseMealStatus]; [toLowerCase] is the method of the engine. *)
Definition parseMealStatus (toLowerCase : jsstring -> jsstring)
    (value : jsstring) : string :=
  if js_eqb value [] || js_eqb value (js "-") || js_eqb value (js "")
  then "ate_fully"
  else
    let lower := toLowerCase value in
    if js_eqb lower lit_doel || includes lower lit_doel then "ate_fully"
    else if js_eqb lower lit_ne_doel || includes lower lit_ne_doel
    then "not_fully"
    else if includes lower lit_ne_davala || includes lower lit_byl_v_klinike
    then "skipped"
    else "ate_fully".

(** The variables of the loop of [parseCsvLine]. *)
Record CsvLoop : Set := mkCsvLoop {
  csv_result : list jsstring;
  csv_current : jsstring;
  csv_inQuotes : bool
}.

Definition parseCsvLine_char (st : CsvLoop) (char : N) : CsvLoop :=
  let '(mkCsvLoop result current inQuotes) := st in
  if (char =? quote)%N then mkCsvLoop result current (negb inQuotes)
  else if (char =? comma)%N && negb inQuotes
  then mkCsvLoop (result ++ [trim current]) [] inQuotes
  else mkCsvLoop result (current ++ [char]) inQuotes.

Definition parseCsvLine (line : jsstring) : list jsstring :=
  let st := fold_left parseCsvLine_char line (mkCsvLoop [] [] false) in
  csv_result st ++ [trim (csv_current st)].

(** A field as a CSV file writes it, in double quotes or bare, and the line
    of some fields. *)
Definition csv_field (f : bool * jsstring) : jsstring :=
  if fst f then [quote] ++ snd f ++ [quote] else snd f.

Fixpoint csv_line (fields : list (bool * jsstring)) : jsstring :=
  match fields with
  | [] => []
  | [f] => csv_field f
  | f :: rest => csv_field f ++ [comma] ++ csv_line rest
  end.

(** What a field must be like for the line to give it back: no double
    quote in it, no comma unless it is written in quotes, no white space
    at either end. *)
Definition writable (f : bool * jsstring) : Prop :=
  ~ In quote (snd f)
  /\ (fst f = false -> ~ In comma (snd f))
  /\ trim (snd f) = snd f.

(* ================================================================= *)
(** ** The medications and the meal configuration, as the properties speak
    of them *)

Definition meds (db : Db) : list Medication.t := rows (medications db).

(** The ids of the medications are those AUTOINCREMENT has given out: no
    two rows share one and none is above the counter. *)
Definition meds_ok (db : Db) : Prop :=
  NoDup (map Medication.id (meds db))
  /\ Forall (fun m => Medication.id m <= seq (medications db)) (meds db).

(** No configured default amount is positive. *)
Definition config_zero (db : Db) : Prop :=
  Forall (fun c => MealConfig.default_amount c = 0) (rows (meal_config db)).

(** The medication is on the list [getMedications] gives by default. *)
Definition listed (id : Z) (db : Db) : Prop :=
  In id (map Medication.id (getMedications false db)).


(** Two tables of daily records that differ in [day_status] at most. *)
Definition same_but_status (l l' : list DailyRecord.t) : Prop :=
  map (DailyRecord.set_day_status "") l' = map (DailyRecord.set_day_status "") l.






(** The id, when it counts as one, is that of a stored medication. *)
Definition id_stored (id : option Z) (db : Db) : Prop :=
  truthy id = true -> In (nullish id 0) (map Medication.id (meds db)).

(** The ids [importCsv] writes entries for are those of stored
    medications. *)
Definition ids_stored (ids : ImportIds) (db : Db) : Prop :=
  id_stored (normolactMorningId ids) db
  /\ id_stored (normolactEveningId ids) db
  /\ id_stored (renalvetId ids) db
  /\ id_stored (fortifloraId ids) db
  /\ id_stored (robekserId ids) db
  /\ id_stored (gabapentinMorningId ids) db
  /\ id_stored (gabapentinEveningId ids) db.


(** From [db] to [db'] no date loses its record and meal entries are added
    for [date] only. *)
Definition grows_on (date : string) (db db' : Db) : Prop :=
  incl (map DailyRecord.date (days db)) (map DailyRecord.date (days db'))
  /\ forall d, In d (map MealEntry.date (meals db')) ->
               d = date \/ In d (map MealEntry.date (meals db)).

(** The date has an entry for the slot, and every entry of the date for
    the slot holds this status, amount and comment. *)
Definition meal_written (date : string) (slot : Z) (status : string)
    (amount : option Z) (comment : option string) (db : Db) : Prop :=
  (exists e, In e (getMealEntries date db) /\ MealEntry.meal_slot e = slot)
  /\ forall e, In e (getMealEntries date db) ->
               MealEntry.meal_slot e = slot ->
               MealEntry.status e = status
               /\ MealEntry.actual_amount e = amount
               /\ MealEntry.comment e = comment.

(* ================================================================= *)
(** * Properties *)

(** ** The classifier *)

Lemma missedb_spec meals : missedb meals = true <-> some_meal_missed meals.
Proof.
  unfold missedb, some_meal_missed. rewrite existsb_exists.
  split; intros [m [Hin Hm]]; exists m; split; trivial.
  - intro E. subst m. discriminate Hm.
  - destruct (String.eqb_spec m "ate_fully"); [contradiction | reflexivity].
Qed.

Lemma missedb_false meals : missedb meals = false <-> ~ some_meal_missed meals.
Proof.
  rewrite <- missedb_spec. destruct (missedb meals).
  - split; [discriminate | intro H; exfalso; apply H; reflexivity].
  - split; [intros _ H; discriminate H | reflexivity].
Qed.

Lemma first_match_functional d rules s s' :
  first_match d rules s -> first_match d rules s' -> s = s'.
Proof.
  intros H. revert s'.
  induction H; intros s2 H2; inversion H2; subst; auto; contradiction.
Qed.

Ltac case_counts v p q :=
  destruct (Z.ltb_spec 0 v); destruct (Z.eqb_spec p 0);
  destruct (Z.eqb_spec q 0).

Lemma calculateDayStatus_is_first_match d :
  first_match d ordered_rules (calculateDayStatus d).
Proof.
  destruct d as [v p q ms]. unfold calculateDayStatus, ordered_rules.
  fold (missedb ms).
  destruct (missedb ms) eqn:Hm;
    [apply missedb_spec in Hm | apply missedb_false in Hm];
    case_counts v p q; simpl;
    repeat first
      [ apply fm_otherwise
      | apply fm_here; unfold rule1, rule2, rule3, rule4, rule5; simpl;
        solve [intuition lia]
      | apply fm_later;
        [ unfold rule1, rule2, rule3, rule4, rule5; simpl;
          solve [intuition lia] | ] ].
Qed.

Lemma missedb_repeat n : missedb (repeat "ate_fully" n) = false.
Proof. induction n; simpl; auto. Qed.

Lemma missedb_weaken before m after :
  missedb (before ++ "ate_fully" :: after) = true ->
  missedb (before ++ m :: after) = true.
Proof.
  unfold missedb. rewrite !existsb_app. simpl.
  destruct (existsb _ before); simpl; auto.
  destruct (existsb _ after); simpl; auto.
  - intros _. apply orb_true_r.
  - discriminate.
Qed.

(** C1. [calculateDayStatus] returns the result of the first rule that
    matches in the ordered list of the six rules (RED, RED, ORANGE, ORANGE,
    ORANGE, otherwise GREEN), and no other status is such a result; the
    empty sequence of meal statuses has no missed meal, classifies as any
    number of fully eaten meals does, and is never more severe than another
    sequence with the same counts. *)
Theorem calculateDayStatus_first_match_wins :
  (forall d s, first_match d ordered_rules s <-> calculateDayStatus d = s)
  /\ ~ some_meal_missed []
  /\ (forall v p q n,
        calculateDayStatus (mkDayData v p q [])
        = calculateDayStatus (mkDayData v p q (repeat "ate_fully" n)))
  /\ (forall v p q ms,
        severity (calculateDayStatus (mkDayData v p q []))
        <= severity (calculateDayStatus (mkDayData v p q ms))).
Proof.
  split; [ | split; [ | split ] ].
  - intros d s. split.
    + intro H.
      exact (first_match_functional _ _ _ _
               (calculateDayStatus_is_first_match d) H).
    + intros <-. apply calculateDayStatus_is_first_match.
  - intros [m [[] _]].
  - intros v p q n. unfold calculateDayStatus.
    fold (missedb (repeat "ate_fully" n)). rewrite missedb_repeat.
    reflexivity.
  - intros v p q ms. unfold calculateDayStatus. fold (missedb ms).
    simpl existsb.
    destruct (missedb ms); case_counts v p q; simpl; lia.
Qed.

(** The examples of the specification. *)
Example classify_examples :
  calculateDayStatus (mkDayData 0 0 0 ["ate_fully"]) = RED
  /\ calculateDayStatus (mkDayData 1 2 1 ["ate_fully"; "ate_fully"]) = ORANGE
  /\ calculateDayStatus (mkDayData 0 0 3 ["ate_fully"]) = ORANGE
  /\ calculateDayStatus (mkDayData 2 0 1 ["ate_fully"]) = RED
  /\ calculateDayStatus (mkDayData 0 1 1 ["not_fully"]) = ORANGE
  /\ calculateDayStatus (mkDayData 0 1 1 ["ate_fully"; "ate_fully"]) = GREEN
  /\ calculateDayStatus (mkDayData 0 1 1 []) = GREEN.
Proof. repeat split. Qed.

(** C5. Weakening one RED-triggering condition (vomit count set to 0, pee
    or poop count raised from 0 to a positive number, one meal status that
    is not ate_fully changed to ate_fully), the rest staying fixed, never
    gives a status of higher severity; and whenever pee and poop counts are
    both 0 the status is RED, whatever the vomit count and the meals. *)
Theorem calculateDayStatus_monotone d d' :
  weakens d d' ->
  severity (calculateDayStatus d') <= severity (calculateDayStatus d)
  /\ (forall v ms, calculateDayStatus (mkDayData v 0 0 ms) = RED).
Proof.
  intro W. split.
  - destruct W; unfold calculateDayStatus.
    + fold (missedb ms). destruct (missedb ms); case_counts v p q;
        simpl; lia.
    + fold (missedb ms).
      destruct (missedb ms); destruct (Z.ltb_spec 0 v);
        destruct (Z.eqb_spec p' 0); destruct (Z.eqb_spec q 0);
        simpl; lia.
    + fold (missedb ms).
      destruct (missedb ms); destruct (Z.ltb_spec 0 v);
        destruct (Z.eqb_spec p 0); destruct (Z.eqb_spec q' 0);
        simpl; lia.
    + fold (missedb (before ++ m :: after)).
      fold (missedb (before ++ "ate_fully" :: after)).
      pose proof (missedb_weaken before m after) as Hw.
      destruct (missedb (before ++ "ate_fully" :: after));
        [ rewrite (Hw eq_refl) | ];
        destruct (missedb (before ++ m :: after));
        case_counts v p q; simpl; lia.
  - intros v ms. unfold calculateDayStatus.
    destruct (0 <? v); reflexivity.
Qed.

Lemma calculateDayStatus_monotone_witness :
  severity (calculateDayStatus (mkDayData 2 3 1 ["ate_fully"]))
  <= severity (calculateDayStatus (mkDayData 2 0 1 ["ate_fully"]))
  /\ (forall v ms, calculateDayStatus (mkDayData v 0 0 ms) = RED).
Proof.
  apply (calculateDayStatus_monotone
           (mkDayData 2 0 1 ["ate_fully"]) (mkDayData 2 3 1 ["ate_fully"])).
  apply weaken_pee. lia.
Defined.

(** ** The order on TEXT *)

Lemma text_le_refl a : text_le a a = true.
Proof.
  unfold text_le, String.leb.
  assert (E : String.compare a a = Eq)
    by (apply String_as_OT.cmp_eq; reflexivity).
  rewrite E. reflexivity.
Qed.

Lemma text_le_total a b : text_le a b = true \/ text_le b a = true.
Proof. apply String.leb_total. Qed.

Lemma text_le_antisym a b :
  text_le a b = true -> text_le b a = true -> a = b.
Proof. apply String.leb_antisym. Qed.

Lemma text_le_cases a b :
  text_le a b = true <-> String_as_OT.lt a b \/ a = b.
Proof.
  unfold text_le, String.leb.
  destruct (String.compare a b) eqn:E.
  - apply String_as_OT.cmp_eq in E. intuition.
  - apply String_as_OT.cmp_lt in E. intuition.
  - split; [discriminate | ].
    intros [H | H].
    + apply String_as_OT.cmp_lt in H. unfold String_as_OT.cmp in H. congruence.
    + apply String_as_OT.cmp_eq in H. unfold String_as_OT.cmp in H. congruence.
Qed.

Lemma text_le_trans a b c :
  text_le a b = true -> text_le b c = true -> text_le a c = true.
Proof.
  rewrite !text_le_cases. intros [H1 | ->] [H2 | ->]; auto.
  left. eapply String_as_OT.lt_trans; eauto.
Qed.

Lemma text_le_false a b : text_le a b = false -> text_le b a = true.
Proof.
  intro H. destruct (text_le_total a b) as [E | E]; congruence.
Qed.

(** ** ORDER BY *)

Section OrderBy.
Context {A : Type} (le : A -> A -> bool).
Hypothesis le_total : forall a b, le a b = true \/ le b a = true.
Hypothesis le_trans :
  forall a b c, le a b = true -> le b c = true -> le a c = true.

Let leP (a b : A) : Prop := le a b = true.

Lemma insert_by_perm x l : Permutation (insert_by le x l) (x :: l).
Proof.
  induction l as [ | y l IH]; simpl; auto.
  destruct (le x y); auto.
  rewrite IH. apply perm_swap.
Qed.

Lemma order_by_perm l : Permutation (order_by le l) l.
Proof.
  induction l as [ | x l IH]; simpl; auto.
  rewrite insert_by_perm. auto.
Qed.

Lemma order_by_In x l : In x (order_by le l) <-> In x l.
Proof.
  split; apply Permutation_in;
    [ | apply Permutation_sym ]; apply order_by_perm.
Qed.

Lemma order_by_length l : List.length (order_by le l) = List.length l.
Proof. apply Permutation_length, order_by_perm. Qed.

Lemma insert_by_sorted x l :
  StronglySorted leP l -> StronglySorted leP (insert_by le x l).
Proof.
  induction 1 as [ | y l Hs IH Hy]; simpl.
  - repeat constructor.
  - destruct (le x y) eqn:E.
    + constructor; [constructor; assumption | ].
      constructor; [exact E | ].
      rewrite Forall_forall in *. intros z Hz.
      eapply le_trans; [exact E | apply Hy, Hz].
    + constructor; [exact IH | ].
      rewrite Forall_forall in *. intros z Hz.
      apply (Permutation_in _ (insert_by_perm x l)) in Hz.
      destruct Hz as [<- | Hz]; [ | apply Hy, Hz].
      destruct (le_total x y) as [E' | E']; [congruence | exact E'].
Qed.

Lemma order_by_sorted l : StronglySorted leP (order_by le l).
Proof.
  induction l as [ | x l IH]; simpl.
  - constructor.
  - apply insert_by_sorted, IH.
Qed.

(** The first row of an ordered result is one of the rows and precedes
    every row. *)
Lemma order_by_first l x :
  sql_get (order_by le l) = Some x ->
  In x l /\ forall y, In y l -> le x y = true.
Proof.
  intro H. pose proof (order_by_sorted l) as S.
  pose proof (order_by_In x l) as Hx.
  destruct (order_by le l) as [ | z rest] eqn:E; [discriminate | ].
  simpl in H. injection H as ->.
  split; [apply Hx; left; reflexivity | ].
  intros y Hy. apply order_by_In in Hy. rewrite E in Hy.
  inversion S as [ | ? ? _ Hall]; subst.
  destruct Hy as [<- | Hy].
  - destruct (le_total x x); assumption.
  - rewrite Forall_forall in Hall. apply Hall, Hy.
Qed.

Lemma order_by_none l : sql_get (order_by le l) = None -> l = [].
Proof.
  intro H. pose proof (order_by_length l) as L.
  destruct (order_by le l); [ | discriminate].
  destruct l; [reflexivity | discriminate].
Qed.
End OrderBy.

(** ** The history of default amounts *)

Lemma history_on_meal_default_history f db :
  history (on_meal_default_history f db) = rows (f (meal_default_history db)).
Proof. destruct db; reflexivity. Qed.

Lemma applicable_spec slot date db h :
  In h (applicable slot date db) <-> applies slot date db h.
Proof.
  unfold applicable, applies. rewrite filter_In, andb_true_iff, Z.eqb_eq.
  tauto.
Qed.

Lemma by_effective_date_desc_total a b :
  by_effective_date_desc a b = true \/ by_effective_date_desc b a = true.
Proof. apply text_le_total. Qed.

Lemma by_effective_date_desc_trans a b c :
  by_effective_date_desc a b = true -> by_effective_date_desc b c = true ->
  by_effective_date_desc a c = true.
Proof.
  unfold by_effective_date_desc. intros H1 H2.
  eapply text_le_trans; eassumption.
Qed.

Lemma sql_get_map {A B : Type} (f : A -> B) (l : list A) :
  sql_get (map f (firstn 1 l)) = option_map f (sql_get l).
Proof. destruct l; reflexivity. Qed.

Lemma getEffectiveDefaultAmount_eq slot date db :
  getEffectiveDefaultAmount slot date db
  = nullish (option_map MealDefaultHistory.default_amount
               (sql_get (order_by by_effective_date_desc
                                  (applicable slot date db)))) 0.
Proof.
  unfold getEffectiveDefaultAmount. rewrite sql_get_map. reflexivity.
Qed.

(** The result is the amount of a version in force, or 0 when no version
    applies. *)
Lemma getEffectiveDefaultAmount_cases slot date db :
  (exists h, in_force slot date db h
             /\ getEffectiveDefaultAmount slot date db
                = MealDefaultHistory.default_amount h)
  \/ ((forall h, ~ applies slot date db h)
      /\ getEffectiveDefaultAmount slot date db = 0).
Proof.
  rewrite getEffectiveDefaultAmount_eq.
  destruct (sql_get (order_by by_effective_date_desc
                              (applicable slot date db))) as [h | ] eqn:E.
  - left. exists h. split; [ | reflexivity].
    apply order_by_first in E;
      [ | apply by_effective_date_desc_total
        | apply by_effective_date_desc_trans ].
    destruct E as [Hin Hmax]. split.
    + apply applicable_spec, Hin.
    + intros h' H'. apply applicable_spec in H'. apply (Hmax h' H').
  - right. apply order_by_none in E. split; [ | reflexivity].
    intros h H. apply applicable_spec in H. rewrite E in H. exact H.
Qed.

Lemma NoDup_map_inj {A K : Type} (key : A -> K) (l : list A) a b :
  NoDup (map key l) -> In a l -> In b l -> key a = key b -> a = b.
Proof.
  induction l as [ | x l IH]; simpl; [tauto | ].
  intros N Ha Hb E. inversion N as [ | ? ? Hx N']; subst.
  destruct Ha as [-> | Ha], Hb as [-> | Hb]; auto.
  - exfalso. apply Hx. rewrite E. apply in_map, Hb.
  - exfalso. apply Hx. rewrite <- E. apply in_map, Ha.
Qed.

(** Under the UNIQUE constraint one version at most is in force. *)
Lemma in_force_unique slot date db h h' :
  history_unique db ->
  in_force slot date db h -> in_force slot date db h' -> h = h'.
Proof.
  intros U [Ha Hmax] [Ha' Hmax'].
  apply (NoDup_map_inj version_key (history db)); auto.
  - apply Ha.
  - apply Ha'.
  - unfold version_key. f_equal.
    + destruct Ha as (_ & -> & _), Ha' as (_ & -> & _). reflexivity.
    + apply text_le_antisym; auto.
Qed.

Lemma getEffectiveDefaultAmount_in_force slot date db h :
  history_unique db -> in_force slot date db h ->
  getEffectiveDefaultAmount slot date db = MealDefaultHistory.default_amount h.
Proof.
  intros U F.
  destruct (getEffectiveDefaultAmount_cases slot date db)
    as [[h' [F' ->]] | [Hnone _]].
  - f_equal. eapply in_force_unique; eassumption.
  - exfalso. apply (Hnone h), F.
Qed.

Lemma getEffectiveDefaultAmount_none slot date db :
  (forall h, ~ applies slot date db h) ->
  getEffectiveDefaultAmount slot date db = 0.
Proof.
  intros Hnone.
  destruct (getEffectiveDefaultAmount_cases slot date db)
    as [[h' [[F' _] _]] | [_ E]]; [ | exact E].
  exfalso. apply (Hnone h'), F'.
Qed.

(** ** INSERT ... ON CONFLICT DO UPDATE on a unique key *)

Section Upsert.
Context {A K : Type} (key : A -> K) (k : K).
Context (conflicts : A -> bool) (set : A -> A) (mk : Z -> A).
Hypothesis conflicts_key : forall r, conflicts r = true <-> key r = k.
Hypothesis set_key : forall r, key (set r) = key r.
Hypothesis mk_key : forall id, key (mk id) = k.

Lemma upsert_rows t :
  rows (sql_upsert conflicts set mk t)
  = if existsb conflicts (rows t)
    then map (fun r => if conflicts r then set r else r) (rows t)
    else rows t ++ [mk (seq t + 1)].
Proof.
  unfold sql_upsert. destruct (existsb conflicts (rows t)); reflexivity.
Qed.

Lemma update_keys l :
  map key (map (fun r => if conflicts r then set r else r) l) = map key l.
Proof.
  rewrite map_map. apply map_ext. intro r.
  destruct (conflicts r); [apply set_key | reflexivity].
Qed.

Lemma absent_key l : existsb conflicts l = false -> ~ In k (map key l).
Proof.
  intros E H. apply in_map_iff in H. destruct H as [r [Hk Hr]].
  apply conflicts_key in Hk.
  assert (existsb conflicts l = true) by (apply existsb_exists; eauto).
  congruence.
Qed.

Lemma upsert_unique t :
  NoDup (map key (rows t)) ->
  NoDup (map key (rows (sql_upsert conflicts set mk t))).
Proof.
  intro N. rewrite upsert_rows.
  destruct (existsb conflicts (rows t)) eqn:E.
  - rewrite update_keys. exact N.
  - rewrite map_app. simpl. rewrite mk_key.
    apply NoDup_app; [exact N | repeat constructor; simpl; tauto | ].
    intros x Hx [<- | []]. revert Hx. apply absent_key, E.
Qed.

(** Under the UNIQUE constraint one row at most has the key. *)
Lemma unique_key_rows l :
  NoDup (map key l) -> (List.length (filter conflicts l) <= 1)%nat.
Proof.
  induction l as [ | r l IH]; simpl; [lia | ].
  intro N. inversion N as [ | ? ? Hr N']; subst.
  destruct (conflicts r) eqn:E; [ | auto].
  simpl. apply conflicts_key in E.
  assert (F : filter conflicts l = []).
  { destruct (filter conflicts l) as [ | r' ?] eqn:F; [reflexivity | ].
    exfalso. apply Hr.
    assert (Hin : In r' (filter conflicts l)) by (rewrite F; left; reflexivity).
    apply filter_In in Hin. destruct Hin as [Hin Hc].
    apply conflicts_key in Hc. rewrite E, <- Hc. apply in_map, Hin. }
  rewrite F. simpl. lia.
Qed.

Lemma filter_update (p : A -> bool) l :
  (forall r, conflicts r = true -> p (set r) = p r) ->
  filter p (map (fun r => if conflicts r then set r else r) l)
  = map (fun r => if conflicts r then set r else r) (filter p l).
Proof.
  intro Hp. induction l as [ | r l IH]; simpl; [reflexivity | ].
  destruct (conflicts r) eqn:E.
  - rewrite (Hp r E). destruct (p r); simpl; rewrite ?E, IH; reflexivity.
  - destruct (p r); simpl; rewrite ?E, IH; reflexivity.
Qed.

Lemma filter_update_other (p : A -> bool) l :
  (forall r, conflicts r = true -> p (set r) = false /\ p r = false) ->
  filter p (map (fun r => if conflicts r then set r else r) l)
  = filter p l.
Proof.
  intro Hp. induction l as [ | r l IH]; simpl; [reflexivity | ].
  destruct (conflicts r) eqn:E.
  - destruct (Hp r E) as [-> ->]. exact IH.
  - destruct (p r); simpl; rewrite IH; reflexivity.
Qed.
End Upsert.

(** ** [setDefaultAmount] *)

Lemma same_version_key slot date h :
  same_version slot date h = true <-> version_key h = (slot, date).
Proof.
  unfold same_version, version_key.
  rewrite andb_true_iff, Z.eqb_eq, String.eqb_eq.
  split; [intros [-> ->]; reflexivity | intro E; inversion E; auto].
Qed.

Lemma history_setDefaultAmount slot amount date db :
  history (setDefaultAmount slot amount date db)
  = if existsb (same_version slot date) (history db)
    then map (fun h => if same_version slot date h
                       then set_amount amount h else h)
             (history db)
    else history db
         ++ [MealDefaultHistory.mk (seq (meal_default_history db) + 1)
                                   slot amount date].
Proof.
  unfold setDefaultAmount. rewrite history_on_meal_default_history.
  apply (upsert_rows (same_version slot date) (set_amount amount)).
Qed.

Lemma setDefaultAmount_unique slot amount date db :
  history_unique db -> history_unique (setDefaultAmount slot amount date db).
Proof.
  unfold history_unique, setDefaultAmount.
  rewrite history_on_meal_default_history.
  apply (upsert_unique version_key (slot, date) (same_version slot date)
           (set_amount amount)).
  - apply same_version_key.
  - reflexivity.
  - reflexivity.
Qed.

Lemma versions_at_nil slot date db :
  versions_at slot date db = [] <->
  existsb (same_version slot date) (history db) = false.
Proof.
  unfold versions_at.
  induction (history db) as [ | h l IH]; simpl; [tauto | ].
  destruct (same_version slot date h); simpl; [ | exact IH].
  split; discriminate.
Qed.

Lemma same_version_other slot date slot' date' h :
  (slot', date') <> (slot, date) ->
  same_version slot date h = true -> same_version slot' date' h = false.
Proof.
  intros Hne H. apply same_version_key in H.
  destruct (same_version slot' date' h) eqn:E; [ | reflexivity].
  apply same_version_key in E. congruence.
Qed.

(** C6. [setDefaultAmount] keeps at most one version per (slot, effective
    date): after the call the pair has exactly one version, carrying the
    amount written; when the pair had a version already, the number of
    versions stays the same and only that version's amount is overwritten;
    when the pair is new, exactly one version is appended, wherever its
    date lies among the dates of the slot; the versions of every other pair
    are untouched. *)
Theorem setDefaultAmount_one_version_per_pair slot amount date db :
  history_unique db ->
  let db' := setDefaultAmount slot amount date db in
  history_unique db'
  /\ List.length (versions_at slot date db') = 1%nat
  /\ (forall h, In h (versions_at slot date db') ->
                MealDefaultHistory.default_amount h = amount)
  /\ (versions_at slot date db <> [] ->
      List.length (history db') = List.length (history db)
      /\ versions_at slot date db'
         = map (set_amount amount) (versions_at slot date db))
  /\ (versions_at slot date db = [] ->
      exists id,
        history db'
        = history db ++ [MealDefaultHistory.mk id slot amount date])
  /\ (forall slot' date', (slot', date') <> (slot, date) ->
        versions_at slot' date' db' = versions_at slot' date' db).
Proof.
  intros U db'. subst db'.
  assert (Hpresent :
    existsb (same_version slot date) (history db) = true ->
    versions_at slot date (setDefaultAmount slot amount date db)
    = map (set_amount amount) (versions_at slot date db)).
  { intro E. unfold versions_at.
    rewrite history_setDefaultAmount, E.
    rewrite (filter_update (same_version slot date) (set_amount amount))
      by reflexivity.
    apply map_ext_in. intros h Hh. apply filter_In in Hh.
    destruct Hh as [_ ->]. reflexivity. }
  assert (Habsent :
    existsb (same_version slot date) (history db) = false ->
    versions_at slot date (setDefaultAmount slot amount date db)
    = [MealDefaultHistory.mk (seq (meal_default_history db) + 1)
                             slot amount date]).
  { intro E. unfold versions_at.
    rewrite history_setDefaultAmount, E, filter_app.
    apply versions_at_nil in E. unfold versions_at in E.
    rewrite E. simpl.
    unfold same_version. simpl. rewrite Z.eqb_refl, String.eqb_refl.
    reflexivity. }
  split; [apply setDefaultAmount_unique, U | ].
  destruct (existsb (same_version slot date) (history db)) eqn:E.
  - (* the pair has a version: it is overwritten *)
    specialize (Hpresent eq_refl).
    assert (Hone : List.length (versions_at slot date db) = 1%nat).
    { pose proof (unique_key_rows version_key (slot, date)
                    (same_version slot date)
                    (same_version_key slot date) (history db) U) as Hle.
      change (filter (same_version slot date) (history db))
        with (versions_at slot date db) in Hle.
      destruct (versions_at slot date db) eqn:V.
      - apply versions_at_nil in V. congruence.
      - simpl in *. lia. }
    repeat split.
    + rewrite Hpresent, length_map. exact Hone.
    + intros h Hh. rewrite Hpresent in Hh. apply in_map_iff in Hh.
      destruct Hh as [h0 [<- _]]. reflexivity.
    + rewrite history_setDefaultAmount, E. apply length_map.
    + exact Hpresent.
    + intro V. apply versions_at_nil in V. congruence.
    + intros slot' date' Hne. unfold versions_at.
      rewrite history_setDefaultAmount, E.
      apply (filter_update_other (same_version slot date)).
      intros h Hh. split.
      * apply (same_version_other slot date); [exact Hne | exact Hh].
      * apply (same_version_other slot date); [exact Hne | exact Hh].
  - (* the pair is new: one version is appended *)
    specialize (Habsent eq_refl).
    repeat split.
    + rewrite Habsent. reflexivity.
    + intros h Hh. rewrite Habsent in Hh. destruct Hh as [<- | []].
      reflexivity.
    + apply versions_at_nil in E. congruence.
    + apply versions_at_nil in E. congruence.
    + intros _. eexists. rewrite history_setDefaultAmount, E. reflexivity.
    + intros slot' date' Hne. unfold versions_at.
      rewrite history_setDefaultAmount, E, filter_app. simpl.
      destruct (same_version slot' date' _) eqn:S.
      * apply same_version_key in S. unfold version_key in S. simpl in S.
        congruence.
      * apply app_nil_r.
Qed.

(** ** [getEffectiveDefaultAmount] *)

Lemma forallb_cases {A : Type} (f : A -> bool) (l : list A) :
  (forall x, In x l -> f x = true) \/ (exists x, In x l /\ f x = false).
Proof.
  induction l as [ | a l [IH | [x [Hx Hf]]]].
  - left. intros x [].
  - destruct (f a) eqn:E.
    + left. intros x [<- | Hx]; auto.
    + right. exists a. split; [left; reflexivity | exact E].
  - right. exists x. split; [right; exact Hx | exact Hf].
Qed.

Lemma covers_cases slot from date db :
  covers slot from date db
  \/ text_le from date = false
  \/ superseded slot from date db.
Proof.
  destruct (text_le from date) eqn:E; [ | right; left; reflexivity].
  destruct (forallb_cases
              (fun h => text_le (MealDefaultHistory.effective_date h) from)
              (applicable slot date db)) as [H | [h [Hin Hf]]].
  - left. split; [exact E | ].
    intros h Hh. apply H, applicable_spec, Hh.
  - right. right. exists h. split; [apply applicable_spec, Hin | exact Hf].
Qed.

Section InsertVersion.
Variables (slot amount : Z) (from : string) (db : Db).
Hypothesis unique : history_unique db.
Hypothesis is_new : versions_at slot from db = [].

Let db' := setDefaultAmount slot amount from db.
Let version :=
  MealDefaultHistory.mk (seq (meal_default_history db) + 1) slot amount from.

Lemma history_insert : history db' = history db ++ [version].
Proof.
  subst db'. rewrite history_setDefaultAmount.
  apply versions_at_nil in is_new. rewrite is_new. reflexivity.
Qed.

Lemma applies_insert s date h :
  applies s date db' h <->
  applies s date db h
  \/ (h = version /\ s = slot /\ text_le from date = true).
Proof.
  unfold applies. rewrite history_insert, in_app_iff. simpl.
  split.
  - intros ([H | [<- | []]] & Hs & Hd); [left; auto | right].
    simpl in *. auto.
  - intros [(H & Hs & Hd) | (-> & -> & Hd)]; auto.
Qed.

Lemma applicable_insert_out s date :
  s <> slot \/ text_le from date = false ->
  applicable s date db' = applicable s date db.
Proof.
  intro H. unfold applicable. rewrite history_insert, filter_app. simpl.
  replace ((slot =? s) && text_le from date) with false.
  - apply app_nil_r.
  - destruct H as [H | ->]; [ | apply eq_sym, andb_false_r].
    destruct (Z.eqb_spec slot s); [congruence | reflexivity].
Qed.

Lemma getEffectiveDefaultAmount_insert_out s date :
  s <> slot \/ text_le from date = false ->
  getEffectiveDefaultAmount s date db' = getEffectiveDefaultAmount s date db.
Proof.
  intro H. rewrite !getEffectiveDefaultAmount_eq.
  rewrite applicable_insert_out by exact H. reflexivity.
Qed.

Lemma getEffectiveDefaultAmount_insert_covers date :
  covers slot from date db ->
  getEffectiveDefaultAmount slot date db' = amount.
Proof.
  intros [Hd Hmax].
  change amount with (MealDefaultHistory.default_amount version).
  apply getEffectiveDefaultAmount_in_force.
  - apply setDefaultAmount_unique, unique.
  - split.
    + apply applies_insert. right. auto.
    + intros h' H'. apply applies_insert in H'.
      destruct H' as [H' | (-> & _)]; [apply Hmax, H' | apply text_le_refl].
Qed.

Lemma getEffectiveDefaultAmount_insert_superseded date :
  superseded slot from date db ->
  getEffectiveDefaultAmount slot date db'
  = getEffectiveDefaultAmount slot date db.
Proof.
  intros [h [Hh Hlate]].
  destruct (getEffectiveDefaultAmount_cases slot date db)
    as [[h0 [[Ha Hmax] ->]] | [Hnone _]];
    [ | exfalso; apply (Hnone h), Hh].
  apply getEffectiveDefaultAmount_in_force.
  - apply setDefaultAmount_unique, unique.
  - split.
    + apply applies_insert. left. exact Ha.
    + intros h' H'. apply applies_insert in H'.
      destruct H' as [H' | (-> & _)]; [apply Hmax, H' | ].
      simpl. apply text_le_trans
               with (b := MealDefaultHistory.effective_date h).
      * apply text_le_false, Hlate.
      * apply Hmax, Hh.
Qed.
End InsertVersion.

(** C3. Under the UNIQUE constraint of the history, whatever the order in
    which its versions were written, [getEffectiveDefaultAmount] returns the
    amount of the version of the slot with the greatest effective date on or
    before the query date, and 0 when the slot has no version on or before
    that date (one of the two is always the case).  Writing a version for a
    new (slot, effective date) pair makes its amount the result for the
    query dates on or after its date and before the next version the slot
    had, and leaves the result as it was for every earlier date, for every
    date from the next version on, and for every other slot. *)
Theorem getEffectiveDefaultAmount_latest_version slot date db :
  history_unique db ->
  (forall h, in_force slot date db h ->
             getEffectiveDefaultAmount slot date db
             = MealDefaultHistory.default_amount h)
  /\ ((forall h, ~ applies slot date db h) ->
      getEffectiveDefaultAmount slot date db = 0)
  /\ ((exists h, in_force slot date db h)
      \/ (forall h, ~ applies slot date db h))
  /\ (forall amount from,
        versions_at slot from db = [] ->
        let db' := setDefaultAmount slot amount from db in
        history_unique db'
        /\ (covers slot from date db ->
            getEffectiveDefaultAmount slot date db' = amount)
        /\ (text_le from date = false \/ superseded slot from date db ->
            getEffectiveDefaultAmount slot date db'
            = getEffectiveDefaultAmount slot date db)
        /\ (forall slot', slot' <> slot ->
              getEffectiveDefaultAmount slot' date db'
              = getEffectiveDefaultAmount slot' date db)
        /\ (covers slot from date db
            \/ text_le from date = false
            \/ superseded slot from date db)).
Proof.
  intro U. repeat split.
  - intros h F. apply getEffectiveDefaultAmount_in_force; assumption.
  - apply getEffectiveDefaultAmount_none.
  - destruct (getEffectiveDefaultAmount_cases slot date db)
      as [[h [F _]] | [Hnone _]];
      [left; exists h; exact F | right; exact Hnone].
  - apply setDefaultAmount_unique, U.
  - apply getEffectiveDefaultAmount_insert_covers; assumption.
  - intros [Hd | Hs].
    + apply getEffectiveDefaultAmount_insert_out; auto.
    + apply getEffectiveDefaultAmount_insert_superseded; assumption.
  - intros slot' Hne. apply getEffectiveDefaultAmount_insert_out; auto.
  - apply covers_cases.
Qed.

(** The history of the specification's example: slot 1 at 20 from
    2025-01-10, written after its version at 30 from 2025-02-01. *)
Lemma example_history_unique :
  history_unique
    (setDefaultAmount 1 20 "2025-01-10"
       (setDefaultAmount 1 30 "2025-02-01" empty_db)).
Proof.
  do 2 apply setDefaultAmount_unique. constructor.
Qed.

Example resolve_examples :
  let db := setDefaultAmount 1 20 "2025-01-10"
              (setDefaultAmount 1 30 "2025-02-01" empty_db) in
  getEffectiveDefaultAmount 1 "2025-01-15" db = 20
  /\ getEffectiveDefaultAmount 1 "2025-01-09" db = 0
  /\ getEffectiveDefaultAmount 1 "2025-03-01" db = 30
  /\ getEffectiveDefaultAmount 1 "2025-01-25" db = 20
  /\ (let db' := setDefaultAmount 1 25 "2025-01-20" db in
      getEffectiveDefaultAmount 1 "2025-01-25" db' = 25
      /\ getEffectiveDefaultAmount 1 "2025-02-05" db' = 30
      /\ (let db'' := setDefaultAmount 1 40 "2025-01-10" db' in
          getEffectiveDefaultAmount 1 "2025-01-12" db' = 20
          /\ getEffectiveDefaultAmount 1 "2025-01-12" db'' = 40
          /\ List.length (versions_at 1 "2025-01-10" db'') = 1%nat)).
Proof. vm_compute. repeat split. Qed.

Lemma getEffectiveDefaultAmount_latest_version_witness :
  let db := setDefaultAmount 1 20 "2025-01-10"
              (setDefaultAmount 1 30 "2025-02-01" empty_db) in
  history_unique db
  /\ getEffectiveDefaultAmount 1 "2025-01-25"
       (setDefaultAmount 1 25 "2025-01-20" db) = 25.
Proof.
  intro db. split; [exact example_history_unique | ].
  destruct (getEffectiveDefaultAmount_latest_version 1 "2025-01-25" db
              example_history_unique) as (_ & _ & _ & Hins).
  destruct (Hins 25 "2025-01-20" eq_refl) as (_ & Hcov & _).
  apply Hcov. split; [reflexivity | ].
  intros h (Hin & _ & Hd).
  destruct Hin as [<- | [<- | []]]; [discriminate Hd | reflexivity].
Defined.

Lemma setDefaultAmount_one_version_per_pair_witness :
  let db := setDefaultAmount 1 20 "2025-01-10"
              (setDefaultAmount 1 30 "2025-02-01" empty_db) in
  history_unique db
  /\ List.length (versions_at 1 "2025-01-10"
                    (setDefaultAmount 1 40 "2025-01-10" db)) = 1%nat.
Proof.
  intro db. split; [exact example_history_unique | ].
  exact (proj1 (proj2 (setDefaultAmount_one_version_per_pair
                         1 40 "2025-01-10" db example_history_unique))).
Defined.

(** ** Tables of the database under the statements *)

Ltac by_tables :=
  intros; repeat match goal with db : Db |- _ => destruct db end;
  reflexivity.

Lemma days_on_daily_records f db :
  days (on_daily_records f db) = rows (f (daily_records db)).
Proof. by_tables. Qed.
Lemma meals_on_daily_records f db : meals (on_daily_records f db) = meals db.
Proof. by_tables. Qed.
Lemma history_on_daily_records f db :
  history (on_daily_records f db) = history db.
Proof. by_tables. Qed.

Lemma days_on_meal_entries f db : days (on_meal_entries f db) = days db.
Proof. by_tables. Qed.
Lemma meals_on_meal_entries f db :
  meals (on_meal_entries f db) = rows (f (meal_entries db)).
Proof. by_tables. Qed.
Lemma history_on_meal_entries f db :
  history (on_meal_entries f db) = history db.
Proof. by_tables. Qed.

Lemma days_on_meal_default_history f db :
  days (on_meal_default_history f db) = days db.
Proof. by_tables. Qed.
Lemma meals_on_meal_default_history f db :
  meals (on_meal_default_history f db) = meals db.
Proof. by_tables. Qed.

Lemma days_on_medications f db : days (on_medications f db) = days db.
Proof. by_tables. Qed.
Lemma meals_on_medications f db : meals (on_medications f db) = meals db.
Proof. by_tables. Qed.
Lemma history_on_medications f db :
  history (on_medications f db) = history db.
Proof. by_tables. Qed.

Lemma days_on_medication_entries f db :
  days (on_medication_entries f db) = days db.
Proof. by_tables. Qed.
Lemma meals_on_medication_entries f db :
  meals (on_medication_entries f db) = meals db.
Proof. by_tables. Qed.
Lemma history_on_medication_entries f db :
  history (on_medication_entries f db) = history db.
Proof. by_tables. Qed.

Lemma days_on_meal_config f db : days (on_meal_config f db) = days db.
Proof. by_tables. Qed.
Lemma meals_on_meal_config f db : meals (on_meal_config f db) = meals db.
Proof. by_tables. Qed.
Lemma history_on_meal_config f db :
  history (on_meal_config f db) = history db.
Proof. by_tables. Qed.

Create Rewrite HintDb tables.
#[local] Hint Rewrite
  days_on_daily_records meals_on_daily_records history_on_daily_records
  days_on_meal_entries meals_on_meal_entries history_on_meal_entries
  days_on_meal_default_history meals_on_meal_default_history
  history_on_meal_default_history
  days_on_medications meals_on_medications history_on_medications
  days_on_medication_entries meals_on_medication_entries
  history_on_medication_entries
  days_on_meal_config meals_on_meal_config history_on_meal_config
  : tables.

(** ** [getOrCreateDailyRecord] *)

Lemma select_daily_record_eq date db :
  select_daily_record date db
  = find (fun r => String.eqb (DailyRecord.date r) date) (days db).
Proof.
  unfold select_daily_record, days.
  induction (rows (daily_records db)) as [ | r l IH]; simpl; [reflexivity | ].
  destruct (String.eqb (DailyRecord.date r) date); [reflexivity | exact IH].
Qed.

Lemma select_daily_record_Some date db r :
  select_daily_record date db = Some r ->
  In r (days db) /\ DailyRecord.date r = date.
Proof.
  rewrite select_daily_record_eq. intro H. apply find_some in H.
  destruct H as [Hin Hd]. apply String.eqb_eq in Hd. auto.
Qed.

Lemma select_daily_record_None date db :
  select_daily_record date db = None <->
  ~ In date (map DailyRecord.date (days db)).
Proof.
  rewrite select_daily_record_eq. split.
  - intros H Hin. apply in_map_iff in Hin. destruct Hin as [r [<- Hin]].
    apply (find_none _ _ H) in Hin. rewrite String.eqb_refl in Hin.
    discriminate.
  - intro H.
    destruct (find _ (days db)) as [r | ] eqn:E; [ | reflexivity].
    apply find_some in E. destruct E as [Hin Hd].
    apply String.eqb_eq in Hd. exfalso. apply H. rewrite <- Hd.
    apply in_map, Hin.
Qed.

Lemma select_daily_record_unique date db r :
  dates_unique db -> In r (days db) -> DailyRecord.date r = date ->
  select_daily_record date db = Some r.
Proof.
  intros U Hin Hd.
  destruct (select_daily_record date db) as [r' | ] eqn:E.
  - apply select_daily_record_Some in E. destruct E as [Hin' Hd'].
    f_equal. apply (NoDup_map_inj DailyRecord.date (days db)); auto.
    congruence.
  - apply select_daily_record_None in E. exfalso. apply E.
    rewrite <- Hd. apply in_map, Hin.
Qed.

Lemma getOrCreateDailyRecord_days now date db :
  days (snd (getOrCreateDailyRecord now date db))
  = match select_daily_record date db with
    | Some _ => days db
    | None =>
        days db ++ [new_daily_record now date (seq (daily_records db) + 1)]
    end.
Proof.
  unfold getOrCreateDailyRecord.
  destruct (select_daily_record date db); simpl; [reflexivity | ].
  rewrite days_on_daily_records. reflexivity.
Qed.

Lemma getOrCreateDailyRecord_meals now date db :
  meals (snd (getOrCreateDailyRecord now date db)) = meals db.
Proof.
  unfold getOrCreateDailyRecord.
  destruct (select_daily_record date db); simpl; [reflexivity | ].
  apply meals_on_daily_records.
Qed.

Lemma getOrCreateDailyRecord_history now date db :
  history (snd (getOrCreateDailyRecord now date db)) = history db.
Proof.
  unfold getOrCreateDailyRecord.
  destruct (select_daily_record date db); simpl; [reflexivity | ].
  apply history_on_daily_records.
Qed.

(** The second SELECT of [getOrCreateDailyRecord] finds the row: the
    result is never [undefined]. *)
Lemma getOrCreateDailyRecord_defined now date db :
  exists r, fst (getOrCreateDailyRecord now date db) = Some r
            /\ In r (days (snd (getOrCreateDailyRecord now date db)))
            /\ DailyRecord.date r = date.
Proof.
  unfold getOrCreateDailyRecord.
  destruct (select_daily_record date db) as [r | ] eqn:E; simpl.
  - exists r. split; [reflexivity | ].
    apply select_daily_record_Some, E.
  - set (db' := on_daily_records _ db).
    destruct (select_daily_record date db') as [r | ] eqn:E'.
    + exists r. split; [reflexivity | ].
      apply select_daily_record_Some, E'.
    + exfalso. apply select_daily_record_None in E'. apply E'.
      subst db'. rewrite days_on_daily_records. simpl.
      rewrite map_app, in_app_iff. right. left. reflexivity.
Qed.

(** ** [updateDailyRecord] *)

Lemma fold_assign data fields r :
  fold_left (assign data) fields r = assigned fields data r.
Proof.
  revert r. induction fields as [ | f fields IH]; intro r.
  - destruct r. reflexivity.
  - simpl fold_left. rewrite IH. unfold assigned.
    destruct f; simpl;
      match goal with
      | |- context [match ?x with Some _ => _ | None => _ end] =>
          destruct x eqn:E
      end;
      destruct r; simpl; rewrite ?E; f_equal;
      match goal with
      | |- context [existsb ?p fields] => destruct (existsb p fields)
      | _ => idtac
      end; reflexivity.
Qed.

Lemma existsb_present {A : Type} f g (x : option A) :
  existsb (Field_eqb f) (filter is_column (present g x))
  = Field_eqb f g && is_column g
    && match x with Some _ => true | None => false end.
Proof.
  destruct x; simpl.
  - destruct (is_column g); simpl.
    + rewrite orb_false_r, !andb_true_r. reflexivity.
    + rewrite andb_false_r. reflexivity.
  - rewrite andb_false_r. reflexivity.
Qed.

Lemma assigned_columns data r :
  assigned (filter is_column (Object_keys data)) data r
  = patched (DailyRecord.updated_at r) data r.
Proof.
  unfold assigned, patched, Object_keys.
  rewrite !filter_app, !existsb_app, !existsb_present.
  simpl. rewrite ?orb_false_r.
  destruct r; simpl.
  f_equal;
    match goal with
    | |- context [nullish ?x _] => destruct x; reflexivity
    | |- context [if ?b then _ else _] => destruct b; reflexivity
    | _ => reflexivity
    end.
Qed.

Lemma patched_clock now old data r :
  names_a_column data = true ->
  DailyRecord.set_updated_at now (patched old data r) = patched now data r.
Proof. intro H. unfold patched. rewrite H. reflexivity. Qed.

Lemma patched_nothing now data r :
  names_a_column data = false -> patched now data r = r.
Proof.
  intro H.
  assert (E : patched now data r = patched (DailyRecord.updated_at r) data r).
  { unfold patched. rewrite H. reflexivity. }
  rewrite E, <- assigned_columns.
  unfold names_a_column in H. apply negb_false_iff, Nat.eqb_eq in H.
  change (filter is_column (Object_keys data))
    with (filter (fun k => negb (Field_eqb k f_id)
                           && negb (Field_eqb k f_date))
                 (Object_keys data)).
  destruct (filter _ (Object_keys data)); [ | discriminate].
  destruct r. reflexivity.
Qed.

Lemma updateDailyRecord_days now date data db :
  days (updateDailyRecord now date data db)
  = map (fun r => if String.eqb (DailyRecord.date r) date
                  then patched now data r else r)
        (days (snd (getOrCreateDailyRecord now date db))).
Proof.
  unfold updateDailyRecord.
  set (db1 := snd (getOrCreateDailyRecord now date db)).
  destruct (List.length
              (filter (fun k => negb (Field_eqb k f_id)
                                && negb (Field_eqb k f_date))
                      (Object_keys data)) =? 0)%nat eqn:E.
  - assert (N : names_a_column data = false)
      by (unfold names_a_column; rewrite E; reflexivity).
    rewrite <- (map_id (days db1)) at 1. apply map_ext. intro r.
    rewrite patched_nothing by exact N.
    destruct (String.eqb _ _); reflexivity.
  - assert (N : names_a_column data = true)
      by (unfold names_a_column; rewrite E; reflexivity).
    rewrite days_on_daily_records. simpl. apply map_ext. intro r.
    destruct (String.eqb _ _); [ | reflexivity].
    rewrite fold_assign.
    change (filter (fun k => negb (Field_eqb k f_id)
                             && negb (Field_eqb k f_date))
                   (Object_keys data))
      with (filter is_column (Object_keys data)).
    rewrite assigned_columns. apply patched_clock, N.
Qed.

Lemma updateDailyRecord_meals now date data db :
  meals (updateDailyRecord now date data db) = meals db.
Proof.
  unfold updateDailyRecord. destruct (_ =? _)%nat;
    rewrite ?meals_on_daily_records; apply getOrCreateDailyRecord_meals.
Qed.

Lemma updateDailyRecord_history now date data db :
  history (updateDailyRecord now date data db) = history db.
Proof.
  unfold updateDailyRecord. destruct (_ =? _)%nat;
    rewrite ?history_on_daily_records; apply getOrCreateDailyRecord_history.
Qed.

Lemma patched_date now data r :
  DailyRecord.date (patched now data r) = DailyRecord.date r.
Proof. reflexivity. Qed.

Lemma updateDailyRecord_dates now date data db :
  map DailyRecord.date (days (updateDailyRecord now date data db))
  = map DailyRecord.date (days (snd (getOrCreateDailyRecord now date db))).
Proof.
  rewrite updateDailyRecord_days, map_map. apply map_ext. intro r.
  destruct (String.eqb _ _); reflexivity.
Qed.

Lemma getOrCreateDailyRecord_writes_daily_records now date db :
  exists t, snd (getOrCreateDailyRecord now date db)
            = on_daily_records (fun _ => t) db.
Proof.
  unfold getOrCreateDailyRecord.
  destruct (select_daily_record date db); simpl.
  - exists (daily_records db). destruct db; reflexivity.
  - destruct db. eexists. reflexivity.
Qed.





(** ** [updateDayStatus] *)

(** C4, as the specification has it, fails: for a date without a daily
    record [updateDayStatus] answers GREEN, not RED. *)
Lemma updateDayStatus_without_record_not_RED :
  let db := initializeDatabase "2025-01-01" empty_db in
  select_daily_record "2025-01-01" db = None
  /\ fst (updateDayStatus "2025-01-01" db) = GREEN
  /\ fst (updateDayStatus "2025-01-01" db) <> RED.
Proof. vm_compute. repeat split. discriminate. Qed.

(** C4, as the code has it.  A date without a daily record is no error:
    [updateDayStatus] answers GREEN for it and writes nothing.  The
    classifier itself makes RED of a zero-valued observation, so for a date
    whose record has no pee and no poop [updateDayStatus] answers RED. *)
Theorem updateDayStatus_missing_record date db :
  (select_daily_record date db = None ->
   updateDayStatus date db = (GREEN, db))
  /\ (forall meals, calculateDayStatus (mkDayData 0 0 0 meals) = RED)
  /\ (forall record,
        select_daily_record date db = Some record ->
        DailyRecord.peed record = 0 -> DailyRecord.pooped record = 0 ->
        fst (updateDayStatus date db) = RED).
Proof.
  repeat split.
  - intro H. unfold updateDayStatus. rewrite H. reflexivity.
  - intros record H Hp Hq. unfold updateDayStatus. rewrite H. simpl.
    rewrite Hp, Hq. unfold calculateDayStatus.
    destruct (0 <? _); reflexivity.
Qed.

(** ** What every request preserves *)

Lemma select_meal_statuses_eq date db :
  select_meal_statuses date db = map MealEntry.status (meals_on date db).
Proof. reflexivity. Qed.

Lemma classify_day_meals db db' r :
  meals_on (DailyRecord.date r) db' = meals_on (DailyRecord.date r) db ->
  classify_day db' r = classify_day db r.
Proof.
  intro H. unfold classify_day. rewrite !select_meal_statuses_eq, H.
  reflexivity.
Qed.

Lemma fresh_or_green_meals db db' r :
  meals_on (DailyRecord.date r) db' = meals_on (DailyRecord.date r) db ->
  fresh_or_green db r -> fresh_or_green db' r.
Proof.
  intros H [F | G]; [left | right; exact G].
  unfold status_fresh in *. rewrite (classify_day_meals db db' r H). exact F.
Qed.

Lemma consistent_weaken date db : consistent db -> consistent_but date db.
Proof. intros [D H M S]. constructor; auto. Qed.

(** A statement that leaves the daily records and the meal entries alone. *)
Lemma consistent_but_same date db db' :
  days db' = days db -> meals db' = meals db -> history_unique db' ->
  consistent_but date db -> consistent_but date db'.
Proof.
  intros Ed Em Hh [D H M S].
  constructor; unfold dates_unique, meals_unique in *;
    rewrite ?Ed, ?Em; auto.
  intros r Hr Hne. apply (fresh_or_green_meals db).
  - unfold meals_on. rewrite Em. reflexivity.
  - apply S; auto.
Qed.

Lemma consistent_same db db' :
  days db' = days db -> meals db' = meals db -> history_unique db' ->
  consistent db -> consistent db'.
Proof.
  intros Ed Em Hh [D H M S].
  constructor; unfold dates_unique, meals_unique in *;
    rewrite ?Ed, ?Em; auto.
  intros r Hr. apply (fresh_or_green_meals db).
  - unfold meals_on. rewrite Em. reflexivity.
  - apply S; auto.
Qed.

Lemma new_daily_record_green db now date id :
  fresh_or_green db (new_daily_record now date id).
Proof. right. reflexivity. Qed.

Lemma getOrCreateDailyRecord_dates_unique now date db :
  dates_unique db -> dates_unique (snd (getOrCreateDailyRecord now date db)).
Proof.
  unfold dates_unique. rewrite getOrCreateDailyRecord_days.
  destruct (select_daily_record date db) eqn:E; [auto | ].
  intro N. rewrite map_app. simpl.
  apply NoDup_app; [exact N | repeat constructor; simpl; tauto | ].
  intros x Hx [<- | []]. apply select_daily_record_None in E. auto.
Qed.

Lemma getOrCreateDailyRecord_In now date db r :
  In r (days (snd (getOrCreateDailyRecord now date db))) ->
  In r (days db)
  \/ (select_daily_record date db = None
      /\ r = new_daily_record now date (seq (daily_records db) + 1)).
Proof.
  rewrite getOrCreateDailyRecord_days.
  destruct (select_daily_record date db); [auto | ].
  rewrite in_app_iff. simpl. intros [H | [<- | []]]; auto.
Qed.

Lemma getOrCreateDailyRecord_consistent_but x now date db :
  consistent_but x db ->
  consistent_but x (snd (getOrCreateDailyRecord now date db)).
Proof.
  intros [D H M S]. constructor.
  - apply getOrCreateDailyRecord_dates_unique, D.
  - unfold history_unique. rewrite getOrCreateDailyRecord_history. exact H.
  - unfold meals_unique. rewrite getOrCreateDailyRecord_meals. exact M.
  - intros r Hr Hne. apply getOrCreateDailyRecord_In in Hr.
    destruct Hr as [Hr | [_ ->]]; [ | apply new_daily_record_green].
    apply (fresh_or_green_meals db); [ | apply S; auto].
    unfold meals_on. rewrite getOrCreateDailyRecord_meals. reflexivity.
Qed.

Lemma getOrCreateDailyRecord_consistent now date db :
  consistent db -> consistent (snd (getOrCreateDailyRecord now date db)).
Proof.
  intros [D H M S]. constructor.
  - apply getOrCreateDailyRecord_dates_unique, D.
  - unfold history_unique. rewrite getOrCreateDailyRecord_history. exact H.
  - unfold meals_unique. rewrite getOrCreateDailyRecord_meals. exact M.
  - intros r Hr. apply getOrCreateDailyRecord_In in Hr.
    destruct Hr as [Hr | [_ ->]]; [ | apply new_daily_record_green].
    apply (fresh_or_green_meals db); [ | apply S; auto].
    unfold meals_on. rewrite getOrCreateDailyRecord_meals. reflexivity.
Qed.

Lemma updateDailyRecord_consistent_but now date data db :
  consistent_but date db ->
  consistent_but date (updateDailyRecord now date data db).
Proof.
  intro C.
  pose proof (getOrCreateDailyRecord_consistent_but date now date db C)
    as [D H M S].
  constructor.
  - unfold dates_unique. rewrite updateDailyRecord_dates. exact D.
  - unfold history_unique in *. rewrite updateDailyRecord_history.
    rewrite getOrCreateDailyRecord_history in H. exact H.
  - unfold meals_unique in *. rewrite updateDailyRecord_meals.
    rewrite getOrCreateDailyRecord_meals in M. exact M.
  - intros r Hr Hne. rewrite updateDailyRecord_days in Hr.
    apply in_map_iff in Hr. destruct Hr as [r0 [Er Hr0]].
    destruct (String.eqb_spec (DailyRecord.date r0) date) as [E | E].
    + subst r. rewrite patched_date in Hne. contradiction.
    + subst r0.
      apply (fresh_or_green_meals (snd (getOrCreateDailyRecord now date db))).
      * unfold meals_on.
        rewrite updateDailyRecord_meals, getOrCreateDailyRecord_meals.
        reflexivity.
      * apply S; auto.
Qed.

(** What [upsertMedicationEntry] leaves: the database as it was when it
    throws, and a change of the medication entries otherwise. *)
Lemma upsertMedicationEntry_state date id taken comment db :
  exists f, snd (upsertMedicationEntry date id taken comment db)
            = on_medication_entries f db.
Proof.
  unfold upsertMedicationEntry. cbv zeta. destruct (_ || _); cbn [snd].
  - eexists. reflexivity.
  - exists (fun t => t). destruct db. reflexivity.
Qed.

Lemma medication_entries_on_medication_entries f db :
  medication_entries (on_medication_entries f db) = f (medication_entries db).
Proof. by_tables. Qed.

(** The medication entries [upsertMedicationEntry] leaves: the entry of
    the date and the id rewritten, a new entry when there is none and the
    id is that of a stored medication, and the entries as they were when
    the statement throws. *)
Lemma upsertMedicationEntry_rows date id taken comment db :
  rows (medication_entries
          (snd (upsertMedicationEntry date id taken comment db)))
  = if existsb (fun e => String.eqb (MedicationEntry.date e) date
                         && (MedicationEntry.medication_id e =? id))
               (rows (medication_entries db))
    then map (fun e =>
                if String.eqb (MedicationEntry.date e) date
                   && (MedicationEntry.medication_id e =? id)
                then MedicationEntry.mk (MedicationEntry.id e)
                       (MedicationEntry.date e)
                       (MedicationEntry.medication_id e)
                       (if taken then 1 else 0) comment
                else e)
             (rows (medication_entries db))
    else if existsb (fun m => Medication.id m =? id) (rows (medications db))
         then rows (medication_entries db)
              ++ [MedicationEntry.mk (seq (medication_entries db) + 1) date id
                                     (if taken then 1 else 0) comment]
         else rows (medication_entries db).
Proof.
  unfold upsertMedicationEntry. cbv zeta.
  destruct (existsb _ (rows (medication_entries db))) eqn:X;
    [ | destruct (existsb _ (rows (medications db))) ]; cbn [orb snd];
    rewrite ?medication_entries_on_medication_entries, ?upsert_rows, ?X;
    reflexivity.
Qed.

Lemma upsertMedicationEntry_consistent_but x date id taken comment db :
  consistent_but x db ->
  consistent_but x (snd (upsertMedicationEntry date id taken comment db)).
Proof.
  intro C.
  destruct (upsertMedicationEntry_state date id taken comment db) as [f ->].
  apply (consistent_but_same x db); autorewrite with tables; auto.
  - unfold history_unique. autorewrite with tables. apply C.
Qed.

Lemma setDefaultAmount_consistent_but x slot amount date db :
  consistent_but x db ->
  consistent_but x (setDefaultAmount slot amount date db).
Proof.
  intro C.
  apply (consistent_but_same x db).
  - apply days_on_meal_default_history.
  - apply meals_on_meal_default_history.
  - apply setDefaultAmount_unique, C.
  - exact C.
Qed.

Lemma setDefaultAmount_consistent slot amount date db :
  consistent db -> consistent (setDefaultAmount slot amount date db).
Proof.
  intro C.
  apply (consistent_same db).
  - apply days_on_meal_default_history.
  - apply meals_on_meal_default_history.
  - apply setDefaultAmount_unique, C.
  - exact C.
Qed.

(** The conflict target of [upsertMealEntry]. *)
Lemma same_meal_key date slot e :
  String.eqb (MealEntry.date e) date && (MealEntry.meal_slot e =? slot) = true
  <-> meal_key e = (date, slot).
Proof.
  unfold meal_key. rewrite andb_true_iff, String.eqb_eq, Z.eqb_eq.
  split; [intros [-> ->]; reflexivity | intro E; inversion E; auto].
Qed.

Lemma upsertMealEntry_meals_unique date slot status amount comment db :
  meals_unique db ->
  meals_unique (upsertMealEntry date slot status amount comment db).
Proof.
  unfold meals_unique, upsertMealEntry. rewrite meals_on_meal_entries.
  apply (upsert_unique meal_key (date, slot)).
  - apply same_meal_key.
  - reflexivity.
  - reflexivity.
Qed.

(** [upsertMealEntry] leaves the meal entries of every other date alone. *)
Lemma upsertMealEntry_meals_on date slot status amount comment db d :
  d <> date ->
  meals_on d (upsertMealEntry date slot status amount comment db)
  = meals_on d db.
Proof.
  intro Hne. unfold meals_on, upsertMealEntry.
  rewrite meals_on_meal_entries, upsert_rows. fold (meals db).
  destruct (existsb _ (meals db)).
  - apply filter_update_other. intros e He.
    apply andb_true_iff in He. destruct He as [He _].
    apply String.eqb_eq in He. simpl. rewrite He.
    destruct (String.eqb_spec date d); [congruence | auto].
  - rewrite filter_app. simpl.
    destruct (String.eqb_spec date d); [congruence | apply app_nil_r].
Qed.

Lemma upsertMealEntry_consistent_but date slot status amount comment db :
  consistent_but date db ->
  consistent_but date (upsertMealEntry date slot status amount comment db).
Proof.
  intros [D H M S]. constructor.
  - unfold dates_unique, upsertMealEntry. rewrite days_on_meal_entries.
    exact D.
  - unfold history_unique, upsertMealEntry.
    rewrite history_on_meal_entries. exact H.
  - apply upsertMealEntry_meals_unique, M.
  - intros r Hr Hne. unfold upsertMealEntry in Hr.
    rewrite days_on_meal_entries in Hr.
    apply (fresh_or_green_meals db); [ | apply S; auto].
    apply upsertMealEntry_meals_on, Hne.
Qed.

Lemma updateDayStatus_days date db :
  days (snd (updateDayStatus date db))
  = match select_daily_record date db with
    | None => days db
    | Some record =>
        map (fun r =>
               if String.eqb (DailyRecord.date r) date
               then DailyRecord.set_day_status
                      (DayStatus_text (classify_day db record)) r
               else r)
            (days db)
    end.
Proof.
  unfold updateDayStatus.
  destruct (select_daily_record date db) as [record | ] eqn:E;
    [ | reflexivity].
  simpl. rewrite days_on_daily_records. simpl.
  apply select_daily_record_Some in E. destruct E as [_ E].
  unfold classify_day. rewrite E. reflexivity.
Qed.

Lemma updateDayStatus_meals date db :
  meals (snd (updateDayStatus date db)) = meals db.
Proof.
  unfold updateDayStatus. destruct (select_daily_record date db);
    [apply meals_on_daily_records | reflexivity].
Qed.

Lemma updateDayStatus_history date db :
  history (snd (updateDayStatus date db)) = history db.
Proof.
  unfold updateDayStatus. destruct (select_daily_record date db);
    [apply history_on_daily_records | reflexivity].
Qed.

Lemma set_day_status_fields s r :
  DailyRecord.date (DailyRecord.set_day_status s r) = DailyRecord.date r
  /\ DailyRecord.vomited (DailyRecord.set_day_status s r)
     = DailyRecord.vomited r
  /\ DailyRecord.peed (DailyRecord.set_day_status s r) = DailyRecord.peed r
  /\ DailyRecord.pooped (DailyRecord.set_day_status s r)
     = DailyRecord.pooped r
  /\ DailyRecord.day_status (DailyRecord.set_day_status s r) = s.
Proof. destruct r. repeat split. Qed.

Lemma classify_day_set_day_status db s r :
  classify_day db (DailyRecord.set_day_status s r) = classify_day db r.
Proof. destruct r. reflexivity. Qed.

Lemma updateDayStatus_dates date db :
  map DailyRecord.date (days (snd (updateDayStatus date db)))
  = map DailyRecord.date (days db).
Proof.
  rewrite updateDayStatus_days.
  destruct (select_daily_record date db); [ | reflexivity].
  rewrite map_map. apply map_ext. intro r.
  destruct (String.eqb _ _); [ | reflexivity].
  apply set_day_status_fields.
Qed.

(** After [updateDayStatus] the record of the date is fresh. *)
Lemma updateDayStatus_fresh date db r :
  dates_unique db ->
  In r (days (snd (updateDayStatus date db))) -> DailyRecord.date r = date ->
  status_fresh (snd (updateDayStatus date db)) r.
Proof.
  intros U Hr Hd. rewrite updateDayStatus_days in Hr.
  destruct (select_daily_record date db) as [record | ] eqn:E.
  - apply in_map_iff in Hr. destruct Hr as [r0 [Er Hr0]].
    destruct (String.eqb_spec (DailyRecord.date r0) date) as [E0 | E0].
    + assert (r0 = record).
      { pose proof (select_daily_record_unique date db r0 U Hr0 E0).
        congruence. }
      subst r0 r. unfold status_fresh.
      rewrite (classify_day_meals db (snd (updateDayStatus date db))).
      * rewrite classify_day_set_day_status.
        apply set_day_status_fields.
      * unfold meals_on. rewrite updateDayStatus_meals. reflexivity.
    + subst r0. contradiction.
  - apply select_daily_record_None in E. exfalso. apply E.
    rewrite <- Hd. apply in_map, Hr.
Qed.

Lemma updateDayStatus_consistent date db :
  consistent_but date db -> consistent (snd (updateDayStatus date db)).
Proof.
  intros [D H M S]. constructor.
  - unfold dates_unique. rewrite updateDayStatus_dates. exact D.
  - unfold history_unique. rewrite updateDayStatus_history. exact H.
  - unfold meals_unique. rewrite updateDayStatus_meals. exact M.
  - intros r Hr.
    destruct (string_dec (DailyRecord.date r) date) as [E | E].
    + left. apply updateDayStatus_fresh; assumption.
    + apply (fresh_or_green_meals db).
      * unfold meals_on. rewrite updateDayStatus_meals. reflexivity.
      * apply S; [ | exact E].
        rewrite updateDayStatus_days in Hr.
        destruct (select_daily_record date db); [ | exact Hr].
        apply in_map_iff in Hr. destruct Hr as [r0 [Er Hr0]].
        destruct (String.eqb_spec (DailyRecord.date r0) date) as [E0 | E0].
        -- subst r. exfalso. apply E. rewrite <- E0.
           apply set_day_status_fields.
        -- subst r0. exact Hr0.
Qed.

Lemma getFullDayData_db now date db :
  snd (getFullDayData now date db) = snd (getOrCreateDailyRecord now date db).
Proof.
  unfold getFullDayData.
  destruct (getOrCreateDailyRecord now date db). reflexivity.
Qed.

Lemma insert_or_ignore_unique {A K : Type} (key : A -> K) (k : K)
    (conflicts : A -> bool) (mk : Z -> A) (t : Table A) :
  (forall r, conflicts r = true <-> key r = k) ->
  (forall id, key (mk id) = k) ->
  NoDup (map key (rows t)) ->
  NoDup (map key (rows (sql_insert_or_ignore conflicts mk t))).
Proof.
  intros Hc Hk N. unfold sql_insert_or_ignore.
  destruct (existsb conflicts (rows t)) eqn:E; [exact N | ].
  simpl. rewrite map_app. simpl. rewrite Hk.
  apply NoDup_app; [exact N | repeat constructor; simpl; tauto | ].
  intros x Hx [<- | []]. revert Hx. apply (absent_key key k conflicts Hc), E.
Qed.

Lemma same_days_refl db : same_days db db.
Proof. repeat split; auto. Qed.

Lemma same_days_trans db1 db2 db3 :
  same_days db1 db2 -> same_days db2 db3 -> same_days db1 db3.
Proof.
  intros (D1 & M1 & H1) (D2 & M2 & H2). repeat split; try congruence; auto.
Qed.

Lemma same_days_consistent db db' :
  same_days db db' -> consistent db -> consistent db'.
Proof.
  intros (D & M & H) C. apply (consistent_same db); auto. apply H, C.
Qed.

Lemma same_days_consistent_but x db db' :
  same_days db db' -> consistent_but x db -> consistent_but x db'.
Proof.
  intros (D & M & H) C. apply (consistent_but_same x db); auto. apply H, C.
Qed.

Lemma same_days_on_medications f db : same_days db (on_medications f db).
Proof.
  repeat split; autorewrite with tables; auto.
  unfold history_unique. autorewrite with tables. auto.
Qed.

Lemma same_days_on_meal_config f db : same_days db (on_meal_config f db).
Proof.
  repeat split; autorewrite with tables; auto.
  unfold history_unique. autorewrite with tables. auto.
Qed.

Lemma same_days_on_medication_entries f db :
  same_days db (on_medication_entries f db).
Proof.
  repeat split; autorewrite with tables; auto.
  unfold history_unique. autorewrite with tables. auto.
Qed.

Lemma same_days_insert_or_ignore slot amount date db :
  same_days db
    (on_meal_default_history
       (sql_insert_or_ignore
          (same_version slot date)
          (fun id => MealDefaultHistory.mk id slot amount date))
       db).
Proof.
  repeat split; autorewrite with tables; auto.
  unfold history_unique. rewrite history_on_meal_default_history.
  apply (insert_or_ignore_unique version_key (slot, date)).
  - apply same_version_key.
  - reflexivity.
Qed.

Lemma same_days_fold {A : Type} (step : Db -> A -> Db) (l : list A) db :
  (forall db a, same_days db (step db a)) -> same_days db (fold_left step l db).
Proof.
  intro Hs. revert db. induction l as [ | a l IH]; intro db; simpl.
  - apply same_days_refl.
  - eapply same_days_trans; [apply Hs | apply IH].
Qed.

Lemma initializeDatabase_same_days today db :
  same_days db (initializeDatabase today db).
Proof.
  unfold initializeDatabase.
  apply same_days_trans with (db2 := seed_meal_config db);
    [ | apply same_days_trans with (db2 := seed_medications (seed_meal_config db)) ].
  - unfold seed_meal_config. destruct (_ =? 0); [ | apply same_days_refl].
    repeat (eapply same_days_trans; [ | apply same_days_on_meal_config]).
    apply same_days_refl.
  - generalize (seed_meal_config db). intro d. unfold seed_medications.
    destruct (_ =? 0); [ | apply same_days_refl].
    repeat (eapply same_days_trans; [ | apply same_days_on_medications]).
    apply same_days_refl.
  - generalize (seed_medications (seed_meal_config db)). intro d.
    unfold migrate_defaults.
    destruct (_ =? 0); [ | apply same_days_refl].
    apply same_days_fold. intros d' config.
    destruct (0 <? _); [ | apply same_days_refl].
    apply same_days_insert_or_ignore.
Qed.

Lemma addMedication_same_days name label db :
  same_days db (snd (addMedication name label db)).
Proof. unfold addMedication. simpl. apply same_days_on_medications. Qed.

Lemma put_medication_same_days id name label sort_order db :
  same_days db (put_medication id name label sort_order db).
Proof.
  unfold put_medication.
  destruct (_ <? _)%nat;
    [apply same_days_on_medications | apply same_days_refl].
Qed.

(** ** Loops and requests, statement by statement *)

Lemma fold_preserves {A : Type} (P : Db -> Prop) (step : Db -> A -> Db)
    (l : list A) db :
  (forall db a, P db -> P (step db a)) -> P db -> P (fold_left step l db).
Proof.
  intro Hs. revert db. induction l as [ | a l IH]; intro db; simpl; auto.
Qed.

Lemma for_of_preserves {A : Type} (P : Db -> Prop)
    (body : A -> Db -> Thrown unit * Db) (l : list A) db :
  (forall x db, P db -> P (snd (body x db))) ->
  P db -> P (snd (for_of body l db)).
Proof.
  intro Hs. revert db. induction l as [ | x l IH]; intros db H;
    cbn [for_of]; [exact H | ].
  specialize (Hs x db H).
  destruct (body x db) as [[u | message] db1]; cbn [snd] in *;
    [apply IH, Hs | exact Hs].
Qed.

Lemma returns_pair {A : Type} (x : A * Db) :
  (let '(data, db) := x in (Returns data, db)) = (Returns (fst x), snd x).
Proof. destruct x. reflexivity. Qed.

(** The ways [PUT /api/day/:date] ends.  [P0] holds of the state before
    the request, [P] once the fields of the record are written, or
    skipped because the body names none, and while the medication entries
    are written, and [Q] while the meals are. *)
Section PutDayPhases.
Variables P0 P Q : Db -> Prop.
Variables now date : string.
Variable body : DayBody.

Hypothesis P_updateDailyRecord :
  (0 <? List.length (Object_keys (body_recordData body)))%nat
  = true ->
  forall db,
    P0 db ->
    P (updateDailyRecord now date (body_recordData body) db).
Hypothesis P_no_field :
  (0 <? List.length (Object_keys (body_recordData body)))%nat
  = false ->
  forall db, P0 db -> P db.
Hypothesis P_upsertMedicationEntry :
  forall id taken comment db,
    P db -> P (snd (upsertMedicationEntry date id taken comment db)).
Hypothesis Q_meals : forall db, P db -> Q db.
Hypothesis Q_setDefaultAmount :
  forall slot amount db, Q db -> Q (setDefaultAmount slot amount date db).
Hypothesis Q_upsertMealEntry :
  forall slot status amount comment db,
    Q db -> Q (upsertMealEntry date slot status amount comment db).

(** The request ends with the exception of a medication entry, or it
    goes on to [updateDayStatus] and [getFullDayData]. *)
Lemma put_day_phases db :
  P0 db ->
  (exists message partial,
     put_day now date body db = (Throws message, partial) /\ P partial
     /\ body_medications body <> None)
  \/ (exists written,
        Q written
        /\ put_day now date body db
           = (Returns
                (fst (getFullDayData now date
                        (snd (updateDayStatus date written)))),
              snd (getFullDayData now date
                     (snd (updateDayStatus date written))))).
Proof.
  intro H. unfold put_day. cbv zeta.
  set (db1 := if (0 <? _)%nat then _ else db).
  assert (H1 : P db1).
  { subst db1. destruct (0 <? _)%nat eqn:K.
    - apply P_updateDailyRecord; [reflexivity | exact H].
    - apply P_no_field; [reflexivity | exact H]. }
  clearbody db1.
  assert (Hmeals : forall d,
            P d ->
            Q match body_meals body with
              | Some meals0 =>
                  fold_left
                    (fun db0 meal =>
                       upsertMealEntry date (MealBody.slot meal)
                         (MealBody.status meal) (MealBody.actual_amount meal)
                         (MealBody.comment meal)
                         match MealBody.set_default_amount meal with
                         | Some amount =>
                             setDefaultAmount (MealBody.slot meal) amount
                                              date db0
                         | None => db0
                         end)
                    meals0 d
              | None => d
              end).
  { intros d Hd. apply Q_meals in Hd.
    destruct (body_meals body); [ | exact Hd].
    apply fold_preserves; [ | exact Hd].
    intros d0 meal H0. apply Q_upsertMealEntry.
    destruct (MealBody.set_default_amount meal);
      [apply Q_setDefaultAmount, H0 | exact H0]. }
  destruct (body_medications body) as [medications0 | ].
  - pose proof (for_of_preserves P
                  (fun med =>
                     upsertMedicationEntry date (MedicationBody.id med)
                       (MedicationBody.taken med) (MedicationBody.comment med))
                  medications0 db1
                  (fun med d Hd => P_upsertMedicationEntry _ _ _ d Hd) H1)
      as H2.
    destruct (for_of _ medications0 db1) as [[u | message] db2];
      cbn [snd] in H2.
    + right. eexists. split; [ | apply returns_pair]. apply Hmeals, H2.
    + left. exists message, db2.
      split; [reflexivity | split; [exact H2 | discriminate] ].
  - right. eexists. split; [ | apply returns_pair]. apply Hmeals, H1.
Qed.
End PutDayPhases.

Section PutDayFrom.
Variables P0 P : Db -> Prop.
Variables now date : string.
Variable body : DayBody.

Hypothesis P_updateDailyRecord :
  (0 <? List.length (Object_keys (body_recordData body)))%nat
  = true ->
  forall db,
    P0 db ->
    P (updateDailyRecord now date (body_recordData body) db).
Hypothesis P_no_field :
  (0 <? List.length (Object_keys (body_recordData body)))%nat
  = false ->
  forall db, P0 db -> P db.
Hypothesis P_upsertMedicationEntry :
  forall id taken comment db,
    P db -> P (snd (upsertMedicationEntry date id taken comment db)).
Hypothesis P_setDefaultAmount :
  forall slot amount db, P db -> P (setDefaultAmount slot amount date db).
Hypothesis P_upsertMealEntry :
  forall slot status amount comment db,
    P db -> P (upsertMealEntry date slot status amount comment db).

Lemma put_day_cases_from db :
  P0 db ->
  (exists message partial,
     put_day now date body db = (Throws message, partial) /\ P partial
     /\ body_medications body <> None)
  \/ (exists written,
        P written
        /\ put_day now date body db
           = (Returns
                (fst (getFullDayData now date
                        (snd (updateDayStatus date written)))),
              snd (getFullDayData now date
                     (snd (updateDayStatus date written))))).
Proof.
  apply (put_day_phases P0 P P); auto.
Qed.
End PutDayFrom.

(** A property that each statement of [PUT /api/day/:date] keeps holds of
    the state the request leaves, however it ends. *)
Section PutDay.
Variable P : Db -> Prop.
Variables now date : string.
Variable body : DayBody.

Hypothesis P_updateDailyRecord :
  (0 <? List.length (Object_keys (body_recordData body)))%nat
  = true ->
  forall db,
    P db ->
    P (updateDailyRecord now date (body_recordData body) db).
Hypothesis P_upsertMedicationEntry :
  forall id taken comment db,
    P db -> P (snd (upsertMedicationEntry date id taken comment db)).
Hypothesis P_setDefaultAmount :
  forall slot amount db, P db -> P (setDefaultAmount slot amount date db).
Hypothesis P_upsertMealEntry :
  forall slot status amount comment db,
    P db -> P (upsertMealEntry date slot status amount comment db).

Lemma put_day_cases db :
  P db ->
  (exists message partial,
     put_day now date body db = (Throws message, partial) /\ P partial
     /\ body_medications body <> None)
  \/ (exists written,
        P written
        /\ put_day now date body db
           = (Returns
                (fst (getFullDayData now date
                        (snd (updateDayStatus date written)))),
              snd (getFullDayData now date
                     (snd (updateDayStatus date written))))).
Proof.
  apply (put_day_cases_from P P); auto.
Qed.

Hypothesis P_updateDayStatus :
  forall db, P db -> P (snd (updateDayStatus date db)).
Hypothesis P_getOrCreateDailyRecord :
  forall db, P db -> P (snd (getOrCreateDailyRecord now date db)).

Lemma put_day_preserves db : P db -> P (snd (put_day now date body db)).
Proof.
  intro H.
  destruct (put_day_cases db H)
    as [(message & partial & -> & Hp & _) | (written & Hw & ->)];
    cbn [snd]; [exact Hp | ].
  rewrite getFullDayData_db.
  apply P_getOrCreateDailyRecord, P_updateDayStatus, Hw.
Qed.
End PutDay.

(** The request is answered when the body names medications that are
    stored. *)
Lemma for_of_returns {A : Type} (Q : Db -> Prop)
    (body : A -> Db -> Thrown unit * Db) (l : list A) db :
  (forall x d, In x l -> Q d ->
               exists u, fst (body x d) = Returns u /\ Q (snd (body x d))) ->
  Q db -> exists u, fst (for_of body l db) = Returns u.
Proof.
  revert db. induction l as [ | x l IH]; intros db Hs H; cbn [for_of].
  - exists tt. reflexivity.
  - destruct (Hs x db (or_introl eq_refl) H) as [u [E Hq]].
    destruct (body x db) as [[u' | message] db1]; cbn [fst snd] in *;
      [ | discriminate].
    apply IH; [ | exact Hq].
    intros y d Hy. apply Hs. right. exact Hy.
Qed.

(** The same for a row of the import, whose first statement writes the
    fields of the record. *)
Section ImportRowFrom.
Variables P0 P : Db -> Prop.
Variable now : string.
Variable ids : ImportIds.
Variable row : CsvDay.

Hypothesis P_updateDailyRecord :
  forall data db,
    DailyPatch.day_status data = None ->
    P0 db -> P (updateDailyRecord now (csv_date row) data db).
Hypothesis P_upsertMedicationEntry :
  forall id taken comment db,
    P db -> P (snd (upsertMedicationEntry (csv_date row) id taken comment db)).
Hypothesis P_upsertMealEntry :
  forall slot status amount comment db,
    P db -> P (upsertMealEntry (csv_date row) slot status amount comment db).

(** The row ends with the exception of a medication entry, or it goes on
    to [updateDayStatus]. *)
Lemma importCsv_row_cases_from db :
  P0 db ->
  P (importCsv_row now ids row db)
  \/ (exists written,
        P written
        /\ importCsv_row now ids row db
           = snd (updateDayStatus (csv_date row) written)).
Proof.
  intro H. unfold importCsv_row. cbv zeta.
  set (db1 := updateDailyRecord now (csv_date row) _ db).
  assert (H1 : P db1)
    by (subst db1; apply P_updateDailyRecord; [reflexivity | exact H]).
  clearbody db1.
  match goal with
  | |- context [for_of ?f ?l db1] =>
      pose proof (for_of_preserves P f l db1) as H2;
      destruct (for_of f l db1) as [[u | message] db2]
  end; cbn [snd] in H2.
  - right. eexists. split; [ | reflexivity].
    do 4 apply P_upsertMealEntry. apply H2; [ | exact H1].
    intros med d Hd. destruct (truthy (fst med));
      [apply P_upsertMedicationEntry, Hd | exact Hd].
  - left. apply H2; [ | exact H1].
    intros med d Hd. destruct (truthy (fst med));
      [apply P_upsertMedicationEntry, Hd | exact Hd].
Qed.

Hypothesis P_updateDayStatus :
  forall db, P db -> P (snd (updateDayStatus (csv_date row) db)).

Lemma importCsv_row_preserves_from db :
  P0 db -> P (importCsv_row now ids row db).
Proof.
  intro H.
  destruct (importCsv_row_cases_from db H) as [Hp | (written & Hw & ->)];
    [exact Hp | apply P_updateDayStatus, Hw].
Qed.
End ImportRowFrom.

Section ImportRow.
Variable P : Db -> Prop.
Variable now : string.
Variable ids : ImportIds.
Variable row : CsvDay.

Hypothesis P_updateDailyRecord :
  forall data db,
    DailyPatch.day_status data = None ->
    P db -> P (updateDailyRecord now (csv_date row) data db).
Hypothesis P_upsertMedicationEntry :
  forall id taken comment db,
    P db -> P (snd (upsertMedicationEntry (csv_date row) id taken comment db)).
Hypothesis P_upsertMealEntry :
  forall slot status amount comment db,
    P db -> P (upsertMealEntry (csv_date row) slot status amount comment db).

Lemma importCsv_row_cases db :
  P db ->
  P (importCsv_row now ids row db)
  \/ (exists written,
        P written
        /\ importCsv_row now ids row db
           = snd (updateDayStatus (csv_date row) written)).
Proof.
  apply (importCsv_row_cases_from P P); auto.
Qed.

Hypothesis P_updateDayStatus :
  forall db, P db -> P (snd (updateDayStatus (csv_date row) db)).

Lemma importCsv_row_preserves db : P db -> P (importCsv_row now ids row db).
Proof.
  apply (importCsv_row_preserves_from P P); auto.
Qed.
End ImportRow.

(** And for a run of the import: what [initializeDatabase], the
    statements on the medications and each row keep, the run keeps. *)
Section ImportRun.
Variable P : Db -> Prop.

Hypothesis P_initializeDatabase :
  forall today db, P db -> P (initializeDatabase today db).
Hypothesis P_addMedication :
  forall name timeLabel db, P db -> P (snd (addMedication name timeLabel db)).
Hypothesis P_deactivateMedication :
  forall id db, P db -> P (deactivateMedication id db).

Lemma ensure_inactive_preserves id name timeLabel db :
  P db -> P (snd (ensure_inactive id name timeLabel db)).
Proof.
  intro H. unfold ensure_inactive. destruct (negb (truthy id)); [ | exact H].
  pose proof (P_addMedication name timeLabel db H) as H1.
  destruct (addMedication name timeLabel db) as [[med | ] db1];
    cbn [snd] in *; [apply P_deactivateMedication, H1 | exact H1].
Qed.

Lemma importCsv_ids_preserves today db :
  P db -> P (snd (importCsv_ids today db)).
Proof.
  intro H. unfold importCsv_ids. cbv zeta.
  generalize (initializeDatabase today db) (P_initializeDatabase today db H).
  intros db0 H0.
  repeat match goal with
  | |- context [ensure_inactive ?id ?name ?timeLabel ?d] =>
      let H1 := fresh "H" in
      assert (H1 : P (snd (ensure_inactive id name timeLabel d)))
        by (apply ensure_inactive_preserves; assumption);
      destruct (ensure_inactive id name timeLabel d) as [[? | ?] ?];
      cbn [snd] in H1
  end; cbn [snd]; assumption.
Qed.

Variable writes : string -> Prop.
Hypothesis P_importCsv_row :
  forall now ids row db,
    writes (csv_date row) -> P db -> P (importCsv_row now ids row db).

Lemma importCsv_preserves today rows db :
  Forall (fun row => writes (csv_date (snd row))) rows ->
  P db -> P (snd (importCsv today rows db)).
Proof.
  intros W H. unfold importCsv.
  pose proof (importCsv_ids_preserves today db H) as H1.
  destruct (importCsv_ids today db) as [[ids | message] db1];
    cbn [snd] in *; [ | exact H1].
  clear H. revert db1 H1.
  induction W as [ | row rows Hrow _ IH]; intros db1 H1; cbn [fold_left];
    [exact H1 | ].
  apply IH, P_importCsv_row; assumption.
Qed.
End ImportRun.

(** ** The constraints of every reachable state *)

Lemma upsertMealEntry_days date slot status amount comment db :
  days (upsertMealEntry date slot status amount comment db) = days db.
Proof. apply days_on_meal_entries. Qed.

Lemma upsertMedicationEntry_days date id taken comment db :
  days (snd (upsertMedicationEntry date id taken comment db)) = days db.
Proof.
  destruct (upsertMedicationEntry_state date id taken comment db) as [f ->].
  apply days_on_medication_entries.
Qed.


Lemma constraints_same db db' :
  days db' = days db -> meals db' = meals db -> history_unique db' ->
  constraints db -> constraints db'.
Proof.
  intros Ed Em Hh [D H M].
  constructor; unfold dates_unique, meals_unique in *;
    rewrite ?Ed, ?Em; auto.
Qed.

Lemma same_days_constraints db db' :
  same_days db db' -> constraints db -> constraints db'.
Proof.
  intros (D & M & H) C. apply (constraints_same db); auto. apply H, C.
Qed.

Lemma getOrCreateDailyRecord_constraints now date db :
  constraints db -> constraints (snd (getOrCreateDailyRecord now date db)).
Proof.
  intros [D H M]. constructor.
  - apply getOrCreateDailyRecord_dates_unique, D.
  - unfold history_unique. rewrite getOrCreateDailyRecord_history. exact H.
  - unfold meals_unique. rewrite getOrCreateDailyRecord_meals. exact M.
Qed.

Lemma updateDailyRecord_constraints now date data db :
  constraints db -> constraints (updateDailyRecord now date data db).
Proof.
  intro C.
  pose proof (getOrCreateDailyRecord_constraints now date db C)
    as [D H M].
  constructor.
  - unfold dates_unique. rewrite updateDailyRecord_dates. exact D.
  - unfold history_unique in *. rewrite updateDailyRecord_history.
    rewrite getOrCreateDailyRecord_history in H. exact H.
  - unfold meals_unique in *. rewrite updateDailyRecord_meals.
    rewrite getOrCreateDailyRecord_meals in M. exact M.
Qed.

Lemma upsertMedicationEntry_constraints date id taken comment db :
  constraints db ->
  constraints (snd (upsertMedicationEntry date id taken comment db)).
Proof.
  destruct (upsertMedicationEntry_state date id taken comment db) as [f ->].
  apply same_days_constraints, same_days_on_medication_entries.
Qed.

Lemma setDefaultAmount_constraints slot amount date db :
  constraints db -> constraints (setDefaultAmount slot amount date db).
Proof.
  intro C. apply (constraints_same db).
  - apply days_on_meal_default_history.
  - apply meals_on_meal_default_history.
  - apply setDefaultAmount_unique, C.
  - exact C.
Qed.

Lemma upsertMealEntry_constraints date slot status amount comment db :
  constraints db ->
  constraints (upsertMealEntry date slot status amount comment db).
Proof.
  intros [D H M]. constructor.
  - unfold dates_unique, upsertMealEntry. rewrite days_on_meal_entries.
    exact D.
  - unfold history_unique, upsertMealEntry.
    rewrite history_on_meal_entries. exact H.
  - apply upsertMealEntry_meals_unique, M.
Qed.

Lemma updateDayStatus_constraints date db :
  constraints db -> constraints (snd (updateDayStatus date db)).
Proof.
  intros [D H M]. constructor.
  - unfold dates_unique. rewrite updateDayStatus_dates. exact D.
  - unfold history_unique. rewrite updateDayStatus_history. exact H.
  - unfold meals_unique. rewrite updateDayStatus_meals. exact M.
Qed.

Lemma put_day_constraints now date body db :
  constraints db -> constraints (snd (put_day now date body db)).
Proof.
  apply put_day_preserves.
  - intros _ d. apply updateDailyRecord_constraints.
  - intros. apply upsertMedicationEntry_constraints. assumption.
  - intros. apply setDefaultAmount_constraints. assumption.
  - intros. apply upsertMealEntry_constraints. assumption.
  - intros. apply updateDayStatus_constraints. assumption.
  - intros. apply getOrCreateDailyRecord_constraints. assumption.
Qed.

Lemma importCsv_row_constraints now ids row db :
  constraints db -> constraints (importCsv_row now ids row db).
Proof.
  apply importCsv_row_preserves.
  - intros. apply updateDailyRecord_constraints; assumption.
  - intros. apply upsertMedicationEntry_constraints. assumption.
  - intros. apply upsertMealEntry_constraints. assumption.
  - intros. apply updateDayStatus_constraints. assumption.
Qed.

Lemma all_rows {A : Type} (l : list A) : Forall (fun _ => True) l.
Proof. apply Forall_forall. auto. Qed.

Lemma importCsv_constraints today rows db :
  constraints db -> constraints (snd (importCsv today rows db)).
Proof.
  apply (importCsv_preserves constraints) with (writes := fun _ => True).
  - intros. eapply same_days_constraints;
      [apply initializeDatabase_same_days | assumption].
  - intros. eapply same_days_constraints;
      [apply addMedication_same_days | assumption].
  - intros. eapply same_days_constraints;
      [apply same_days_on_medications | assumption].
  - intros. apply importCsv_row_constraints. assumption.
  - apply all_rows.
Qed.

Lemma handle_constraints db req : constraints db -> constraints (handle db req).
Proof.
  intro C. destruct req; cbn [handle].
  - apply (same_days_constraints db), C. apply initializeDatabase_same_days.
  - unfold get_day. rewrite getFullDayData_db.
    apply getOrCreateDailyRecord_constraints, C.
  - apply put_day_constraints, C.
  - apply (same_days_constraints db), C. apply addMedication_same_days.
  - apply (same_days_constraints db), C. apply put_medication_same_days.
  - apply (same_days_constraints db), C. apply same_days_on_medications.
  - apply setDefaultAmount_constraints, C.
  - apply importCsv_constraints, C.
Qed.

Lemma empty_db_constraints : constraints empty_db.
Proof. constructor; constructor. Qed.

Lemma run_constraints reqs db : constraints db -> constraints (run reqs db).
Proof.
  revert db. induction reqs as [ | req reqs IH]; intros db C; simpl; auto.
  apply IH, handle_constraints, C.
Qed.

Lemma reachable_constraints db : reachable db -> constraints db.
Proof. intros [reqs ->]. apply run_constraints, empty_db_constraints. Qed.

(** ** Stored statuses that are literals of [DayStatus] *)









(** ** GROUP BY and COUNT *)

Lemma find_group (g : string -> Z) k l :
  find (fun s => String.eqb (fst s) k) (map (fun k' => (k', g k')) l)
  = if in_dec string_dec k l then Some (k, g k) else None.
Proof.
  induction l as [ | a l IH]; simpl; [reflexivity | ].
  destruct (String.eqb_spec a k) as [-> | Hne].
  - destruct (string_dec k k); [reflexivity | congruence].
  - rewrite IH. destruct (string_dec a k); [congruence | ].
    destruct (in_dec string_dec k l); reflexivity.
Qed.

Lemma count_of_group_count k keys :
  count_of k (group_count keys) = sql_count (filter (String.eqb k) keys).
Proof.
  unfold count_of, group_count. rewrite find_group.
  destruct (in_dec string_dec k _) as [Hin | Hout]; [reflexivity | ].
  simpl.
  assert (E : filter (String.eqb k) keys = []).
  { destruct (filter (String.eqb k) keys) as [ | x ?] eqn:F; [reflexivity | ].
    exfalso. apply Hout.
    assert (Hx : In x (filter (String.eqb k) keys))
      by (rewrite F; left; reflexivity).
    apply filter_In in Hx. destruct Hx as [Hx Hk].
    apply String.eqb_eq in Hk. subst x.
    apply order_by_In. unfold distinct. apply nodup_In. exact Hx. }
  rewrite E. reflexivity.
Qed.

Lemma statusCounts_eq startDate endDate db :
  statusCounts (getTrendsSummary startDate endDate db)
  = let stored :=
      map DailyRecord.day_status (records_between startDate endDate db) in
    mkStatusCounts (sql_count (filter (String.eqb "RED") stored))
                   (sql_count (filter (String.eqb "ORANGE") stored))
                   (sql_count (filter (String.eqb "GREEN") stored)).
Proof.
  unfold getTrendsSummary. simpl. rewrite !count_of_group_count. reflexivity.
Qed.

Lemma count_cons k s l :
  sql_count (filter (String.eqb k) (s :: l))
  = (if String.eqb k s then 1 else 0) + sql_count (filter (String.eqb k) l).
Proof.
  unfold sql_count. cbn [filter]. destruct (String.eqb k s).
  - cbn [List.length]. rewrite Nat2Z.inj_succ. lia.
  - lia.
Qed.

Lemma count_three_literals (l : list string) :
  (forall s, In s l -> s = "RED" \/ s = "ORANGE" \/ s = "GREEN") ->
  sql_count (filter (String.eqb "RED") l)
  + sql_count (filter (String.eqb "ORANGE") l)
  + sql_count (filter (String.eqb "GREEN") l)
  = sql_count l.
Proof.
  induction l as [ | s l IH]; intro H; [reflexivity | ].
  assert (IH' := IH (fun s' Hs' => H s' (or_intror Hs'))).
  rewrite !count_cons.
  replace (sql_count (s :: l)) with (1 + sql_count l)
    by (unfold sql_count; cbn [List.length]; rewrite Nat2Z.inj_succ; lia).
  destruct (H s (or_introl eq_refl)) as [-> | [-> | ->]];
    repeat match goal with
    | |- context [String.eqb ?a ?b] =>
        let v := eval vm_compute in (String.eqb a b) in
        change (String.eqb a b) with v
    end; cbv iota; lia.
Qed.

Lemma NoDup_map_filter {A B : Type} (f : A -> B) (p : A -> bool) l :
  NoDup (map f l) -> NoDup (map f (filter p l)).
Proof.
  induction l as [ | a l IH]; simpl; [auto | ].
  intro N. inversion N as [ | ? ? Ha N']; subst.
  destruct (p a); simpl; [ | auto].
  constructor; [ | auto].
  intro H. apply Ha. apply in_map_iff in H. destruct H as [x [E Hx]].
  apply filter_In in Hx. rewrite <- E. apply in_map, Hx.
Qed.


Lemma DayStatus_text_valid s :
  DayStatus_text s = "RED" \/ DayStatus_text s = "ORANGE"
  \/ DayStatus_text s = "GREEN".
Proof. destruct s; auto. Qed.

Lemma records_between_In startDate endDate db r :
  In r (records_between startDate endDate db) <->
  In r (days db) /\ between (DailyRecord.date r) startDate endDate = true.
Proof. unfold records_between. apply filter_In. Qed.







(** ** Stored status and recomputed classification *)

Lemma DayStatus_text_eqb a s :
  String.eqb (DayStatus_text a) (DayStatus_text s) = DayStatus_eqb a s.
Proof. destruct a, s; reflexivity. Qed.

Lemma count_fresh db k l :
  (forall r, In r l -> status_fresh db r) ->
  sql_count (filter (String.eqb (DayStatus_text k))
                    (map DailyRecord.day_status l))
  = sql_count (filter (DayStatus_eqb k) (map (classify_day db) l)).
Proof.
  unfold sql_count. intro F. f_equal.
  induction l as [ | r l IH]; [reflexivity | ].
  cbn [map filter].
  rewrite (F r (or_introl eq_refl)), DayStatus_text_eqb.
  destruct (DayStatus_eqb k (classify_day db r)); cbn [List.length];
    rewrite IH; auto; intros r' Hr'; apply F; right; exact Hr'.
Qed.

(** C2, as the specification has it, fails in a reachable state: after a
    day without record has been read, the summary counts it GREEN and the
    problem days leave it out, while its recomputed classification is
    RED. *)
Lemma aggregators_trust_stored_status :
  let db :=
    run [Startup "2025-01-01"; GetDay "2025-01-01 08:00:00" "2025-01-01"]
        empty_db in
  reachable db
  /\ statusCounts (getTrendsSummary "2025-01-01" "2025-01-31" db)
     = mkStatusCounts 0 0 1
  /\ recomputed_statusCounts "2025-01-01" "2025-01-31" db
     = mkStatusCounts 1 0 0
  /\ getProblemDays "2025-01-01" "2025-01-31" db = []
  /\ recomputed_problemDays "2025-01-01" "2025-01-31" db
     = [mkProblemDay "2025-01-01" "RED" ["No pee"; "No poop"]]
  /\ statusCounts (getTrendsSummary "2025-01-01" "2025-01-31" db)
     <> recomputed_statusCounts "2025-01-01" "2025-01-31" db
  /\ getProblemDays "2025-01-01" "2025-01-31" db
     <> recomputed_problemDays "2025-01-01" "2025-01-31" db.
Proof.
  split; [eexists; reflexivity | ].
  vm_compute. repeat split; discriminate.
Qed.

(** ** Problem days and their issues *)

Lemma fold_push {A B : Type} (f : A -> B) (l : list A) (acc : list B) :
  fold_left (fun issues x => issues ++ [f x]) l acc = acc ++ map f l.
Proof.
  revert acc. induction l as [ | x l IH]; intro acc; simpl.
  - symmetry. apply app_nil_r.
  - rewrite IH, <- app_assoc. reflexivity.
Qed.

Lemma getDayIssues_eq db r :
  dates_unique db -> In r (days db) ->
  getDayIssues (DailyRecord.date r) db
  = issues_of r (meals_on (DailyRecord.date r) db).
Proof.
  intros U Hr. unfold getDayIssues.
  rewrite (select_daily_record_unique _ db r U Hr eq_refl).
  cbv zeta. rewrite fold_push. unfold issues_of, meals_on, meals, is_missed.
  destruct (0 <? DailyRecord.vomited r);
    destruct (DailyRecord.peed r =? 0);
    destruct (DailyRecord.pooped r =? 0); reflexivity.
Qed.

Lemma missedb_statuses entries :
  missedb (map MealEntry.status entries)
  = existsb is_missed entries.
Proof.
  unfold missedb. induction entries as [ | e l IH]; simpl; [reflexivity | ].
  rewrite IH. reflexivity.
Qed.

(** A day without issue is GREEN for the classifier. *)
Lemma no_issue_GREEN r entries :
  issues_of r entries = [] ->
  calculateDayStatus
    (mkDayData (DailyRecord.vomited r) (DailyRecord.peed r)
               (DailyRecord.pooped r) (map MealEntry.status entries))
  = GREEN.
Proof.
  unfold issues_of, calculateDayStatus.
  fold (missedb (map MealEntry.status entries)). rewrite missedb_statuses.
  destruct (0 <? DailyRecord.vomited r); [discriminate | ].
  destruct (DailyRecord.peed r =? 0); [discriminate | ].
  destruct (DailyRecord.pooped r =? 0); [discriminate | ].
  simpl. intro H.
  assert (E : existsb is_missed entries = false).
  { destruct (existsb is_missed entries) eqn:E; [ | reflexivity].
    apply existsb_exists in E. destruct E as [e [He Hm]].
    assert (Hin : In e (filter is_missed entries)) by (apply filter_In; auto).
    apply (in_map meal_issue) in Hin. rewrite H in Hin. destruct Hin. }
  rewrite E. reflexivity.
Qed.

Lemma filter_none {A : Type} (p : A -> bool) l :
  (forall x, In x l -> p x = false) -> filter p l = [].
Proof.
  induction l as [ | a l IH]; intro H; [reflexivity | ].
  cbn [filter]. rewrite (H a (or_introl eq_refl)).
  apply IH. intros x Hx. apply H. right. exact Hx.
Qed.

Lemma GREEN_no_issue r entries :
  calculateDayStatus
    (mkDayData (DailyRecord.vomited r) (DailyRecord.peed r)
               (DailyRecord.pooped r) (map MealEntry.status entries))
  = GREEN ->
  issues_of r entries = [].
Proof.
  unfold issues_of, calculateDayStatus.
  fold (missedb (map MealEntry.status entries)). rewrite missedb_statuses.
  destruct (0 <? DailyRecord.vomited r);
    destruct (DailyRecord.peed r =? 0);
    destruct (DailyRecord.pooped r =? 0);
    destruct (existsb is_missed entries) eqn:E;
    cbn [andb orb]; try discriminate.
  intros _. cbn [app]. rewrite filter_none; [reflexivity | ].
  intros e He. destruct (is_missed e) eqn:K; [ | reflexivity].
  assert (X : existsb is_missed entries = true)
    by (apply existsb_exists; exists e; auto).
  congruence.
Qed.

Lemma StronglySorted_map {A B : Type} (f : A -> B) (R : B -> B -> Prop) l :
  StronglySorted (fun a b => R (f a) (f b)) l -> StronglySorted R (map f l).
Proof.
  induction 1 as [ | a l Hs IH Ha]; simpl; constructor; auto.
  rewrite Forall_forall in *. intros b Hb.
  apply in_map_iff in Hb. destruct Hb as [x [<- Hx]]. auto.
Qed.

Lemma by_date_desc_total a b :
  by_date_desc a b = true \/ by_date_desc b a = true.
Proof. apply text_le_total. Qed.

Lemma by_date_desc_trans a b c :
  by_date_desc a b = true -> by_date_desc b c = true ->
  by_date_desc a c = true.
Proof. unfold by_date_desc. intros. eapply text_le_trans; eassumption. Qed.

Lemma problem_dates startDate endDate db :
  map pd_date (getProblemDays startDate endDate db)
  = map DailyRecord.date
      (order_by by_date_desc
         (filter
            (fun r => between (DailyRecord.date r) startDate endDate
                      && negb (String.eqb (DailyRecord.day_status r) "GREEN"))
            (days db))).
Proof. unfold getProblemDays. rewrite map_map. reflexivity. Qed.

Lemma getProblemDays_In startDate endDate db p :
  In p (getProblemDays startDate endDate db) <->
  exists r, In r (days db)
            /\ between (DailyRecord.date r) startDate endDate = true
            /\ DailyRecord.day_status r <> "GREEN"
            /\ p = mkProblemDay (DailyRecord.date r) (DailyRecord.day_status r)
                     (getDayIssues (DailyRecord.date r) db).
Proof.
  unfold getProblemDays. rewrite in_map_iff. split.
  - intros [r [<- Hr]]. apply order_by_In, filter_In in Hr.
    destruct Hr as [Hr B]. apply andb_true_iff in B. destruct B as [B G].
    exists r. repeat split; auto.
    intro E. rewrite E in G. discriminate.
  - intros [r (Hr & B & G & ->)]. exists r. split; [reflexivity | ].
    apply order_by_In, filter_In. split; [exact Hr | ].
    rewrite B. simpl.
    destruct (String.eqb_spec (DailyRecord.day_status r) "GREEN");
      [contradiction | reflexivity].
Qed.

Lemma slots_unique date (l : list MealEntry.t) :
  (forall e, In e l -> MealEntry.date e = date) ->
  NoDup (map meal_key l) -> NoDup (map MealEntry.meal_slot l).
Proof.
  induction l as [ | e l IH]; simpl; intros Hd N; [constructor | ].
  inversion N as [ | ? ? He N']; subst.
  constructor; [ | auto].
  intro H. apply He. apply in_map_iff in H. destruct H as [e' [Es He']].
  apply in_map_iff. exists e'. split; [ | exact He'].
  unfold meal_key. rewrite Es, (Hd e'), (Hd e); auto.
Qed.

(** C8, as the specification has it, fails in a reachable state.  A day
    stored RED whose counts a later request has corrected, a request that
    ended with an exception before the status was recomputed, is returned
    with an empty issue list, though its recomputed classification is
    GREEN; and a day that was only read is left out, though its recomputed
    classification is RED. *)
Lemma getProblemDays_stale_day :
  let db :=
    run [Startup "2025-01-01";
         PutDay "2025-01-02 08:00:00" "2025-01-02"
           (mkDayBody
              (DailyPatch.mk None None None None None None (Some 0)
                None None None None None None None)
              None None);
         PutDay "2025-01-02 09:00:00" "2025-01-02"
           (mkDayBody
              (DailyPatch.mk None None None None None None (Some 1)
                None (Some 1) None None None None None)
              (Some [MedicationBody.mk 99 true None]) None);
         GetDay "2025-01-03 08:00:00" "2025-01-03"]
        empty_db in
  reachable db
  /\ getProblemDays "2025-01-01" "2025-01-31" db
     = [mkProblemDay "2025-01-02" "RED" []]
  /\ option_map (classify_day db) (select_daily_record "2025-01-02" db)
     = Some GREEN
  /\ option_map (classify_day db) (select_daily_record "2025-01-03" db)
     = Some RED
  /\ ~ (forall p, In p (getProblemDays "2025-01-01" "2025-01-31" db) ->
                  pd_issues p <> []).
Proof.
  split; [eexists; reflexivity | ].
  split; [reflexivity | split; [reflexivity | split; [reflexivity | ] ] ].
  intro H. apply (H (mkProblemDay "2025-01-02" "RED" [])); [ | reflexivity].
  left. reflexivity.
Qed.

(** C8, as the code has it.  In every reachable state and for every
    range, [getProblemDays] returns the dates in the range whose stored
    status is not 'GREEN', which is ORANGE or RED where the stored status
    is one of the three, and no other, each once and the newest first;
    each comes with that status and with the issue list read off the day's
    raw data: the vomit count if positive, "No pee" if the pee count is 0,
    "No poop" if the poop count is 0, and a line with slot and label per
    meal entry of the date, one per slot, that was not eaten fully.  The
    issue list of a returned day is not empty exactly when the
    classification recomputed from its raw data is not GREEN, and so
    whenever its stored status is that classification. *)
Theorem getProblemDays_flagged_days startDate endDate db :
  reachable db ->
  let result := getProblemDays startDate endDate db in
  (forall date,
     In date (map pd_date result) <->
     exists r, In r (days db) /\ DailyRecord.date r = date
               /\ between date startDate endDate = true
               /\ DailyRecord.day_status r <> "GREEN")
  /\ StronglySorted (fun newer older => text_le older newer = true)
                    (map pd_date result)
  /\ NoDup (map pd_date result)
  /\ (forall p, In p result ->
        exists r, In r (days db)
                  /\ pd_date p = DailyRecord.date r
                  /\ pd_status p = DailyRecord.day_status r
                  /\ (status_valid r ->
                      pd_status p = "ORANGE" \/ pd_status p = "RED")
                  /\ pd_issues p
                     = issues_of r (meals_on (DailyRecord.date r) db)
                  /\ NoDup (map MealEntry.meal_slot
                                (meals_on (DailyRecord.date r) db))
                  /\ (pd_issues p <> [] <-> classify_day db r <> GREEN)
                  /\ (status_fresh db r -> pd_issues p <> [])).
Proof.
  intros R result. subst result.
  pose proof (reachable_constraints db R) as C.
  split; [ | split; [ | split ] ].
  - intro date. rewrite in_map_iff. split.
    + intros [p [<- Hp]]. apply getProblemDays_In in Hp.
      destruct Hp as [r (Hr & B & G & ->)]. exists r. simpl.
      repeat split; auto.
    + intros [r (Hr & <- & B & S)].
      exists (mkProblemDay (DailyRecord.date r) (DailyRecord.day_status r)
                (getDayIssues (DailyRecord.date r) db)).
      split; [reflexivity | ].
      apply getProblemDays_In. exists r. repeat split; auto.
  - rewrite problem_dates. apply StronglySorted_map.
    apply (order_by_sorted by_date_desc by_date_desc_total by_date_desc_trans).
  - rewrite problem_dates.
    eapply Permutation_NoDup.
    + apply Permutation_map, Permutation_sym, order_by_perm.
    + apply NoDup_map_filter, C.
  - intros p Hp. apply getProblemDays_In in Hp.
    destruct Hp as [r (Hr & B & G & ->)]. exists r. simpl.
    pose proof (getDayIssues_eq db r (k_dates db C) Hr) as E.
    assert (I : getDayIssues (DailyRecord.date r) db <> []
                <-> classify_day db r <> GREEN).
    { rewrite E. unfold classify_day. rewrite select_meal_statuses_eq.
      split; intros H K; apply H.
      - apply GREEN_no_issue, K.
      - apply no_issue_GREEN, K. }
    split; [exact Hr | split; [reflexivity | split; [reflexivity | ] ] ].
    split; [intros [V | [V | V]]; auto; contradiction | ].
    split; [exact E | split; [ | split; [exact I | ] ] ].
    + apply (slots_unique (DailyRecord.date r)).
      * intros e He. apply filter_In in He. destruct He as [_ He].
        apply String.eqb_eq, He.
      * apply NoDup_map_filter, C.
    + intro F. apply I. intro K. apply G. rewrite F, K. reflexivity.
Qed.

(** *** The aggregators and the recomputed classification *)

Lemma insert_by_map2 {A B : Type} (le : A -> A -> bool) (le' : B -> B -> bool)
    (f : A -> B) x l :
  (forall a b, le' (f a) (f b) = le a b) ->
  insert_by le' (f x) (map f l) = map f (insert_by le x l).
Proof.
  intro H. induction l as [ | y l IH]; simpl; [reflexivity | ].
  rewrite H. destruct (le x y); simpl; [reflexivity | ].
  rewrite IH. reflexivity.
Qed.

Lemma order_by_map2 {A B : Type} (le : A -> A -> bool) (le' : B -> B -> bool)
    (f : A -> B) l :
  (forall a b, le' (f a) (f b) = le a b) ->
  order_by le' (map f l) = map f (order_by le l).
Proof.
  intro H. induction l as [ | x l IH]; [reflexivity | ].
  cbn [map order_by fold_right]. fold (order_by le' (map f l)).
  fold (order_by le l). rewrite IH. apply insert_by_map2, H.
Qed.

Lemma filter_map_comm {A B : Type} (f : A -> B) (p : B -> bool) l :
  filter p (map f l) = map f (filter (fun x => p (f x)) l).
Proof.
  induction l as [ | x l IH]; [reflexivity | ].
  cbn [map filter]. destruct (p (f x)); cbn [map]; rewrite IH; reflexivity.
Qed.

(** What the two aggregators read of the daily records. *)
Lemma statusCounts_of_stored startDate endDate db :
  map DailyRecord.day_status (records_between startDate endDate db)
  = map snd
      (filter (fun x => between (fst x) startDate endDate)
              (stored_statuses db)).
Proof.
  unfold stored_statuses, records_between. fold (days db).
  rewrite filter_map_comm, map_map. reflexivity.
Qed.

Lemma getProblemDays_of_stored startDate endDate db :
  map (fun p => (pd_date p, pd_status p)) (getProblemDays startDate endDate db)
  = order_by (fun a b => text_le (fst b) (fst a))
      (filter (fun x => between (fst x) startDate endDate
                        && negb (String.eqb (snd x) "GREEN"))
              (stored_statuses db)).
Proof.
  unfold stored_statuses, getProblemDays. fold (days db).
  rewrite filter_map_comm, map_map. cbn [pd_date pd_status fst snd].
  symmetry. apply (order_by_map2 by_date_desc). reflexivity.
Qed.

Lemma recomputed_problemDays_In startDate endDate db p :
  In p (recomputed_problemDays startDate endDate db) <->
  exists r, In r (days db)
            /\ between (DailyRecord.date r) startDate endDate = true
            /\ classify_day db r <> GREEN
            /\ p = mkProblemDay (DailyRecord.date r)
                     (DayStatus_text (classify_day db r))
                     (getDayIssues (DailyRecord.date r) db).
Proof.
  unfold recomputed_problemDays. rewrite in_map_iff. split.
  - intros [r [<- Hr]]. apply order_by_In, filter_In in Hr.
    destruct Hr as [Hr B]. apply andb_true_iff in B. destruct B as [B G].
    exists r. repeat split; auto.
    intro E. rewrite E in G. discriminate.
  - intros [r (Hr & B & G & ->)]. exists r. split; [reflexivity | ].
    apply order_by_In, filter_In. split; [exact Hr | ].
    rewrite B. destruct (classify_day db r); [reflexivity | reflexivity | ].
    contradiction.
Qed.

Lemma same_date_same_record db r r' :
  dates_unique db -> In r (days db) -> In r' (days db) ->
  DailyRecord.date r' = DailyRecord.date r -> r' = r.
Proof.
  intros U Hr Hr' E.
  pose proof (select_daily_record_unique _ db r U Hr eq_refl) as S.
  pose proof (select_daily_record_unique _ db r' U Hr' E) as S'.
  congruence.
Qed.

(** C2, as the code has it.  Both aggregators read the stored [day_status]
    and recompute nothing: the buckets of [getTrendsSummary] and the days
    [getProblemDays] selects, with their labels, are the same in two states
    that store the same dates and statuses, whatever the raw counts and the
    meal entries.  The problem days are those of the recomputed
    classification exactly in the states where the stored status of each
    record in the range is the classification of its raw counts and meal
    statuses; in those states the buckets are those of the recomputed
    classification too; and [updateDayStatus] leaves the record of its
    date in that condition. *)
Theorem aggregators_agree_when_fresh startDate endDate db :
  dates_unique db ->
  ((forall r, In r (records_between startDate endDate db) ->
              status_fresh db r)
   <-> getProblemDays startDate endDate db
       = recomputed_problemDays startDate endDate db)
  /\ ((forall r, In r (records_between startDate endDate db) ->
                 status_fresh db r) ->
      statusCounts (getTrendsSummary startDate endDate db)
      = recomputed_statusCounts startDate endDate db)
  /\ (forall db',
        stored_statuses db' = stored_statuses db ->
        statusCounts (getTrendsSummary startDate endDate db')
        = statusCounts (getTrendsSummary startDate endDate db)
        /\ map (fun p => (pd_date p, pd_status p))
               (getProblemDays startDate endDate db')
           = map (fun p => (pd_date p, pd_status p))
                 (getProblemDays startDate endDate db))
  /\ (forall date r,
        In r (days (snd (updateDayStatus date db))) ->
        DailyRecord.date r = date ->
        status_fresh (snd (updateDayStatus date db)) r).
Proof.
  intro U. split; [split | split; [ | split ] ].
  - intro F. unfold getProblemDays, recomputed_problemDays.
    assert (E : filter
                  (fun r => between (DailyRecord.date r) startDate endDate
                            && negb (String.eqb (DailyRecord.day_status r)
                                                "GREEN"))
                  (rows (daily_records db))
                = filter
                    (fun r => between (DailyRecord.date r) startDate endDate
                              && negb (DayStatus_eqb (classify_day db r) GREEN))
                    (days db)).
    { apply filter_ext_in. intros r Hr.
      destruct (between _ _ _) eqn:B; [ | reflexivity].
      assert (Fr : status_fresh db r)
        by (apply F, records_between_In; auto).
      rewrite Fr. destruct (classify_day db r); reflexivity. }
    rewrite E. apply map_ext_in. intros r Hr.
    apply order_by_In, filter_In in Hr. destruct Hr as [Hr B].
    apply andb_true_iff in B. destruct B as [B _].
    assert (Fr : status_fresh db r)
      by (apply F, records_between_In; auto).
    rewrite Fr. reflexivity.
  - intros E r Hr. apply records_between_In in Hr. destruct Hr as [Hr B].
    unfold status_fresh.
    destruct (String.eqb_spec (DailyRecord.day_status r) "GREEN") as [G | G].
    + destruct (classify_day db r) eqn:K; [ | | exact G]; exfalso.
      * assert (Hp : In (mkProblemDay (DailyRecord.date r)
                           (DayStatus_text (classify_day db r))
                           (getDayIssues (DailyRecord.date r) db))
                        (recomputed_problemDays startDate endDate db)).
        { apply recomputed_problemDays_In. exists r.
          repeat split; auto. rewrite K. discriminate. }
        rewrite <- E in Hp. apply getProblemDays_In in Hp.
        destruct Hp as [r' (Hr' & _ & G' & Ep)].
        injection Ep as Ed _ _.
        rewrite (same_date_same_record db r r' U Hr Hr') in G' by auto.
        contradiction.
      * assert (Hp : In (mkProblemDay (DailyRecord.date r)
                           (DayStatus_text (classify_day db r))
                           (getDayIssues (DailyRecord.date r) db))
                        (recomputed_problemDays startDate endDate db)).
        { apply recomputed_problemDays_In. exists r.
          repeat split; auto. rewrite K. discriminate. }
        rewrite <- E in Hp. apply getProblemDays_In in Hp.
        destruct Hp as [r' (Hr' & _ & G' & Ep)].
        injection Ep as Ed _ _.
        rewrite (same_date_same_record db r r' U Hr Hr') in G' by auto.
        contradiction.
    + assert (Hp : In (mkProblemDay (DailyRecord.date r)
                         (DailyRecord.day_status r)
                         (getDayIssues (DailyRecord.date r) db))
                      (getProblemDays startDate endDate db)).
      { apply getProblemDays_In. exists r. repeat split; auto. }
      rewrite E in Hp. apply recomputed_problemDays_In in Hp.
      destruct Hp as [r' (Hr' & _ & _ & Ep)].
      injection Ep as Ed Es _.
      rewrite (same_date_same_record db r r' U Hr Hr') in Es by auto.
      exact Es.
  - intro F. rewrite statusCounts_eq. unfold recomputed_statusCounts.
    cbv zeta. rewrite <- !(count_fresh db _ _ F). reflexivity.
  - intros db' E. split.
    + rewrite !statusCounts_eq. cbv zeta.
      rewrite !statusCounts_of_stored, E. reflexivity.
    + rewrite !getProblemDays_of_stored, E. reflexivity.
  - intros date r Hr Hd. apply updateDayStatus_fresh; assumption.
Qed.

Lemma aggregators_agree_when_fresh_witness :
  let db :=
    run [Startup "2025-01-01";
         PutDay "2025-01-01 08:00:00" "2025-01-01"
           (mkDayBody
              (DailyPatch.mk None None None None (Some 1) None (Some 2) None
                             (Some 1) None None None None None)
              None None)]
        empty_db in
  dates_unique db
  /\ (forall r, In r (records_between "2025-01-01" "2025-01-31" db) ->
                status_fresh db r)
  /\ getProblemDays "2025-01-01" "2025-01-31" db
     = recomputed_problemDays "2025-01-01" "2025-01-31" db
  /\ statusCounts (getTrendsSummary "2025-01-01" "2025-01-31" db)
     = recomputed_statusCounts "2025-01-01" "2025-01-31" db.
Proof.
  intro db.
  assert (U : dates_unique db).
  { unfold dates_unique. vm_compute. repeat constructor. intros []. }
  assert (F : forall r, In r (records_between "2025-01-01" "2025-01-31" db) ->
                        status_fresh db r).
  { intros r [<- | []]. reflexivity. }
  split; [exact U | split; [exact F | ] ].
  destruct (aggregators_agree_when_fresh "2025-01-01" "2025-01-31" db U)
    as (P & S & _).
  split; [apply P, F | apply S, F].
Defined.

(** ** Reading a day that has no record *)


Lemma days_fold {A : Type} (step : Db -> A -> Db) (l : list A) db :
  (forall db a, days (step db a) = days db) ->
  days (fold_left step l db) = days db.
Proof.
  intro Hs. revert db. induction l as [ | a l IH]; intro db; simpl; auto.
  rewrite IH. apply Hs.
Qed.

Lemma getOrCreateDailyRecord_keeps now date db r :
  In r (days db) -> In r (days (snd (getOrCreateDailyRecord now date db))).
Proof.
  rewrite getOrCreateDailyRecord_days.
  destruct (select_daily_record date db); [auto | ].
  intro H. apply in_app_iff. auto.
Qed.









Lemma getOrCreateDailyRecord_dates_keep now date db d :
  In d (map DailyRecord.date (days db)) ->
  In d (map DailyRecord.date
            (days (snd (getOrCreateDailyRecord now date db)))).
Proof.
  intro H. apply in_map_iff in H. destruct H as [r [<- Hr]].
  apply in_map, getOrCreateDailyRecord_keeps, Hr.
Qed.





Lemma sql_count_app {A : Type} (l : list A) x :
  sql_count (l ++ [x]) = sql_count l + 1.
Proof.
  unfold sql_count. rewrite length_app, Nat2Z.inj_add. reflexivity.
Qed.




(** ** The theorems at concrete states *)


Lemma getProblemDays_flagged_days_witness :
  let db :=
    run [Startup "2025-01-01";
         GetDay "2025-01-01 08:00:00" "2025-01-01";
         PutDay "2025-01-02 08:00:00" "2025-01-02"
           (mkDayBody
              (DailyPatch.mk None None None None (Some 1)
                None (Some 0) None (Some 1) None None None None None)
              None None)]
        empty_db in
  reachable db
  /\ NoDup (map pd_date (getProblemDays "2025-01-01" "2025-01-31" db)).
Proof.
  intro db.
  assert (R : reachable db) by (eexists; reflexivity).
  split; [exact R | ].
  exact (proj1 (proj2 (proj2
           (getProblemDays_flagged_days "2025-01-01" "2025-01-31" db R)))).
Defined.


(* ================================================================= *)
(** * Further properties of the code *)

(** ** The text functions of the import *)

Lemma starts_with_spec sub s :
  starts_with sub s = true <-> exists rest, s = sub ++ rest.
Proof.
  revert s. induction sub as [ | c sub IH]; intro s; simpl.
  - split; [exists s; reflexivity | reflexivity].
  - destruct s as [ | d s]; [split; [discriminate | intros [r E]; discriminate] | ].
    rewrite andb_true_iff, N.eqb_eq, IH. split.
    + intros [-> [rest ->]]. exists rest. reflexivity.
    + intros [rest E]. injection E as -> ->. eauto.
Qed.

Lemma includes_spec s sub :
  includes s sub = true <-> exists before after, s = before ++ sub ++ after.
Proof.
  induction s as [ | d s IH].
  - simpl. rewrite orb_false_r, starts_with_spec. split.
    + intros [rest E]. exists [], rest. exact E.
    + intros [before [after E]]. destruct before; [eauto | discriminate].
  - cbn [includes]. rewrite orb_true_iff, starts_with_spec, IH. split.
    + intros [[rest E] | [before [after E]]].
      * exists [], rest. exact E.
      * exists (d :: before), after. rewrite E. reflexivity.
    + intros [before [after E]]. destruct before as [ | b before].
      * left. exists after. exact E.
      * right. injection E as -> E. eauto.
Qed.

(** A string that includes [extra ++ sub] includes [sub]. *)
Lemma includes_longer s extra sub :
  includes s (extra ++ sub) = true -> includes s sub = true.
Proof.
  rewrite !includes_spec. intros [before [after E]].
  exists (before ++ extra), after. rewrite E, <- !app_assoc. reflexivity.
Qed.

Lemma js_eqb_eq a b : js_eqb a b = true <-> a = b.
Proof.
  revert b. induction a as [ | c a IH]; intros [ | d b]; simpl;
    try (split; [discriminate | discriminate]); [tauto | ].
  rewrite andb_true_iff, N.eqb_eq, IH.
  split; [intros [-> ->]; reflexivity | intro E; inversion E; auto].
Qed.

Lemma includes_self s : includes s s = true.
Proof.
  apply includes_spec. exists [], []. rewrite app_nil_r. reflexivity.
Qed.

(** X1. [parseMealStatus] never answers 'not_fully': a text that includes
    "ne doel" includes "doel", which the test before it answers with
    'ate_fully'; so every answer is 'ate_fully' or 'skipped', whatever
    [toLowerCase] does. *)
Theorem parseMealStatus_never_not_fully toLowerCase value :
  parseMealStatus toLowerCase value <> "not_fully"
  /\ (parseMealStatus toLowerCase value = "ate_fully"
      \/ parseMealStatus toLowerCase value = "skipped")
  /\ (includes (toLowerCase value) lit_ne_doel = true ->
      parseMealStatus toLowerCase value = "ate_fully").
Proof.
  unfold parseMealStatus.
  destruct (js_eqb value [] || js_eqb value (js "-") || js_eqb value (js ""));
    [repeat split; try discriminate; auto | ].
  cbv zeta. set (lower := toLowerCase value).
  assert (L : includes lower lit_ne_doel = true ->
              includes lower lit_doel = true)
    by apply (includes_longer _ [1085; 1077; 32]%N lit_doel).
  assert (E : js_eqb lower lit_ne_doel = true ->
              includes lower lit_ne_doel = true).
  { intro H. apply js_eqb_eq in H. rewrite H. apply includes_self. }
  destruct (includes lower lit_doel) eqn:D.
  - rewrite orb_true_r. repeat split; try discriminate; auto.
  - rewrite orb_false_r.
    destruct (includes lower lit_ne_doel) eqn:ND;
      [specialize (L eq_refl); discriminate | ].
    destruct (js_eqb lower lit_ne_doel) eqn:EQ;
      [specialize (E eq_refl); discriminate | ].
    cbn [orb].
    destruct (js_eqb lower lit_doel);
      [repeat split; try discriminate; auto | ].
    destruct (includes _ lit_ne_davala || includes _ lit_byl_v_klinike);
      repeat split; try discriminate; auto.
Qed.

Lemma trimStart_head s :
  match trimStart s with
  | [] => True
  | c :: _ => is_space c = false
  end.
Proof.
  induction s as [ | c s IH]; simpl; [exact I | ].
  destruct (is_space c) eqn:E; [exact IH | exact E].
Qed.

Lemma trimStart_fixed s :
  match s with
  | [] => True
  | c :: _ => is_space c = false
  end ->
  trimStart s = s.
Proof. destruct s as [ | c s]; simpl; [reflexivity | intros ->; reflexivity]. Qed.

Lemma trimStart_suffix s : exists skipped, s = skipped ++ trimStart s.
Proof.
  induction s as [ | c s [p IH]]; simpl.
  - exists []. reflexivity.
  - destruct (is_space c).
    + exists (c :: p). simpl. rewrite <- IH. reflexivity.
    + exists []. reflexivity.
Qed.

(** [trim] gives a part of the string. *)
Lemma trim_part s : exists before after, s = before ++ trim s ++ after.
Proof.
  unfold trim. destruct (trimStart_suffix s) as [p Hp].
  destruct (trimStart_suffix (rev (trimStart s))) as [q Hq].
  exists p, (rev q).
  rewrite <- rev_app_distr, <- Hq, rev_involutive. exact Hp.
Qed.

Lemma trim_In c s : In c (trim s) -> In c s.
Proof.
  destruct (trim_part s) as [before [after E]]. intro H.
  rewrite E, !in_app_iff. auto.
Qed.

(** [trim] leaves nothing to trim. *)
Lemma trim_trim s : trim (trim s) = trim s.
Proof.
  unfold trim.
  set (x := trimStart s). set (y := trimStart (rev x)).
  assert (Hy : trimStart y = y) by (apply trimStart_fixed, trimStart_head).
  assert (Hx : trimStart (rev y) = rev y).
  { apply trimStart_fixed.
    destruct (trimStart_suffix (rev x)) as [q Hq]. fold y in Hq.
    assert (E : x = rev y ++ rev q).
    { rewrite <- rev_app_distr, <- Hq, rev_involutive. reflexivity. }
    pose proof (trimStart_head s) as Hs. fold x in Hs.
    destruct (rev y) as [ | c r]; [exact I | ].
    rewrite E in Hs. exact Hs. }
  rewrite Hx, rev_involutive, Hy. reflexivity.
Qed.

(** *** [parseCsvLine] *)

Lemma parseCsvLine_chars chars result current inQuotes :
  ~ In quote chars -> (inQuotes = false -> ~ In comma chars) ->
  fold_left parseCsvLine_char chars (mkCsvLoop result current inQuotes)
  = mkCsvLoop result (current ++ chars) inQuotes.
Proof.
  revert current. induction chars as [ | c chars IH]; intros current Hq Hc.
  - rewrite app_nil_r. reflexivity.
  - cbn [fold_left parseCsvLine_char].
    destruct (N.eqb_spec c quote) as [-> | _];
      [exfalso; apply Hq; left; reflexivity | ].
    assert (G : (c =? comma)%N && negb inQuotes = false).
    { destruct inQuotes; [apply andb_false_r | ].
      destruct (N.eqb_spec c comma) as [-> | _]; [ | reflexivity].
      exfalso. apply (Hc eq_refl). left. reflexivity. }
    rewrite G, IH.
    + rewrite <- app_assoc. reflexivity.
    + intro H. apply Hq. right. exact H.
    + intros E H. apply (Hc E). right. exact H.
Qed.

Lemma parseCsvLine_field f result :
  writable f ->
  fold_left parseCsvLine_char (csv_field f) (mkCsvLoop result [] false)
  = mkCsvLoop result (snd f) false.
Proof.
  intros (Hq & Hc & _). destruct f as [[ | ] text]; unfold csv_field;
    cbn [fst snd] in *.
  - change ([quote] ++ text ++ [quote]) with (quote :: text ++ [quote]).
    cbn [fold_left].
    change (parseCsvLine_char (mkCsvLoop result [] false) quote)
      with (mkCsvLoop result [] true).
    rewrite fold_left_app, parseCsvLine_chars;
      [reflexivity | exact Hq | discriminate].
  - rewrite parseCsvLine_chars; [reflexivity | exact Hq | exact Hc].
Qed.

Lemma parseCsvLine_fields fields result :
  fields <> [] -> Forall writable fields ->
  let st :=
    fold_left parseCsvLine_char (csv_line fields) (mkCsvLoop result [] false) in
  csv_result st ++ [trim (csv_current st)] = result ++ map snd fields.
Proof.
  revert result. induction fields as [ | f rest IH]; intros result Hne Hw;
    [contradiction | ].
  inversion Hw as [ | ? ? Hf Hrest]; subst.
  destruct rest as [ | g rest].
  - cbn [csv_line map]. cbv zeta. rewrite parseCsvLine_field by exact Hf.
    cbn [csv_result csv_current]. destruct Hf as (_ & _ & ->). reflexivity.
  - change (csv_line (f :: g :: rest))
      with (csv_field f ++ [comma] ++ csv_line (g :: rest)).
    cbv zeta. rewrite !fold_left_app, parseCsvLine_field by exact Hf.
    cbn [fold_left parseCsvLine_char].
    change (comma =? quote)%N with false.
    change (comma =? comma)%N with true. cbv iota. cbn [andb negb].
    specialize (IH (result ++ [trim (snd f)])). cbv zeta in IH.
    rewrite IH; [ | discriminate | exact Hrest].
    destruct Hf as (_ & _ & ->). rewrite <- app_assoc. reflexivity.
Qed.

(** X4. [parseCsvLine] gives back the fields a line was written from:
    for one field or more, each without double quote, without white space
    at its ends and, unless written in quotes, without comma, the line of
    the fields joined by commas parses to exactly these fields. *)
Theorem parseCsvLine_csv_line fields :
  fields <> [] -> Forall writable fields ->
  parseCsvLine (csv_line fields) = map snd fields.
Proof.
  intros Hne Hw. unfold parseCsvLine.
  exact (parseCsvLine_fields fields [] Hne Hw).
Qed.

Lemma parseCsvLine_csv_line_witness :
  let fields :=
    [(false, js "12.01.2025"); (true, js "a, b"); (false, js "TRUE");
     (false, [])] in
  fields <> [] /\ Forall writable fields
  /\ csv_line fields
     = js "12.01.2025," ++ [quote] ++ js "a, b" ++ [quote] ++ js ",TRUE,"
  /\ parseCsvLine (csv_line fields) = map snd fields.
Proof.
  intro fields.
  assert (Hne : fields <> []) by discriminate.
  assert (Hw : Forall writable fields).
  { repeat apply Forall_cons; try apply Forall_nil;
      (split; [ | split ];
       [ intro H; vm_compute in H; intuition discriminate
       | intros E H; try discriminate E; vm_compute in H;
         intuition discriminate
       | reflexivity ]). }
  split; [exact Hne | split; [exact Hw | split ] ].
  - reflexivity.
  - exact (parseCsvLine_csv_line fields Hne Hw).
Defined.

Lemma parseCsvLine_loop_clean chars st :
  Forall (fun f => ~ In quote f /\ trim f = f) (csv_result st) ->
  ~ In quote (csv_current st) ->
  let st' := fold_left parseCsvLine_char chars st in
  Forall (fun f => ~ In quote f /\ trim f = f) (csv_result st')
  /\ ~ In quote (csv_current st').
Proof.
  revert st. induction chars as [ | c chars IH]; intros st Hr Hc;
    [split; assumption | ].
  cbn [fold_left]. apply IH; destruct st as [result current inQuotes];
    cbn [parseCsvLine_char csv_result csv_current] in *.
  - destruct (c =? quote)%N; [exact Hr | ].
    destruct ((c =? comma)%N && negb inQuotes); [ | exact Hr].
    cbn [csv_result]. apply Forall_app. split; [exact Hr | ].
    constructor; [ | constructor].
    split; [ | apply trim_trim].
    intro H. apply Hc, (trim_In _ _ H).
  - destruct (N.eqb_spec c quote) as [E | E]; [exact Hc | ].
    destruct ((c =? comma)%N && negb inQuotes); cbn [csv_current];
      [intros [] | ].
    rewrite in_app_iff. intros [H | [H | []]]; [auto | congruence].
Qed.

(** X3. No field [parseCsvLine] returns holds a double quote or has white
    space at either end: the quotes of the line, doubled ones as well, are
    all dropped, and each field is trimmed. *)
Theorem parseCsvLine_fields_clean line f :
  In f (parseCsvLine line) -> ~ In quote f /\ trim f = f.
Proof.
  unfold parseCsvLine.
  destruct (parseCsvLine_loop_clean line (mkCsvLoop [] [] false))
    as [Hr Hc]; [constructor | intros [] | ].
  cbv zeta. rewrite in_app_iff. intros [H | [<- | []]].
  - rewrite Forall_forall in Hr. apply Hr, H.
  - split; [ | apply trim_trim].
    intro H. apply Hc, (trim_In _ _ H).
Qed.

Lemma parseCsvLine_fields_clean_witness :
  let line := [quote] ++ js " a " ++ [quote; quote] ++ js "b , c" in
  In (js "a b , c") (parseCsvLine line)
  /\ ~ In quote (js "a b , c") /\ trim (js "a b , c") = js "a b , c".
Proof.
  intro line.
  assert (H : In (js "a b , c") (parseCsvLine line)) by (left; reflexivity).
  split; [exact H | ].
  exact (parseCsvLine_fields_clean line (js "a b , c") H).
Defined.

Lemma parseCsvLine_loop_count chars st :
  let st' := fold_left parseCsvLine_char chars st in
  (List.length (csv_result st')
   <= List.length (csv_result st) + count_occ N.eq_dec chars comma)%nat
  /\ (~ In quote chars -> csv_inQuotes st = false ->
      List.length (csv_result st')
      = (List.length (csv_result st) + count_occ N.eq_dec chars comma)%nat).
Proof.
  revert st. induction chars as [ | c chars IH]; intro st.
  - cbn. split; [lia | intros; lia].
  - cbn [fold_left]. cbv zeta.
    destruct (IH (parseCsvLine_char st c)) as [Hle Heq].
    destruct st as [result current inQuotes].
    cbn [parseCsvLine_char csv_result csv_inQuotes] in *.
    cbn [count_occ]. split.
    + destruct (N.eqb_spec c quote) as [Eq | Nq].
      * cbn [csv_result] in Hle.
        destruct (N.eq_dec c comma); unfold quote, comma in *; lia.
      * destruct (N.eqb_spec c comma) as [Ec | Nc];
          destruct inQuotes; cbn [andb negb csv_result] in *;
          rewrite ?length_app in Hle; cbn [List.length] in Hle;
          destruct (N.eq_dec c comma); try congruence; lia.
    + intros Hq ->.
      destruct (N.eqb_spec c quote) as [Eq | Nq];
        [exfalso; apply Hq; left; exact Eq | ].
      assert (Hq' : ~ In quote chars) by (intro H; apply Hq; right; exact H).
      destruct (N.eqb_spec c comma) as [Ec | Nc];
        cbn [andb negb csv_result csv_inQuotes] in *;
        specialize (Heq Hq' eq_refl);
        rewrite ?length_app in Heq; cbn [List.length] in Heq;
        destruct (N.eq_dec c comma); try congruence; lia.
Qed.

(** X2. [parseCsvLine] returns one field at least, and at most one more
    than the line has commas; for a line without double quote it returns
    exactly one field more than the line has commas, so the empty line
    gives one empty field. *)
Theorem parseCsvLine_length line :
  (1 <= List.length (parseCsvLine line)
   <= 1 + count_occ N.eq_dec line comma)%nat
  /\ (~ In quote line ->
      List.length (parseCsvLine line)
      = (1 + count_occ N.eq_dec line comma)%nat)
  /\ parseCsvLine [] = [[]].
Proof.
  unfold parseCsvLine. cbv zeta.
  destruct (parseCsvLine_loop_count line (mkCsvLoop [] [] false))
    as [Hle Heq].
  cbn [csv_result csv_inQuotes List.length] in *.
  rewrite length_app. cbn [List.length].
  repeat split; try lia.
  intro Hq. specialize (Heq Hq eq_refl). lia.
Qed.

(** *** [parseDate] *)

Lemma split_length sep s :
  List.length (split sep s) = S (count_occ N.eq_dec s sep).
Proof.
  induction s as [ | c s IH]; [reflexivity | ].
  cbn [split count_occ].
  destruct (N.eqb_spec c sep) as [E | E]; destruct (N.eq_dec c sep);
    try congruence.
  - cbn [List.length]. rewrite IH. reflexivity.
  - destruct (split sep s); [discriminate | exact IH].
Qed.

Lemma split_part sep part rest :
  ~ In sep part ->
  split sep (part ++ sep :: rest) = part :: split sep rest.
Proof.
  induction part as [ | c part IH]; intro H.
  - cbn [app split]. rewrite N.eqb_refl. reflexivity.
  - cbn [app split].
    destruct (N.eqb_spec c sep) as [E | E];
      [exfalso; apply H; left; exact E | ].
    rewrite IH by (intro H'; apply H; right; exact H'). reflexivity.
Qed.

Lemma split_last sep part : ~ In sep part -> split sep part = [part].
Proof.
  induction part as [ | c part IH]; intro H; [reflexivity | ].
  cbn [split].
  destruct (N.eqb_spec c sep) as [E | E];
    [exfalso; apply H; left; exact E | ].
  rewrite IH by (intro H'; apply H; right; exact H'). reflexivity.
Qed.

(** X5. [parseDate] turns day.month.year into year-month-day with month and
    day padded with zeros to two characters: for parts without dot the
    result is the year, a hyphen, the padded month, a hyphen and the padded
    day; and with a year of four characters and a month and a day of one or
    two, the result has the ten characters of YYYY-MM-DD. *)
Theorem parseDate_parts day month year :
  ~ In dot day -> ~ In dot month -> ~ In dot year ->
  parseDate (day ++ [dot] ++ month ++ [dot] ++ year)
  = Returns (year ++ [hyphen] ++ padStart 2 zero month ++ [hyphen]
             ++ padStart 2 zero day)
  /\ ((1 <= List.length day <= 2)%nat -> (1 <= List.length month <= 2)%nat ->
      List.length year = 4%nat ->
      List.length (year ++ [hyphen] ++ padStart 2 zero month ++ [hyphen]
                   ++ padStart 2 zero day) = 10%nat).
Proof.
  intros Hd Hm Hy. split.
  - unfold parseDate. cbn [app].
    rewrite (split_part dot day), (split_part dot month), (split_last dot year)
      by assumption.
    reflexivity.
  - intros Ld Lm Ly. unfold padStart.
    rewrite !length_app, !repeat_length. cbn [List.length]. lia.
Qed.

Lemma parseDate_parts_witness :
  ~ In dot (js "5") /\ ~ In dot (js "11") /\ ~ In dot (js "2025")
  /\ parseDate (js "5.11.2025") = Returns (js "2025-11-05").
Proof.
  assert (Hd : ~ In dot (js "5"))
    by (intro H; vm_compute in H; intuition discriminate).
  assert (Hm : ~ In dot (js "11"))
    by (intro H; vm_compute in H; intuition discriminate).
  assert (Hy : ~ In dot (js "2025"))
    by (intro H; vm_compute in H; intuition discriminate).
  repeat (split; [assumption | ]).
  exact (proj1 (parseDate_parts (js "5") (js "11") (js "2025") Hd Hm Hy)).
Defined.

(** X6. [parseDate] throws exactly when the text does not have two dots,
    and then its message ends with the text; it checks nothing else, so
    the parts of a text with two dots may be empty or not numbers. *)
Theorem parseDate_throws dateStr :
  ((exists message, parseDate dateStr = Throws message)
   <-> count_occ N.eq_dec dateStr dot <> 2%nat)
  /\ (forall message,
        parseDate dateStr = Throws message ->
        message = js "Invalid date format: " ++ dateStr)
  /\ parseDate [dot; dot] = Returns (js "-00-00").
Proof.
  split; [ | split; [ | reflexivity ] ].
  - unfold parseDate. pose proof (split_length dot dateStr) as L.
    destruct (split dot dateStr) as [ | a [ | b [ | c [ | d l]]]];
      cbn [List.length] in L; try discriminate L;
      (split; [intros [m H]; try discriminate H; lia
              | intro H; try (exfalso; apply H; lia); eauto]).
  - unfold parseDate.
    destruct (split dot dateStr) as [ | a [ | b [ | c [ | d l]]]];
      intros message H; congruence.
Qed.

(** ** Tables a function does not write *)

Section Unwritten.
Context {T : Type} (table : Db -> T).
Hypothesis not_daily_records :
  forall f db, table (on_daily_records f db) = table db.
Hypothesis not_medication_entries :
  forall f db, table (on_medication_entries f db) = table db.
Hypothesis not_meal_entries :
  forall f db, table (on_meal_entries f db) = table db.
Hypothesis not_meal_default_history :
  forall f db, table (on_meal_default_history f db) = table db.

Lemma unwritten_fold {A : Type} (step : Db -> A -> Db) (l : list A) db :
  (forall db a, table (step db a) = table db) ->
  table (fold_left step l db) = table db.
Proof.
  intro Hs. revert db. induction l as [ | a l IH]; intro db; simpl; auto.
  rewrite IH. apply Hs.
Qed.

Lemma unwritten_getOrCreateDailyRecord now date db :
  table (snd (getOrCreateDailyRecord now date db)) = table db.
Proof.
  unfold getOrCreateDailyRecord.
  destruct (select_daily_record date db); simpl; auto.
Qed.

Lemma unwritten_updateDailyRecord now date data db :
  table (updateDailyRecord now date data db) = table db.
Proof.
  unfold updateDailyRecord. destruct (_ =? _)%nat;
    rewrite ?not_daily_records; apply unwritten_getOrCreateDailyRecord.
Qed.

Lemma unwritten_updateDayStatus date db :
  table (snd (updateDayStatus date db)) = table db.
Proof.
  unfold updateDayStatus. destruct (select_daily_record date db); simpl; auto.
Qed.

Lemma unwritten_getFullDayData now date db :
  table (snd (getFullDayData now date db)) = table db.
Proof. rewrite getFullDayData_db. apply unwritten_getOrCreateDailyRecord. Qed.

Lemma unwritten_migrate_defaults today db :
  table (migrate_defaults today db) = table db.
Proof.
  unfold migrate_defaults. destruct (_ =? 0); [ | reflexivity].
  apply unwritten_fold. intros d config.
  destruct (0 <? _); auto.
Qed.

Lemma unwritten_upsertMedicationEntry date id taken comment db :
  table (snd (upsertMedicationEntry date id taken comment db)) = table db.
Proof.
  destruct (upsertMedicationEntry_state date id taken comment db) as [f ->].
  apply not_medication_entries.
Qed.

Lemma unwritten_upsertMealEntry date slot status amount comment db :
  table (upsertMealEntry date slot status amount comment db) = table db.
Proof. unfold upsertMealEntry. apply not_meal_entries. Qed.

Lemma unwritten_put_day now date body db :
  table (snd (put_day now date body db)) = table db.
Proof.
  apply (put_day_preserves (fun d => table d = table db) now date body);
    try reflexivity.
  - intros _ d Hd. rewrite unwritten_updateDailyRecord. exact Hd.
  - intros id taken comment d Hd.
    rewrite unwritten_upsertMedicationEntry. exact Hd.
  - intros slot amount d Hd. unfold setDefaultAmount.
    rewrite not_meal_default_history. exact Hd.
  - intros slot status amount comment d Hd.
    rewrite unwritten_upsertMealEntry. exact Hd.
  - intros d Hd. rewrite unwritten_updateDayStatus. exact Hd.
  - intros d Hd. rewrite unwritten_getOrCreateDailyRecord. exact Hd.
Qed.

Lemma unwritten_importCsv_row now ids row db :
  table (importCsv_row now ids row db) = table db.
Proof.
  apply (importCsv_row_preserves (fun d => table d = table db) now ids row);
    try reflexivity.
  - intros data d _ Hd. rewrite unwritten_updateDailyRecord. exact Hd.
  - intros id taken comment d Hd.
    rewrite unwritten_upsertMedicationEntry. exact Hd.
  - intros slot status amount comment d Hd.
    rewrite unwritten_upsertMealEntry. exact Hd.
  - intros d Hd. rewrite unwritten_updateDayStatus. exact Hd.
Qed.

(** The rows of the import write to the tables of the days only. *)
Lemma unwritten_importCsv_rows today rows db :
  table (snd (importCsv today rows db))
  = table (snd (importCsv_ids today db)).
Proof.
  unfold importCsv.
  destruct (importCsv_ids today db) as [[ids | message] db1]; cbn [snd];
    [ | reflexivity].
  apply unwritten_fold. intros d row. apply unwritten_importCsv_row.
Qed.
End Unwritten.

Lemma medications_unwritten_by :
  (forall f db, medications (on_daily_records f db) = medications db)
  /\ (forall f db, medications (on_medication_entries f db) = medications db)
  /\ (forall f db, medications (on_meal_entries f db) = medications db)
  /\ (forall f db,
        medications (on_meal_default_history f db) = medications db)
  /\ (forall f db, medications (on_meal_config f db) = medications db).
Proof. repeat split; intros f db; destruct db; reflexivity. Qed.

Lemma meal_config_unwritten_by :
  (forall f db, meal_config (on_daily_records f db) = meal_config db)
  /\ (forall f db, meal_config (on_medication_entries f db) = meal_config db)
  /\ (forall f db, meal_config (on_meal_entries f db) = meal_config db)
  /\ (forall f db,
        meal_config (on_meal_default_history f db) = meal_config db)
  /\ (forall f db, meal_config (on_medications f db) = meal_config db).
Proof. repeat split; intros f db; destruct db; reflexivity. Qed.

Lemma medications_on_medications f db :
  medications (on_medications f db) = f (medications db).
Proof. destruct db; reflexivity. Qed.

Lemma meal_config_on_meal_config f db :
  meal_config (on_meal_config f db) = f (meal_config db).
Proof. destruct db; reflexivity. Qed.

(** The requests that write to the medications. *)
Lemma handle_medications db req :
  medications (handle db req)
  = match req with
    | Startup _ => medications (seed_medications db)
    | PostMedication name label =>
        medications (snd (addMedication name label db))
    | PutMedication id name label sort_order =>
        medications (put_medication id name label sort_order db)
    | DeleteMedication id => medications (deactivateMedication id db)
    | Import today _ => medications (snd (importCsv_ids today db))
    | _ => medications db
    end.
Proof.
  destruct medications_unwritten_by as (H1 & H2 & H3 & H4 & H5).
  destruct req; cbn [handle].
  - unfold initializeDatabase.
    rewrite (unwritten_migrate_defaults medications H4).
    unfold seed_medications, seed_meal_config.
    destruct (sql_count (rows (meal_config db)) =? 0); [ | reflexivity].
    rewrite !H5. destruct (_ =? 0); [ | rewrite !H5; reflexivity].
    rewrite !medications_on_medications, !H5. reflexivity.
  - apply (unwritten_getFullDayData medications H1).
  - apply (unwritten_put_day medications H1 H2 H3 H4).
  - reflexivity.
  - reflexivity.
  - reflexivity.
  - unfold put_meal_config, setDefaultAmount. apply H4.
  - apply (unwritten_importCsv_rows medications H1 H2 H3).
Qed.

Lemma on_medications_twice f g db :
  on_medications f (on_medications g db)
  = on_medications (fun t => f (g t)) db.
Proof. destruct db; reflexivity. Qed.

(** The import writes to the medications only, once the database is
    initialized, before its rows. *)
Lemma ensure_inactive_state id name timeLabel db :
  exists f, snd (ensure_inactive id name timeLabel db) = on_medications f db.
Proof.
  unfold ensure_inactive. destruct (negb (truthy id));
    [ | exists (fun t => t); destruct db; reflexivity ].
  unfold addMedication. cbv zeta.
  match goal with
  | |- context [sql_get ?l] => destruct (sql_get l)
  end; cbn [snd]; unfold deactivateMedication;
    rewrite ?on_medications_twice; eexists; reflexivity.
Qed.

Lemma importCsv_ids_state today db :
  exists f,
    snd (importCsv_ids today db)
    = on_medications f (initializeDatabase today db).
Proof.
  unfold importCsv_ids. cbv zeta.
  generalize (initializeDatabase today db). intro db0.
  repeat match goal with
  | |- context [ensure_inactive ?id ?name ?timeLabel ?d] =>
      let f := fresh "f" in
      let E := fresh "E" in
      destruct (ensure_inactive_state id name timeLabel d) as [f E];
      destruct (ensure_inactive id name timeLabel d) as [[? | ?] ?];
      cbn [snd] in E; subst
  end; cbn [snd]; rewrite ?on_medications_twice; eexists; reflexivity.
Qed.

(** The requests that write to the meal configuration. *)
Lemma handle_meal_config db req :
  meal_config (handle db req)
  = match req with
    | Startup _ | Import _ _ => meal_config (seed_meal_config db)
    | _ => meal_config db
    end.
Proof.
  destruct meal_config_unwritten_by as (H1 & H2 & H3 & H4 & H5).
  destruct req; cbn [handle].
  - unfold initializeDatabase.
    rewrite (unwritten_migrate_defaults meal_config H4).
    unfold seed_medications. destruct (_ =? 0); [ | reflexivity].
    rewrite !H5. reflexivity.
  - apply (unwritten_getFullDayData meal_config H1).
  - apply (unwritten_put_day meal_config H1 H2 H3 H4).
  - unfold post_medication, addMedication. cbn [snd]. apply H5.
  - unfold put_medication. destruct (_ <? _)%nat; [apply H5 | reflexivity].
  - unfold delete_medication, deactivateMedication. apply H5.
  - unfold put_meal_config, setDefaultAmount. apply H4.
  - rewrite (unwritten_importCsv_rows meal_config H1 H2 H3).
    destruct (importCsv_ids_state today db) as [f ->]. rewrite H5.
    unfold initializeDatabase.
    rewrite (unwritten_migrate_defaults meal_config H4).
    unfold seed_medications. destruct (_ =? 0); [ | reflexivity].
    rewrite !H5. reflexivity.
Qed.

(** ** The medications *)

Lemma insert_keeps_ids_ok (mk : Z -> Medication.t) (t : Table Medication.t) :
  (forall id, Medication.id (mk id) = id) ->
  NoDup (map Medication.id (rows t))
  /\ Forall (fun m => Medication.id m <= seq t) (rows t) ->
  NoDup (map Medication.id (rows (sql_insert mk t)))
  /\ Forall (fun m => Medication.id m <= seq (sql_insert mk t))
            (rows (sql_insert mk t)).
Proof.
  intros Hid [N B]. cbn [sql_insert rows seq]. split.
  - rewrite map_app. cbn [map]. rewrite Hid.
    apply NoDup_app; [exact N | repeat constructor; simpl; tauto | ].
    intros x Hx [<- | []]. apply in_map_iff in Hx.
    destruct Hx as [m [E Hm]]. rewrite Forall_forall in B.
    specialize (B m Hm). lia.
  - apply Forall_app. split.
    + eapply Forall_impl; [ | exact B]. cbn. intros; lia.
    + constructor; [rewrite Hid; lia | constructor].
Qed.

Lemma update_keeps_ids_ok p (set : Medication.t -> Medication.t)
    (t : Table Medication.t) :
  (forall m, Medication.id (set m) = Medication.id m) ->
  NoDup (map Medication.id (rows t))
  /\ Forall (fun m => Medication.id m <= seq t) (rows t) ->
  NoDup (map Medication.id (rows (sql_update p set t)))
  /\ Forall (fun m => Medication.id m <= seq (sql_update p set t))
            (rows (sql_update p set t)).
Proof.
  intros Hid [N B]. cbn [sql_update rows seq].
  assert (E : map Medication.id
                (map (fun r => if p r then set r else r) (rows t))
              = map Medication.id (rows t)).
  { rewrite map_map. apply map_ext. intro m.
    destruct (p m); [apply Hid | reflexivity]. }
  split; [rewrite E; exact N | ].
  rewrite Forall_forall in *. intros m Hm. apply in_map_iff in Hm.
  destruct Hm as [m0 [<- Hm0]].
  destruct (p m0); [rewrite Hid | ]; apply B, Hm0.
Qed.

Lemma meds_ok_table db :
  meds_ok db <->
  NoDup (map Medication.id (rows (medications db)))
  /\ Forall (fun m => Medication.id m <= seq (medications db))
            (rows (medications db)).
Proof. reflexivity. Qed.

Lemma seed_medications_ok db :
  meds_ok db -> meds_ok (seed_medications db).
Proof.
  intro H. unfold seed_medications.
  destruct (_ =? 0); [ | exact H].
  apply meds_ok_table. rewrite !medications_on_medications.
  repeat (apply insert_keeps_ids_ok; [reflexivity | ]). exact H.
Qed.

Lemma addMedication_ok name label db :
  meds_ok db -> meds_ok (snd (addMedication name label db)).
Proof.
  intro H. apply meds_ok_table. unfold addMedication. cbn [snd].
  rewrite medications_on_medications.
  apply insert_keeps_ids_ok; [reflexivity | exact H].
Qed.

Lemma put_medication_ok id name label sort_order db :
  meds_ok db -> meds_ok (put_medication id name label sort_order db).
Proof.
  intro H. unfold put_medication. destruct (_ <? _)%nat; [ | exact H].
  apply meds_ok_table. rewrite medications_on_medications.
  apply update_keeps_ids_ok; [reflexivity | exact H].
Qed.

Lemma deactivateMedication_ok id db :
  meds_ok db -> meds_ok (deactivateMedication id db).
Proof.
  intro H. apply meds_ok_table. unfold deactivateMedication.
  rewrite medications_on_medications.
  apply update_keeps_ids_ok; [reflexivity | exact H].
Qed.

Lemma initializeDatabase_meds_ok today db :
  meds_ok db -> meds_ok (initializeDatabase today db).
Proof.
  intro H. apply meds_ok_table.
  change (initializeDatabase today db) with (handle db (Startup today)).
  rewrite handle_medications. apply seed_medications_ok, H.
Qed.

Lemma importCsv_ids_meds_ok today db :
  meds_ok db -> meds_ok (snd (importCsv_ids today db)).
Proof.
  apply (importCsv_ids_preserves meds_ok).
  - intros today0 d. apply initializeDatabase_meds_ok.
  - intros name label d. apply addMedication_ok.
  - intros id d. apply deactivateMedication_ok.
Qed.

Lemma handle_meds_ok db req : meds_ok db -> meds_ok (handle db req).
Proof.
  intro H. apply meds_ok_table. rewrite handle_medications.
  destruct req; try exact H.
  - apply seed_medications_ok, H.
  - apply addMedication_ok, H.
  - apply put_medication_ok, H.
  - apply deactivateMedication_ok, H.
  - apply importCsv_ids_meds_ok, H.
Qed.

Lemma reachable_meds_ok db : reachable db -> meds_ok db.
Proof.
  intros [reqs ->]. unfold run.
  assert (H : meds_ok empty_db) by (split; constructor).
  revert H. generalize empty_db.
  induction reqs as [ | req reqs IH]; intros db H; simpl; auto.
  apply IH, handle_meds_ok, H.
Qed.

Lemma sql_max_bound (l : list Z) x :
  In x l -> x <= nullish (sql_max l) 0.
Proof.
  destruct l as [ | a l]; [intros [] | ]. cbn [sql_max nullish].
  assert (G : forall l b y, (y <= b \/ In y l) -> y <= fold_left Z.max l b).
  { clear. induction l as [ | c l IH]; intros b y H; simpl.
    - destruct H as [H | []]. exact H.
    - apply IH. destruct H as [H | [<- | H]]; [left | left | right]; auto;
        lia. }
  intros [<- | H]; apply G; [left; lia | right; exact H].
Qed.

(** A row that no row comes after is ordered last. *)
Lemma insert_by_last {A : Type} (le : A -> A -> bool) y s x :
  le y x = true -> insert_by le y (s ++ [x]) = insert_by le y s ++ [x].
Proof.
  intro H. induction s as [ | z s IH]; simpl.
  - rewrite H. reflexivity.
  - destruct (le y z); [reflexivity | ]. rewrite IH. reflexivity.
Qed.

Lemma order_by_last {A : Type} (le : A -> A -> bool) l x :
  (forall y, In y l -> le y x = true) ->
  order_by le (l ++ [x]) = order_by le l ++ [x].
Proof.
  induction l as [ | y l IH]; intro H; [reflexivity | ].
  cbn [app order_by fold_right]. fold (order_by le (l ++ [x])).
  fold (order_by le l).
  rewrite IH by (intros z Hz; apply H; right; exact Hz).
  apply insert_by_last, H. left. reflexivity.
Qed.

Lemma to_double_exact z : Z.abs z <= 2 ^ 53 -> to_double z = z.
Proof.
  intro H. unfold to_double. cbv zeta.
  destruct (Z.ltb_spec (Z.abs z) (2 ^ 53)) as [L | L]; [reflexivity | ].
  assert (E : Z.abs z = 2 ^ 53) by (apply Z.le_antisymm; assumption).
  rewrite E. change (Z.log2 (2 ^ 53) - 52) with 1.
  change (2 ^ 53 / 2 ^ 1) with (2 ^ 52).
  change (2 ^ 53 mod 2 ^ 1) with 0.
  change (2 * 0 <? 2 ^ 1) with true. cbv iota.
  change (2 ^ 52 * 2 ^ 1) with (2 ^ 53). rewrite <- E.
  rewrite Z.mul_comm. apply Z.abs_sgn.
Qed.

Lemma js_add_exact a b :
  Z.abs a <= 2 ^ 53 -> Z.abs b <= 2 ^ 53 -> Z.abs (a + b) <= 2 ^ 53 ->
  js_add a b = a + b.
Proof.
  intros Ha Hb Hs. unfold js_add.
  rewrite (to_double_exact a Ha), (to_double_exact b Hb).
  apply to_double_exact, Hs.
Qed.

(** X7. In every reachable state [addMedication] returns the medication
    it stores, never [undefined]: active, with an id that no medication
    has; the other medications stay as they are.  Its sort order is the
    greatest one plus 1 as numbers add: while every stored sort order is
    below 2^53 in size it is above all others, so that the medication
    comes last in both lists of [getMedications]. *)
Theorem addMedication_appends name timeLabel db :
  reachable db ->
  let m :=
    Medication.mk (seq (medications db) + 1) name timeLabel 1
      (js_add (nullish (sql_max (map Medication.sort_order (meds db))) 0)
              1) in
  let db' := snd (addMedication name timeLabel db) in
  fst (addMedication name timeLabel db) = Some m
  /\ ~ In (Medication.id m) (map Medication.id (meds db))
  /\ meds db' = meds db ++ [m]
  /\ ((forall y, In y (meds db) ->
                 Z.abs (Medication.sort_order y) < 2 ^ 53) ->
      (forall y, In y (meds db) ->
                 Medication.sort_order y < Medication.sort_order m)
      /\ getMedications true db' = getMedications true db ++ [m]
      /\ getMedications false db' = getMedications false db ++ [m]).
Proof.
  intros R m db'. destruct (reachable_meds_ok db R) as [N B].
  assert (Hnew : ~ In (Medication.id m) (map Medication.id (meds db))).
  { intro H. apply in_map_iff in H. destruct H as [m0 [E H]].
    rewrite Forall_forall in B. specialize (B m0 H).
    subst m. cbn [Medication.id] in E. lia. }
  assert (Hrows : meds db' = meds db ++ [m]).
  { subst db'. unfold addMedication, meds. cbn [snd].
    rewrite medications_on_medications. reflexivity. }
  split; [ | split; [exact Hnew | split; [exact Hrows | ] ] ].
  - unfold addMedication. cbn [fst].
    rewrite medications_on_medications. cbn [sql_insert rows seq].
    fold (meds db). rewrite filter_app. cbn [filter].
    change (Medication.id (Medication.mk (seq (medications db) + 1) name
                             timeLabel 1 _))
      with (seq (medications db) + 1).
    rewrite Z.eqb_refl.
    rewrite filter_none; [reflexivity | ].
    intros m0 H0. apply Z.eqb_neq.
    intro E. apply Hnew. subst m. cbn [Medication.id]. rewrite <- E.
    apply in_map, H0.
  - intro Hsafe.
    set (top := nullish (sql_max (map Medication.sort_order (meds db))) 0).
    assert (Htop : Z.abs top < 2 ^ 53).
    { subst top. destruct (meds db) as [ | y0 l] eqn:El;
        [cbn; reflexivity | ].
      assert (Hin : In (nullish (sql_max (map Medication.sort_order
                                              (y0 :: l))) 0)
                       (map Medication.sort_order (y0 :: l))).
      { cbn [map sql_max nullish].
        generalize (Medication.sort_order y0) (map Medication.sort_order l).
        clear. intros b l0. revert b.
        induction l0 as [ | c l0 IH]; intro b; [left; reflexivity | ].
        cbn [fold_left]. destruct (IH (Z.max b c)) as [E | H].
        - rewrite <- E. destruct (Z.max_spec b c) as [[_ ->] | [_ ->]];
            [right; left | left]; reflexivity.
        - right. right. exact H. }
      apply in_map_iff in Hin. destruct Hin as [y [<- Hy]].
      apply Hsafe, Hy. }
    assert (Em : Medication.sort_order m = top + 1).
    { subst m. cbn [Medication.sort_order]. fold top.
      apply js_add_exact; [ | discriminate | ]; lia. }
    assert (Hlt : forall y, In y (meds db) ->
              Medication.sort_order y < Medication.sort_order m).
    { intros y Hy. rewrite Em.
      pose proof (sql_max_bound (map Medication.sort_order (meds db))
                    (Medication.sort_order y) (in_map _ _ _ Hy)).
      fold top in H. lia. }
    assert (Hlast : forall y, In y (meds db) ->
              (Medication.sort_order y <=? Medication.sort_order m) = true).
    { intros y Hy. apply Z.leb_le. specialize (Hlt y Hy). lia. }
    split; [exact Hlt | split ].
    + unfold getMedications. fold (meds db') (meds db). rewrite Hrows.
      apply order_by_last. exact Hlast.
    + unfold getMedications. fold (meds db') (meds db).
      rewrite Hrows, filter_app. cbn [filter].
      change (Medication.is_active m =? 1) with true. cbv iota.
      apply order_by_last. intros y Hy. apply Hlast.
      apply filter_In in Hy. apply Hy.
Qed.

Lemma insert_by_map {A : Type} (le : A -> A -> bool) (f : A -> A) x l :
  (forall a b, le (f a) (f b) = le a b) ->
  insert_by le (f x) (map f l) = map f (insert_by le x l).
Proof.
  intro H. induction l as [ | y l IH]; simpl; [reflexivity | ].
  rewrite H. destruct (le x y); simpl; [reflexivity | ].
  rewrite IH. reflexivity.
Qed.

Lemma order_by_map {A : Type} (le : A -> A -> bool) (f : A -> A) l :
  (forall a b, le (f a) (f b) = le a b) ->
  order_by le (map f l) = map f (order_by le l).
Proof.
  intro H. induction l as [ | x l IH]; [reflexivity | ].
  cbn [map order_by fold_right]. fold (order_by le (map f l)).
  fold (order_by le l). rewrite IH. apply insert_by_map, H.
Qed.

(** The assignment of [deactivateMedication]. *)
Lemma meds_deactivateMedication id db :
  meds (deactivateMedication id db)
  = map (fun m => if Medication.id m =? id
                  then Medication.mk (Medication.id m) (Medication.name m)
                         (Medication.time_label m) 0
                         (Medication.sort_order m)
                  else m)
        (meds db).
Proof.
  unfold deactivateMedication, meds. rewrite medications_on_medications.
  reflexivity.
Qed.

(** X8. [deactivateMedication] deletes softly: the default list of
    [getMedications] loses the medication of the id and nothing else, the
    list with the inactive ones keeps every id in its order, the medication
    entries are not touched, and a second call changes nothing. *)
Theorem deactivateMedication_soft id db :
  let db' := deactivateMedication id db in
  (forall m, In m (getMedications false db') <->
             In m (getMedications false db) /\ Medication.id m <> id)
  /\ map Medication.id (getMedications true db')
     = map Medication.id (getMedications true db)
  /\ List.length (meds db') = List.length (meds db)
  /\ medication_entries db' = medication_entries db
  /\ deactivateMedication id db' = db'.
Proof.
  intro db'.
  set (off := fun m => if Medication.id m =? id
                       then Medication.mk (Medication.id m)
                              (Medication.name m) (Medication.time_label m) 0
                              (Medication.sort_order m)
                       else m).
  assert (Hrows : meds db' = map off (meds db))
    by apply meds_deactivateMedication.
  assert (Hoff : forall m,
            Medication.id (off m) = Medication.id m
            /\ Medication.sort_order (off m) = Medication.sort_order m).
  { intro m. unfold off. destruct (_ =? id); auto. }
  split; [ | split; [ | split; [ | split ] ] ].
  - intro m. unfold getMedications.
    rewrite !order_by_In, !filter_In. fold (meds db') (meds db).
    rewrite Hrows, in_map_iff. split.
    + intros [[m0 [E H0]] A]. subst m. unfold off in *.
      destruct (Z.eqb_spec (Medication.id m0) id) as [Ei | Ei];
        [discriminate A | auto].
    + intros [[H0 A] Hne]. split; [ | exact A].
      exists m. split; [ | exact H0]. unfold off.
      destruct (Z.eqb_spec (Medication.id m) id); [contradiction | reflexivity].
  - unfold getMedications. fold (meds db') (meds db).
    rewrite Hrows, order_by_map, map_map.
    + apply map_ext. intro m. apply Hoff.
    + intros a b. rewrite !(proj2 (Hoff _)). reflexivity.
  - rewrite Hrows. apply length_map.
  - destruct db; reflexivity.
  - subst db'. unfold deactivateMedication. destruct db as [t ? ? ? ? ?].
    cbn [on_medications]. f_equal. unfold sql_update. cbn [rows seq].
    f_equal. rewrite map_map. apply map_ext. intro m.
    destruct (Medication.id m =? id) eqn:E; cbn [Medication.id];
      rewrite E; reflexivity.
Qed.

(** What the statements on the medications make of a medication that is
    there. *)
Lemma seed_medications_stays db m :
  In m (meds db) ->
  exists m', In m' (meds (seed_medications db))
             /\ Medication.id m' = Medication.id m
             /\ (Medication.is_active m <> 1 -> Medication.is_active m' <> 1).
Proof.
  intro H. unfold meds in *. unfold seed_medications.
  destruct (_ =? 0); [ | exists m; auto].
  exists m. repeat split; auto.
  rewrite !medications_on_medications. cbn [sql_insert rows].
  rewrite !in_app_iff. auto.
Qed.

Lemma addMedication_stays name label db m :
  In m (meds db) ->
  exists m', In m' (meds (snd (addMedication name label db)))
             /\ Medication.id m' = Medication.id m
             /\ (Medication.is_active m <> 1 -> Medication.is_active m' <> 1).
Proof.
  intro H. unfold meds in *.
  exists m. repeat split; auto. unfold addMedication. cbn [snd].
  rewrite medications_on_medications. cbn [sql_insert rows].
  rewrite in_app_iff. auto.
Qed.

Lemma deactivateMedication_stays id db m :
  In m (meds db) ->
  exists m', In m' (meds (deactivateMedication id db))
             /\ Medication.id m' = Medication.id m
             /\ (Medication.is_active m <> 1 -> Medication.is_active m' <> 1).
Proof.
  intro H. unfold meds in *. unfold deactivateMedication.
  rewrite medications_on_medications. cbn [sql_update rows].
  eexists. split; [apply in_map, H | ].
  destruct (Medication.id m =? id); cbn; auto.
  split; [reflexivity | intros _; discriminate].
Qed.

Lemma importCsv_ids_stays today db m :
  In m (meds db) ->
  exists m', In m' (meds (snd (importCsv_ids today db)))
             /\ Medication.id m' = Medication.id m
             /\ (Medication.is_active m <> 1 -> Medication.is_active m' <> 1).
Proof.
  intro H.
  apply (importCsv_ids_preserves
           (fun d => exists m', In m' (meds d)
                       /\ Medication.id m' = Medication.id m
                       /\ (Medication.is_active m <> 1 ->
                           Medication.is_active m' <> 1)));
    [ | | | exists m; auto].
  - intros today0 d [m1 (H1 & E1 & A1)].
    destruct (seed_medications_stays d m1 H1) as [m2 (H2 & E2 & A2)].
    exists m2. unfold meds in *.
    change (initializeDatabase today0 d) with (handle d (Startup today0)).
    rewrite handle_medications.
    repeat split; [exact H2 | congruence | auto].
  - intros name label d [m1 (H1 & E1 & A1)].
    destruct (addMedication_stays name label d m1 H1) as [m2 (H2 & E2 & A2)].
    exists m2. repeat split; [exact H2 | congruence | auto].
  - intros id d [m1 (H1 & E1 & A1)].
    destruct (deactivateMedication_stays id d m1 H1) as [m2 (H2 & E2 & A2)].
    exists m2. repeat split; [exact H2 | congruence | auto].
Qed.

(** What a request makes of a medication that is there. *)
Lemma handle_medication_stays db req m :
  In m (meds db) ->
  exists m', In m' (meds (handle db req))
             /\ Medication.id m' = Medication.id m
             /\ (Medication.is_active m <> 1 -> Medication.is_active m' <> 1).
Proof.
  intro H.
  assert (Hsame : exists m', In m' (rows (medications db))
                    /\ Medication.id m' = Medication.id m
                    /\ (Medication.is_active m <> 1 ->
                        Medication.is_active m' <> 1))
    by (exists m; auto).
  assert (G : forall d,
            medications (handle db req) = medications d ->
            (exists m', In m' (meds d)
                        /\ Medication.id m' = Medication.id m
                        /\ (Medication.is_active m <> 1 ->
                            Medication.is_active m' <> 1)) ->
            exists m', In m' (meds (handle db req))
                       /\ Medication.id m' = Medication.id m
                       /\ (Medication.is_active m <> 1 ->
                           Medication.is_active m' <> 1))
    by (intros d E; unfold meds; rewrite E; auto).
  pose proof (handle_medications db req) as E.
  destruct req; try (apply (G db E); exact Hsame).
  - apply (G _ E). apply seed_medications_stays, H.
  - apply (G _ E). apply addMedication_stays, H.
  - apply (G _ E). unfold meds in *. unfold put_medication.
    destruct (_ <? _)%nat; [ | exact Hsame].
    rewrite medications_on_medications. cbn [sql_update rows].
    eexists. split; [apply in_map, H | ].
    destruct (Medication.id m =? id); auto.
  - apply (G _ E). apply deactivateMedication_stays, H.
  - apply (G _ E). apply importCsv_ids_stays, H.
Qed.

Lemma run_medication_stays reqs db m :
  In m (meds db) ->
  exists m', In m' (meds (run reqs db))
             /\ Medication.id m' = Medication.id m
             /\ (Medication.is_active m <> 1 -> Medication.is_active m' <> 1).
Proof.
  revert db m. induction reqs as [ | req reqs IH]; intros db m H.
  - exists m. auto.
  - cbn [run fold_left].
    destruct (handle_medication_stays db req m H) as [m1 (H1 & E1 & A1)].
    destruct (IH (handle db req) m1 H1) as [m2 (H2 & E2 & A2)].
    exists m2. repeat split; [exact H2 | congruence | auto].
Qed.

(** X9. No request removes a medication or brings a deactivated one back:
    in a reachable state, whatever requests follow, a medication that is
    there keeps a row with its id, and one that is not active stays off
    the default list of [getMedications] for good. *)
Theorem medications_never_return reqs db m :
  reachable db -> In m (meds db) ->
  In (Medication.id m) (map Medication.id (getMedications true (run reqs db)))
  /\ (Medication.is_active m <> 1 -> ~ listed (Medication.id m) (run reqs db)).
Proof.
  intros R H.
  destruct (run_medication_stays reqs db m H) as [m' (H' & E & A)].
  split.
  - rewrite <- E. apply in_map. unfold getMedications.
    apply order_by_In, H'.
  - intros Hoff L. unfold listed in L. apply in_map_iff in L.
    destruct L as [m2 [E2 L]]. unfold getMedications in L.
    apply order_by_In, filter_In in L. destruct L as [H2 A2].
    assert (R' : reachable (run reqs db)).
    { destruct R as [reqs0 ->]. exists (reqs0 ++ reqs).
      unfold run. rewrite fold_left_app. reflexivity. }
    destruct (reachable_meds_ok _ R') as [N _].
    assert (m2 = m').
    { apply (NoDup_map_inj Medication.id (meds (run reqs db))); auto.
      congruence. }
    subst m2. apply (A Hoff). apply Z.eqb_eq, A2.
Qed.

Lemma medications_never_return_witness :
  let db := run [Startup "2025-01-01"; DeleteMedication 2] empty_db in
  let m := Medication.mk 2 "Normolact" "evening" 0 2 in
  let reqs := [PutMedication 2 (Some "Normolact") None (Some 1);
               Startup "2025-02-01"] in
  reachable db /\ In m (meds db)
  /\ ~ listed 2 (run reqs db).
Proof.
  intros db m reqs.
  assert (R : reachable db) by (eexists; reflexivity).
  assert (H : In m (meds db)) by (right; left; reflexivity).
  split; [exact R | split; [exact H | ] ].
  apply (proj2 (medications_never_return reqs db m R H)). discriminate.
Defined.

Lemma addMedication_appends_witness :
  let db := run [Startup "2025-01-01"] empty_db in
  reachable db
  /\ fst (addMedication "Gabapentin" "morning" db)
     = Some (Medication.mk 5 "Gabapentin" "morning" 1 5).
Proof.
  intro db.
  assert (R : reachable db) by (eexists; reflexivity).
  split; [exact R | ].
  exact (proj1 (addMedication_appends "Gabapentin" "morning" db R)).
Defined.

(** ** [initializeDatabase] *)

Lemma sql_count_zero {A : Type} (l : list A) :
  (sql_count l =? 0) = true <-> l = [].
Proof.
  unfold sql_count. rewrite Z.eqb_eq. destruct l; cbn [List.length].
  - tauto.
  - split; [lia | discriminate].
Qed.

Lemma sql_count_inserted {A : Type} (l : list A) x :
  (sql_count (l ++ [x]) =? 0) = false.
Proof.
  rewrite sql_count_app. unfold sql_count. apply Z.eqb_neq. lia.
Qed.

Lemma seed_meal_config_seeded db :
  (sql_count (rows (meal_config (seed_meal_config db))) =? 0) = false.
Proof.
  unfold seed_meal_config.
  destruct (sql_count (rows (meal_config db)) =? 0) eqn:E; [ | exact E].
  rewrite !meal_config_on_meal_config. cbn [sql_insert rows].
  apply sql_count_inserted.
Qed.

Lemma seed_medications_seeded db :
  (sql_count (rows (medications (seed_medications db))) =? 0) = false.
Proof.
  unfold seed_medications.
  destruct (sql_count (rows (medications db)) =? 0) eqn:E; [ | exact E].
  rewrite !medications_on_medications. cbn [sql_insert rows].
  apply sql_count_inserted.
Qed.

Lemma seed_meal_config_zero db :
  config_zero db -> config_zero (seed_meal_config db).
Proof.
  unfold config_zero, seed_meal_config. intro H.
  destruct (_ =? 0); [ | exact H].
  rewrite !meal_config_on_meal_config. cbn [sql_insert rows].
  repeat (apply Forall_app; split; [ | repeat constructor]). exact H.
Qed.

Lemma handle_config_zero db req : config_zero db -> config_zero (handle db req).
Proof.
  intro H. unfold config_zero. rewrite handle_meal_config.
  destruct req; try exact H; apply seed_meal_config_zero, H.
Qed.

Lemma reachable_config_zero db : reachable db -> config_zero db.
Proof.
  intros [reqs ->]. unfold run.
  assert (H : config_zero empty_db) by constructor.
  revert H. generalize empty_db.
  induction reqs as [ | req reqs IH]; intros db H; simpl; auto.
  apply IH, handle_config_zero, H.
Qed.

(** Without a positive configured default the copy into the history
    writes nothing. *)
Lemma migrate_defaults_nothing today db :
  config_zero db -> migrate_defaults today db = db.
Proof.
  unfold config_zero, migrate_defaults. intro H.
  destruct (_ =? 0); [ | reflexivity]. cbv zeta.
  generalize (or_else (sql_min_text (map DailyRecord.date
                                         (rows (daily_records db)))) today).
  intro effectiveDate. revert H. generalize (rows (meal_config db)).
  intros l H. induction H as [ | c l Hc _ IH]; [reflexivity | ].
  cbn [fold_left]. rewrite Hc. exact IH.
Qed.

Lemma seed_meal_config_again db :
  (sql_count (rows (meal_config db)) =? 0) = false -> seed_meal_config db = db.
Proof. unfold seed_meal_config. intros ->. reflexivity. Qed.

Lemma seed_medications_again db :
  (sql_count (rows (medications db)) =? 0) = false ->
  seed_medications db = db.
Proof. unfold seed_medications. intros ->. reflexivity. Qed.

Lemma meal_config_seed_medications db :
  meal_config (seed_medications db) = meal_config db.
Proof.
  destruct meal_config_unwritten_by as (_ & _ & _ & _ & H5).
  unfold seed_medications. destruct (_ =? 0); [ | reflexivity].
  rewrite !H5. reflexivity.
Qed.

(** X10. Starting the server again is harmless.  In every reachable state
    [initializeDatabase] writes at most the seed rows of the meal
    configuration and of the medications: the daily records, the meal and
    medication entries and the history of default amounts stay as they
    are (no request gives the meal configuration a positive default, so
    the copy into the history never writes); and once it has run, running
    it again, on whatever day, changes nothing. *)
Theorem initializeDatabase_once today today' db :
  reachable db ->
  let db1 := initializeDatabase today db in
  initializeDatabase today' db1 = db1
  /\ days db1 = days db /\ meals db1 = meals db
  /\ medication_entries db1 = medication_entries db
  /\ history db1 = history db
  /\ rows (meal_config db1) <> [] /\ meds db1 <> [].
Proof.
  intros R db1.
  pose proof (reachable_config_zero db R) as Z0.
  assert (Z2 : config_zero (seed_medications (seed_meal_config db))).
  { unfold config_zero. rewrite meal_config_seed_medications.
    apply seed_meal_config_zero, Z0. }
  assert (E1 : db1 = seed_medications (seed_meal_config db)).
  { subst db1. unfold initializeDatabase.
    apply migrate_defaults_nothing, Z2. }
  assert (C1 : (sql_count (rows (meal_config db1)) =? 0) = false).
  { rewrite E1, meal_config_seed_medications.
    apply seed_meal_config_seeded. }
  assert (M1 : (sql_count (rows (medications db1)) =? 0) = false)
    by (rewrite E1; apply seed_medications_seeded).
  split; [ | repeat split ].
  - unfold initializeDatabase.
    rewrite (seed_meal_config_again db1 C1), (seed_medications_again db1 M1).
    apply migrate_defaults_nothing. rewrite E1. exact Z2.
  - rewrite E1. unfold seed_medications, seed_meal_config.
    repeat match goal with |- context [if ?c then _ else _] => destruct c end;
      autorewrite with tables; reflexivity.
  - rewrite E1. unfold seed_medications, seed_meal_config.
    repeat match goal with |- context [if ?c then _ else _] => destruct c end;
      autorewrite with tables; reflexivity.
  - rewrite E1. unfold seed_medications, seed_meal_config.
    repeat match goal with |- context [if ?c then _ else _] => destruct c end;
      destruct db; reflexivity.
  - rewrite E1. unfold seed_medications, seed_meal_config.
    repeat match goal with |- context [if ?c then _ else _] => destruct c end;
      autorewrite with tables; reflexivity.
  - intro H. apply sql_count_zero in H. congruence.
  - unfold meds. intro H. apply sql_count_zero in H. congruence.
Qed.

Lemma initializeDatabase_once_witness :
  let db :=
    run [Startup "2025-01-01"; PutMealConfig 1 20 None "2025-01-10";
         GetDay "2025-01-03 08:00:00" "2025-01-03"]
        empty_db in
  reachable db
  /\ initializeDatabase "2025-03-01" (initializeDatabase "2025-02-01" db)
     = initializeDatabase "2025-02-01" db.
Proof.
  intro db.
  assert (R : reachable db) by (eexists; reflexivity).
  split; [exact R | ].
  exact (proj1 (initializeDatabase_once "2025-02-01" "2025-03-01" db R)).
Defined.

(** ** Meal entries written and read *)

Lemma getMealEntries_In date db e :
  In e (getMealEntries date db) <->
  In e (meals db) /\ MealEntry.date e = date.
Proof.
  unfold getMealEntries. rewrite order_by_In, filter_In, String.eqb_eq.
  reflexivity.
Qed.

Lemma meals_upsertMealEntry date slot status amount comment db :
  meals (upsertMealEntry date slot status amount comment db)
  = if existsb (fun e => String.eqb (MealEntry.date e) date
                         && (MealEntry.meal_slot e =? slot))
               (meals db)
    then map (fun e =>
                if String.eqb (MealEntry.date e) date
                   && (MealEntry.meal_slot e =? slot)
                then MealEntry.mk (MealEntry.id e) (MealEntry.date e)
                       (MealEntry.meal_slot e) status amount comment
                else e)
             (meals db)
    else meals db
         ++ [MealEntry.mk (seq (meal_entries db) + 1) date slot status amount
                          comment].
Proof.
  unfold upsertMealEntry. rewrite meals_on_meal_entries.
  exact (upsert_rows
           (fun e => String.eqb (MealEntry.date e) date
                     && (MealEntry.meal_slot e =? slot))
           (fun e => MealEntry.mk (MealEntry.id e) (MealEntry.date e)
                       (MealEntry.meal_slot e) status amount comment)
           (fun id => MealEntry.mk id date slot status amount comment)
           (meal_entries db)).
Qed.

(** After [upsertMealEntry] the date has an entry for the slot, and every
    entry of the date for the slot holds what was written. *)
Lemma upsertMealEntry_written date slot status amount comment db :
  let db' := upsertMealEntry date slot status amount comment db in
  (exists e, In e (getMealEntries date db') /\ MealEntry.meal_slot e = slot)
  /\ (forall e, In e (getMealEntries date db') ->
                MealEntry.meal_slot e = slot ->
                MealEntry.status e = status
                /\ MealEntry.actual_amount e = amount
                /\ MealEntry.comment e = comment).
Proof.
  intro db'. subst db'. split.
  - setoid_rewrite getMealEntries_In. rewrite meals_upsertMealEntry.
    destruct (existsb _ (meals db)) eqn:E.
    + apply existsb_exists in E. destruct E as [e [He Hk]].
      pose proof Hk as Hk'. apply andb_true_iff in Hk'.
      destruct Hk' as [Hd Hs]. apply String.eqb_eq in Hd.
      apply Z.eqb_eq in Hs.
      exists (MealEntry.mk (MealEntry.id e) (MealEntry.date e)
                (MealEntry.meal_slot e) status amount comment).
      split; [split | ]; [ | exact Hd | exact Hs].
      apply in_map_iff. exists e. rewrite Hk. auto.
    + exists (MealEntry.mk (seq (meal_entries db) + 1) date slot status
                amount comment).
      split; [split | ]; [ | reflexivity | reflexivity].
      apply in_app_iff. right. left. reflexivity.
  - intros e He Hs. apply getMealEntries_In in He. destruct He as [He Hd].
    rewrite meals_upsertMealEntry in He.
    destruct (existsb _ (meals db)) eqn:E.
    + apply in_map_iff in He. destruct He as [e0 [<- H0]].
      destruct (String.eqb (MealEntry.date e0) date
                && (MealEntry.meal_slot e0 =? slot)) eqn:K.
      * cbn. auto.
      * exfalso. rewrite Hd, String.eqb_refl, Hs, Z.eqb_refl in K.
        discriminate K.
    + apply in_app_iff in He. destruct He as [He | [<- | []]]; [ | cbn; auto].
      exfalso.
      assert (existsb (fun e => String.eqb (MealEntry.date e) date
                                && (MealEntry.meal_slot e =? slot))
                      (meals db) = true).
      { apply existsb_exists. exists e. split; [exact He | ].
        rewrite Hd, String.eqb_refl, Hs, Z.eqb_refl. reflexivity. }
      congruence.
Qed.

Lemma StronglySorted_weaken {A : Type} (R R' : A -> A -> Prop) l :
  (forall a b, R a b -> R' a b) -> StronglySorted R l -> StronglySorted R' l.
Proof.
  intros H S. induction S as [ | a l S IH Ha]; constructor; auto.
  eapply Forall_impl; [ | exact Ha]. apply H.
Qed.

Lemma order_by_Z_sorted {A : Type} (key : A -> Z) l :
  StronglySorted (fun a b => key a <= key b)
                 (order_by (fun a b => key a <=? key b) l).
Proof.
  apply StronglySorted_weaken
    with (R := fun a b => (key a <=? key b) = true).
  - intros a b H. apply Z.leb_le, H.
  - apply order_by_sorted.
    + intros a b. destruct (Z.leb_spec (key a) (key b));
        [left; reflexivity | right; apply Z.leb_le; lia].
    + intros a b c Hab Hbc. apply Z.leb_le in Hab, Hbc. apply Z.leb_le. lia.
Qed.

(** X11. [upsertMealEntry] and [getMealEntries] round-trip: after the
    write the date has an entry for the slot, every entry of the date for
    the slot holds the status, amount and comment written; the entries of
    the date for other slots and the entries of other dates are as
    before, and the result of [getMealEntries] is in slot order. *)
Theorem upsertMealEntry_getMealEntries date slot status amount comment db :
  let db' := upsertMealEntry date slot status amount comment db in
  (exists e, In e (getMealEntries date db') /\ MealEntry.meal_slot e = slot)
  /\ (forall e, In e (getMealEntries date db') ->
                MealEntry.meal_slot e = slot ->
                MealEntry.status e = status
                /\ MealEntry.actual_amount e = amount
                /\ MealEntry.comment e = comment)
  /\ (forall e, MealEntry.meal_slot e <> slot ->
                (In e (getMealEntries date db') <->
                 In e (getMealEntries date db)))
  /\ (forall d, d <> date -> getMealEntries d db' = getMealEntries d db)
  /\ StronglySorted
       (fun a b => MealEntry.meal_slot a <= MealEntry.meal_slot b)
       (getMealEntries date db').
Proof.
  intro db'.
  destruct (upsertMealEntry_written date slot status amount comment db)
    as [H1 H2].
  split; [exact H1 | split; [exact H2 | split; [ | split ] ] ].
  - intros e Hs. subst db'. rewrite !getMealEntries_In.
    rewrite meals_upsertMealEntry.
    destruct (existsb _ (meals db)).
    + rewrite in_map_iff. split.
      * intros [[e0 [E H0]] Hd].
        destruct (String.eqb (MealEntry.date e0) date
                  && (MealEntry.meal_slot e0 =? slot)) eqn:K.
        -- apply andb_true_iff in K. destruct K as [_ K].
           apply Z.eqb_eq in K. subst e. cbn in Hs. contradiction.
        -- subst e0. auto.
      * intros [H0 Hd]. split; [ | exact Hd]. exists e. split; [ | exact H0].
        destruct (Z.eqb_spec (MealEntry.meal_slot e) slot);
          [contradiction | ].
        rewrite andb_false_r. reflexivity.
    + rewrite in_app_iff. split.
      * intros [[H0 | [<- | []]] Hd]; [auto | ]. cbn in Hs. contradiction.
      * intros [H0 Hd]. auto.
  - intros d Hne. subst db'. unfold getMealEntries.
    change (filter (fun e => String.eqb (MealEntry.date e) d)
                   (rows (meal_entries ?x)))
      with (meals_on d x).
    rewrite upsertMealEntry_meals_on by exact Hne. reflexivity.
  - unfold getMealEntries. apply (order_by_Z_sorted MealEntry.meal_slot).
Qed.

(** ** What [getFullDayData] shows *)

Lemma getFullDayData_views now date db :
  fd_meals (fst (getFullDayData now date db))
  = map (fun config =>
           let entry :=
             find (fun e => MealEntry.meal_slot e
                              =? MealConfig.meal_slot config)
                  (getMealEntries date db) in
           mkMealWithStatus (MealConfig.meal_slot config)
             (MealConfig.label config)
             (getEffectiveDefaultAmount (MealConfig.meal_slot config) date db)
             (nullish (option_map MealEntry.status entry) "ate_fully")
             (match entry with
              | Some e => MealEntry.actual_amount e
              | None => None
              end)
             (match entry with
              | Some e => MealEntry.comment e
              | None => None
              end))
        (getMealConfig db)
  /\ fd_medications (fst (getFullDayData now date db))
     = map (fun med =>
              let entry :=
                find (fun e => MedicationEntry.medication_id (mer_entry e)
                                 =? Medication.id med)
                     (getMedicationEntries date db) in
              mkMedicationWithStatus med
                (nullish (option_map
                            (fun e => MedicationEntry.taken (mer_entry e))
                            entry) 0)
                (match entry with
                 | Some e => MedicationEntry.comment (mer_entry e)
                 | None => None
                 end))
           (getMedications false db)
  /\ fd_date (fst (getFullDayData now date db)) = date.
Proof.
  unfold getFullDayData.
  destruct (getOrCreateDailyRecord_writes_daily_records now date db)
    as [t E].
  destruct (getOrCreateDailyRecord now date db) as [record db'].
  cbn [snd] in E. subst db'. cbn [fst fd_meals fd_medications fd_date].
  destruct db; repeat split.
Qed.

(** The meal a configured slot is shown with: the defaults when the date
    has no entry for the slot, an entry of the date for the slot
    otherwise. *)
Lemma fd_meals_cases now date db m :
  In m (fd_meals (fst (getFullDayData now date db))) ->
  In (ms_meal_slot m) (map MealConfig.meal_slot (rows (meal_config db)))
  /\ ms_default_amount m = getEffectiveDefaultAmount (ms_meal_slot m) date db
  /\ (((forall e, In e (getMealEntries date db) ->
                  MealEntry.meal_slot e <> ms_meal_slot m)
       /\ ms_status m = "ate_fully" /\ ms_actual_amount m = None
       /\ ms_comment m = None)
      \/ (exists e, In e (getMealEntries date db)
                    /\ MealEntry.meal_slot e = ms_meal_slot m
                    /\ ms_status m = MealEntry.status e
                    /\ ms_actual_amount m = MealEntry.actual_amount e
                    /\ ms_comment m = MealEntry.comment e)).
Proof.
  destruct (getFullDayData_views now date db) as [-> _].
  rewrite in_map_iff. intros [config [<- Hc]]. cbv zeta.
  cbn [ms_meal_slot ms_default_amount ms_status ms_actual_amount ms_comment].
  split; [ | split; [reflexivity | ] ].
  - apply in_map. unfold getMealConfig in Hc. apply order_by_In in Hc.
    exact Hc.
  - destruct (find _ (getMealEntries date db)) as [e | ] eqn:F.
    + right. apply find_some in F. destruct F as [He Hs].
      apply Z.eqb_eq in Hs. exists e. repeat split; auto.
    + left. repeat split. intros e He Hs.
      apply (find_none _ _ F) in He. apply Z.eqb_neq in He. contradiction.
Qed.

(** X12. [getFullDayData] shows one meal per configured slot, in slot
    order, and no other: an entry stored for a slot outside the meal
    configuration is not shown.  A slot without entry for the date is
    shown as 'ate_fully' with no amount and no comment, a slot with one
    as that entry; each with the default amount in force on the date. *)
Theorem getFullDayData_meals now date db :
  let shown := fd_meals (fst (getFullDayData now date db)) in
  map ms_meal_slot shown = map MealConfig.meal_slot (getMealConfig db)
  /\ StronglySorted Z.le (map ms_meal_slot shown)
  /\ (forall m, In m shown ->
        In (ms_meal_slot m) (map MealConfig.meal_slot (rows (meal_config db)))
        /\ ms_default_amount m
           = getEffectiveDefaultAmount (ms_meal_slot m) date db
        /\ (((forall e, In e (getMealEntries date db) ->
                        MealEntry.meal_slot e <> ms_meal_slot m)
             /\ ms_status m = "ate_fully" /\ ms_actual_amount m = None
             /\ ms_comment m = None)
            \/ (exists e, In e (getMealEntries date db)
                          /\ MealEntry.meal_slot e = ms_meal_slot m
                          /\ ms_status m = MealEntry.status e
                          /\ ms_actual_amount m = MealEntry.actual_amount e
                          /\ ms_comment m = MealEntry.comment e))).
Proof.
  intro shown.
  assert (E : map ms_meal_slot shown
              = map MealConfig.meal_slot (getMealConfig db)).
  { subst shown. destruct (getFullDayData_views now date db) as [-> _].
    rewrite map_map. reflexivity. }
  split; [exact E | split ].
  - rewrite E. apply StronglySorted_map. unfold getMealConfig.
    apply (order_by_Z_sorted MealConfig.meal_slot).
  - intros m Hm. exact (fd_meals_cases now date db m Hm).
Qed.

(** X13. A meal written is the meal read: after [upsertMealEntry] for a
    configured slot, [getFullDayData] for the date shows that slot, and
    shows it with the status, amount and comment written. *)
Theorem getFullDayData_after_upsertMealEntry now date slot status amount
    comment db :
  let db' := upsertMealEntry date slot status amount comment db in
  let shown := fd_meals (fst (getFullDayData now date db')) in
  (In slot (map MealConfig.meal_slot (rows (meal_config db))) ->
   In slot (map ms_meal_slot shown))
  /\ (forall m, In m shown -> ms_meal_slot m = slot ->
        ms_status m = status /\ ms_actual_amount m = amount
        /\ ms_comment m = comment).
Proof.
  intros db' shown.
  destruct (upsertMealEntry_written date slot status amount comment db)
    as [[e0 [H0 S0]] Hw]. fold db' in H0, Hw.
  split.
  - intro Hc. subst shown.
    destruct (getFullDayData_views now date db') as [-> _].
    rewrite map_map. cbn [ms_meal_slot].
    unfold getMealConfig. apply in_map_iff in Hc.
    destruct Hc as [c [Ec Hc]]. apply in_map_iff. exists c.
    split; [exact Ec | ]. apply order_by_In.
    subst db'. unfold upsertMealEntry.
    destruct meal_config_unwritten_by as (_ & _ & -> & _). exact Hc.
  - intros m Hm Hs. apply fd_meals_cases in Hm.
    destruct Hm as (_ & _ & [(Hnone & _) | [e (He & Es & -> & -> & ->)]]).
    + exfalso. apply (Hnone e0 H0). congruence.
    + apply Hw; [exact He | congruence].
Qed.

Lemma getMedicationEntries_In date db row :
  In row (getMedicationEntries date db) <->
  exists m, In (mer_entry row) (rows (medication_entries db))
            /\ MedicationEntry.date (mer_entry row) = date
            /\ In m (meds db)
            /\ MedicationEntry.medication_id (mer_entry row) = Medication.id m
            /\ mer_name row = Medication.name m
            /\ mer_time_label row = Medication.time_label m.
Proof.
  unfold getMedicationEntries. rewrite in_flat_map. split.
  - intros [e [He Hrow]]. apply filter_In in He. destruct He as [He Hd].
    apply String.eqb_eq in Hd. apply in_map_iff in Hrow.
    destruct Hrow as [m [<- Hm]]. apply filter_In in Hm.
    destruct Hm as [Hm Hid]. apply Z.eqb_eq in Hid.
    exists m. cbn. auto 6.
  - intros [m (He & Hd & Hm & Hid & Hn & Hl)].
    exists (mer_entry row). split.
    + apply filter_In. split; [exact He | apply String.eqb_eq, Hd].
    + apply in_map_iff. exists m. split.
      * destruct row. cbn in *. congruence.
      * apply filter_In. split; [exact Hm | apply Z.eqb_eq, Hid].
Qed.

Lemma fd_medications_cases now date db v :
  In v (fd_medications (fst (getFullDayData now date db))) ->
  In (mws_med v) (getMedications false db)
  /\ (((forall e, In e (rows (medication_entries db)) ->
                  MedicationEntry.date e = date ->
                  MedicationEntry.medication_id e
                  <> Medication.id (mws_med v))
       /\ mws_taken v = 0 /\ mws_comment v = None)
      \/ (exists e, In e (rows (medication_entries db))
                    /\ MedicationEntry.date e = date
                    /\ MedicationEntry.medication_id e
                       = Medication.id (mws_med v)
                    /\ mws_taken v = MedicationEntry.taken e
                    /\ mws_comment v = MedicationEntry.comment e)).
Proof.
  destruct (getFullDayData_views now date db) as (_ & -> & _).
  rewrite in_map_iff. intros [med [<- Hmed]]. cbv zeta.
  cbn [mws_med mws_taken mws_comment]. split; [exact Hmed | ].
  destruct (find _ (getMedicationEntries date db)) as [row | ] eqn:F.
  - right. apply find_some in F. destruct F as [Hrow Hid].
    apply Z.eqb_eq in Hid. apply getMedicationEntries_In in Hrow.
    destruct Hrow as [m (He & Hd & _)].
    exists (mer_entry row). repeat split; auto.
  - left. repeat split. intros e He Hd Hid.
    assert (Hrow : In (mkMedicationEntryRow e (Medication.name med)
                         (Medication.time_label med))
                      (getMedicationEntries date db)).
    { apply getMedicationEntries_In. exists med. cbn.
      repeat split; auto.
      unfold getMedications in Hmed. apply order_by_In, filter_In in Hmed.
      apply Hmed. }
    apply (find_none _ _ F) in Hrow. cbn in Hrow.
    apply Z.eqb_neq in Hrow. contradiction.
Qed.

Lemma upsertMedicationEntry_written date id taken comment db e :
  In e (rows (medication_entries
                (snd (upsertMedicationEntry date id taken comment db)))) ->
  MedicationEntry.date e = date -> MedicationEntry.medication_id e = id ->
  MedicationEntry.taken e = (if taken then 1 else 0)
  /\ MedicationEntry.comment e = comment.
Proof.
  intros He Hd Hid. rewrite upsertMedicationEntry_rows in He.
  assert (K : String.eqb (MedicationEntry.date e) date
              && (MedicationEntry.medication_id e =? id) = true)
    by (rewrite Hd, Hid, String.eqb_refl, Z.eqb_refl; reflexivity).
  assert (Old : In e (rows (medication_entries db)) ->
                existsb (fun e => String.eqb (MedicationEntry.date e) date
                                  && (MedicationEntry.medication_id e =? id))
                        (rows (medication_entries db)) = true)
    by (intro H; apply existsb_exists; eauto).
  destruct (existsb _ (rows (medication_entries db))) eqn:X.
  - apply in_map_iff in He. destruct He as [e0 [E H0]].
    destruct (String.eqb (MedicationEntry.date e0) date
              && (MedicationEntry.medication_id e0 =? id)) eqn:K0.
    + subst e. cbn. auto.
    + subst e0. congruence.
  - destruct (existsb _ (rows (medications db)));
      [ | specialize (Old He); discriminate].
    apply in_app_iff in He. destruct He as [He | [<- | []]]; [ | cbn; auto].
    specialize (Old He). discriminate.
Qed.

(** X14. [getFullDayData] shows the active medications, each once and in
    sort order, and no inactive one even if it has an entry; a medication
    without entry for the date is shown as not taken and without comment,
    one with an entry as that entry says.  After [upsertMedicationEntry]
    for the date, a medication of that id is shown with the flag, as 1 or
    0, and the comment written. *)
Theorem getFullDayData_medications now date db :
  let shown := fd_medications (fst (getFullDayData now date db)) in
  map mws_med shown = getMedications false db
  /\ (forall v, In v shown ->
        Medication.is_active (mws_med v) = 1
        /\ (((forall e, In e (rows (medication_entries db)) ->
                        MedicationEntry.date e = date ->
                        MedicationEntry.medication_id e
                        <> Medication.id (mws_med v))
             /\ mws_taken v = 0 /\ mws_comment v = None)
            \/ (exists e, In e (rows (medication_entries db))
                          /\ MedicationEntry.date e = date
                          /\ MedicationEntry.medication_id e
                             = Medication.id (mws_med v)
                          /\ mws_taken v = MedicationEntry.taken e
                          /\ mws_comment v = MedicationEntry.comment e)))
  /\ (forall id taken comment v,
        In v (fd_medications
                (fst (getFullDayData now date
                        (snd (upsertMedicationEntry date id taken comment
                                                    db))))) ->
        Medication.id (mws_med v) = id ->
        mws_taken v = (if taken then 1 else 0) /\ mws_comment v = comment).
Proof.
  intro shown. split; [ | split ].
  - subst shown. destruct (getFullDayData_views now date db) as (_ & -> & _).
    rewrite map_map. cbn [mws_med]. apply map_id.
  - intros v Hv. destruct (fd_medications_cases now date db v Hv) as [Hm Hc].
    split; [ | exact Hc].
    unfold getMedications in Hm. apply order_by_In, filter_In in Hm.
    apply Z.eqb_eq, Hm.
  - intros id taken comment v Hv Hid.
    set (db' := snd (upsertMedicationEntry date id taken comment db)) in *.
    destruct (fd_medications_cases now date db' v Hv)
      as [Hm [(Hnone & _) | [e (He & Hd & Hi & -> & ->)]]].
    + exfalso.
      assert (Hmed : existsb (fun m => Medication.id m =? id)
                             (rows (medications db)) = true).
      { unfold getMedications in Hm. apply order_by_In, filter_In in Hm.
        destruct Hm as [Hm _]. subst db'.
        rewrite (unwritten_upsertMedicationEntry medications) in Hm
          by apply medications_unwritten_by.
        apply existsb_exists. exists (mws_med v).
        split; [exact Hm | apply Z.eqb_eq, Hid]. }
      assert (Hnew : exists e, In e (rows (medication_entries db'))
                       /\ MedicationEntry.date e = date
                       /\ MedicationEntry.medication_id e = id).
      { subst db'. rewrite upsertMedicationEntry_rows, Hmed.
        destruct (existsb _ (rows (medication_entries db))) eqn:X.
        - apply existsb_exists in X. destruct X as [e [He K]].
          pose proof K as K'. apply andb_true_iff in K'.
          destruct K' as [Kd Ki]. apply String.eqb_eq in Kd.
          apply Z.eqb_eq in Ki.
          eexists. split; [apply in_map_iff; exists e; split;
                           [reflexivity | exact He] | ].
          rewrite K. cbn. auto.
        - eexists. split; [apply in_app_iff; right; left; reflexivity | ].
          cbn. auto. }
      destruct Hnew as [e (He & Hd & Hi)].
      apply (Hnone e He Hd). congruence.
    + apply (upsertMedicationEntry_written date id taken comment db e He Hd).
      congruence.
Qed.

(** ** [updateDayStatus] and [PUT /api/day/:date] *)

Lemma find_update {A : Type} (p : A -> bool) (f : A -> A) l :
  (forall r, p (f r) = p r) ->
  find p (map (fun r => if p r then f r else r) l) = option_map f (find p l).
Proof.
  intro H. induction l as [ | r l IH]; [reflexivity | ].
  cbn [map find]. destruct (p r) eqn:E.
  - rewrite H, E. reflexivity.
  - rewrite E. exact IH.
Qed.

Lemma map_update_twice {A : Type} (p : A -> bool) (f : A -> A) l :
  (forall r, p (f r) = p r) -> (forall r, f (f r) = f r) ->
  map (fun r => if p r then f r else r)
      (map (fun r => if p r then f r else r) l)
  = map (fun r => if p r then f r else r) l.
Proof.
  intros Hp Hf. rewrite map_map. apply map_ext. intro r.
  destruct (p r) eqn:E; [rewrite Hp, E; apply Hf | rewrite E; reflexivity].
Qed.

Lemma set_day_status_twice s s' r :
  DailyRecord.set_day_status s (DailyRecord.set_day_status s' r)
  = DailyRecord.set_day_status s r.
Proof. destruct r. reflexivity. Qed.

Lemma updateDayStatus_some date db record :
  select_daily_record date db = Some record ->
  updateDayStatus date db
  = (let status :=
       calculateDayStatus
         (mkDayData (DailyRecord.vomited record) (DailyRecord.peed record)
                    (DailyRecord.pooped record)
                    (select_meal_statuses date db)) in
     (status,
      on_daily_records
        (sql_update (fun r => String.eqb (DailyRecord.date r) date)
                    (DailyRecord.set_day_status (DayStatus_text status)))
        db)).
Proof. intro H. unfold updateDayStatus. rewrite H. reflexivity. Qed.

(** X15. [updateDayStatus] is idempotent and returns what it stores: a
    second call for the date returns the same status and leaves the
    database as the first left it; the record of the date then carries the
    status returned; and the call changes no column but [day_status], and
    neither the meal entries nor the history. *)
Theorem updateDayStatus_idempotent date db :
  let status := fst (updateDayStatus date db) in
  let db' := snd (updateDayStatus date db) in
  updateDayStatus date db' = (status, db')
  /\ (forall r, select_daily_record date db' = Some r ->
                DailyRecord.day_status r = DayStatus_text status)
  /\ same_but_status (days db) (days db')
  /\ meals db' = meals db /\ history db' = history db.
Proof.
  intros status db'. subst status db'.
  destruct (select_daily_record date db) as [record | ] eqn:F.
  - rewrite (updateDayStatus_some date db record F). cbv zeta.
    set (st := calculateDayStatus _). cbn [fst snd].
    set (db' := on_daily_records _ db).
    assert (Hsel : select_daily_record date db'
                   = Some (DailyRecord.set_day_status (DayStatus_text st)
                                                      record)).
    { subst db'. rewrite select_daily_record_eq, days_on_daily_records.
      cbn [sql_update rows]. fold (days db). rewrite find_update.
      - rewrite <- select_daily_record_eq, F. reflexivity.
      - intro r. destruct r. reflexivity. }
    assert (Hst : calculateDayStatus
                    (mkDayData
                       (DailyRecord.vomited
                          (DailyRecord.set_day_status (DayStatus_text st)
                                                      record))
                       (DailyRecord.peed
                          (DailyRecord.set_day_status (DayStatus_text st)
                                                      record))
                       (DailyRecord.pooped
                          (DailyRecord.set_day_status (DayStatus_text st)
                                                      record))
                       (select_meal_statuses date db'))
                  = st).
    { subst db' st. destruct record, db. reflexivity. }
    split; [ | split; [ | split; [ | split ] ] ].
    + rewrite (updateDayStatus_some date db' _ Hsel). cbv zeta.
      rewrite Hst. f_equal. subst db'. destruct db as [? ? t ? ? ?].
      cbn [on_daily_records]. f_equal. unfold sql_update. cbn [rows seq].
      f_equal. apply map_update_twice.
      * intro r. destruct r. reflexivity.
      * intro r. apply set_day_status_twice.
    + intros r Hr. rewrite Hsel in Hr. injection Hr as <-.
      apply set_day_status_fields.
    + unfold same_but_status. subst db'. rewrite days_on_daily_records.
      cbn [sql_update rows]. fold (days db).
      rewrite map_map. apply map_ext. intro r.
      destruct (String.eqb _ _); [apply set_day_status_twice | reflexivity].
    + subst db'. apply meals_on_daily_records.
    + subst db'. apply history_on_daily_records.
  - assert (E : updateDayStatus date db = (GREEN, db))
      by (unfold updateDayStatus; rewrite F; reflexivity).
    rewrite E. cbn [fst snd]. rewrite E, F.
    repeat split. intros r Hr. discriminate Hr.
Qed.

(** The FOREIGN KEY of an entry holds when its medication is stored. *)
Lemma upsertMedicationEntry_returns date id taken comment db :
  In id (map Medication.id (rows (medications db))) ->
  fst (upsertMedicationEntry date id taken comment db) = Returns tt.
Proof.
  intro H. unfold upsertMedicationEntry. cbv zeta.
  assert (X : existsb (fun m => Medication.id m =? id)
                      (rows (medications db)) = true).
  { apply in_map_iff in H. destruct H as [m [Em Hm]].
    apply existsb_exists. exists m.
    split; [exact Hm | apply Z.eqb_eq, Em]. }
  rewrite X, orb_true_r. reflexivity.
Qed.

(** [PUT /api/day/:date] is answered when every medication the body names
    is stored. *)
Lemma put_day_answered now date body db :
  (forall medications0 med,
     body_medications body = Some medications0 -> In med medications0 ->
     In (MedicationBody.id med) (map Medication.id (meds db))) ->
  exists data, fst (put_day now date body db) = Returns data.
Proof.
  intro H. unfold put_day. cbv zeta.
  set (db1 := if (0 <? _)%nat then _ else db).
  assert (M : medications db1 = medications db).
  { subst db1. destruct (0 <? _)%nat; [ | reflexivity].
    apply (unwritten_updateDailyRecord medications).
    apply medications_unwritten_by. }
  clearbody db1.
  destruct (body_medications body) as [medications0 | ];
    [ | rewrite returns_pair; eexists; reflexivity].
  destruct (for_of_returns (fun d => medications d = medications db)
              (fun med =>
                 upsertMedicationEntry date (MedicationBody.id med)
                   (MedicationBody.taken med) (MedicationBody.comment med))
              medications0 db1) as [u E]; [ | exact M | ].
  - intros med d Hmed Hd. exists tt. split.
    + apply upsertMedicationEntry_returns. rewrite Hd.
      apply (H medications0 med eq_refl Hmed).
    + rewrite (unwritten_upsertMedicationEntry medications);
        [exact Hd | apply medications_unwritten_by].
  - destruct (for_of _ medications0 db1) as [[u' | message] db2];
      cbn [fst] in E; [ | discriminate].
    rewrite returns_pair. eexists. reflexivity.
Qed.



(** The statements of a write that names no field of the record leave
    the daily records as they are, until the answer is read. *)
Lemma put_day_no_field now date body db :
  Object_keys (body_recordData body) = [] ->
  (exists message partial,
     put_day now date body db = (Throws message, partial)
     /\ daily_records partial = daily_records db
     /\ body_medications body <> None)
  \/ (exists written,
        daily_records written = daily_records db
        /\ put_day now date body db
           = (Returns
                (fst (getFullDayData now date
                        (snd (updateDayStatus date written)))),
              snd (getFullDayData now date
                     (snd (updateDayStatus date written))))).
Proof.
  intro K.
  assert (T : (forall f d, daily_records (on_medication_entries f d)
                           = daily_records d)
              /\ (forall f d, daily_records (on_meal_entries f d)
                              = daily_records d)
              /\ (forall f d, daily_records (on_meal_default_history f d)
                              = daily_records d))
    by (repeat split; intros f d; destruct d; reflexivity).
  destruct T as (T1 & T2 & T3).
  apply (put_day_cases_from
           (fun d => daily_records d = daily_records db)
           (fun d => daily_records d = daily_records db)).
  - rewrite K. discriminate.
  - auto.
  - intros id taken comment d Hd.
    destruct (upsertMedicationEntry_state date id taken comment d) as [g ->].
    rewrite T1. exact Hd.
  - intros slot amount d Hd. unfold setDefaultAmount. rewrite T3. exact Hd.
  - intros slot status amount comment d Hd. unfold upsertMealEntry.
    rewrite T2. exact Hd.
  - reflexivity.
Qed.

(** X17. A [PUT /api/day/:date] that names no field of the record, for a
    date without record, stores a stale status when it is answered, as it
    is when every medication the body names is stored: the record is
    created only after the status was recomputed, so it is the default
    record, 'GREEN' with every count 0, whatever meals the body wrote,
    while the classifier makes RED of a record whose [peed] and [pooped]
    are both 0.  When the request ends with an exception no record is
    created. *)
Theorem put_day_meals_only_new_date now date body db :
  reachable db ->
  select_daily_record date db = None ->
  Object_keys (body_recordData body) = [] ->
  let db' := snd (put_day now date body db) in
  let record := new_daily_record now date (seq (daily_records db) + 1) in
  ((forall medications0 med,
      body_medications body = Some medications0 -> In med medications0 ->
      In (MedicationBody.id med) (map Medication.id (meds db))) ->
   exists data, fst (put_day now date body db) = Returns data)
  /\ (forall data,
        fst (put_day now date body db) = Returns data ->
        fd_record data = Some record
        /\ select_daily_record date db' = Some record
        /\ DailyRecord.day_status record = "GREEN"
        /\ classify_day db' record = RED
        /\ ~ status_fresh db' record)
  /\ (forall message,
        fst (put_day now date body db) = Throws message ->
        days db' = days db).
Proof.
  intros R S K db' record. split; [apply put_day_answered | ].
  destruct (put_day_no_field now date body db K)
    as [(message & partial & E & Tw & _) | (written & Tw & E)];
    subst db'; rewrite E; cbn [fst snd].
  { split; [intros data H; discriminate H | ].
    intros _ _. unfold days. rewrite Tw. reflexivity. }
  split; [ | intros message H; discriminate H].
  intros data Ed. injection Ed as <-.
  assert (Dw : days written = days db) by (unfold days; rewrite Tw; reflexivity).
  assert (Sw : select_daily_record date written = None).
  { apply select_daily_record_None. rewrite Dw.
    apply select_daily_record_None, S. }
  assert (Eu : updateDayStatus date written = (GREEN, written))
    by (unfold updateDayStatus; rewrite Sw; reflexivity).
  rewrite Eu. cbn [snd].
  assert (Eg : getOrCreateDailyRecord now date written
               = (select_daily_record date
                    (on_daily_records (sql_insert (new_daily_record now date))
                                      written),
                  on_daily_records (sql_insert (new_daily_record now date))
                                   written))
    by (unfold getOrCreateDailyRecord; rewrite Sw; reflexivity).
  pose proof (getOrCreateDailyRecord_days now date written) as Hdays.
  rewrite Sw, Tw, Dw in Hdays. fold record in Hdays.
  set (db' := snd (getFullDayData now date written)).
  assert (Edb : db' = snd (getOrCreateDailyRecord now date written))
    by apply getFullDayData_db.
  assert (R' : reachable (snd (put_day now date body db))).
  { destruct R as [reqs0 ->]. exists (reqs0 ++ [PutDay now date body]).
    unfold run. rewrite fold_left_app. reflexivity. }
  rewrite E in R'. cbn [snd] in R'. rewrite Eu in R'. cbn [snd] in R'.
  fold db' in R'.
  pose proof (reachable_constraints db' R') as C'.
  assert (Hsel : select_daily_record date db' = Some record).
  { apply select_daily_record_unique; [apply C' | | reflexivity].
    rewrite Edb, Hdays. apply in_app_iff. right. left. reflexivity. }
  assert (Hred : classify_day db' record = RED)
    by (unfold classify_day, calculateDayStatus; reflexivity).
  split; [ | split; [exact Hsel | split; [reflexivity | split; [exact Hred | ] ] ] ].
  - assert (Ef : fd_record (fst (getFullDayData now date written))
                 = fst (getOrCreateDailyRecord now date written))
      by (unfold getFullDayData;
          destruct (getOrCreateDailyRecord now date written); reflexivity).
    rewrite Ef, Eg. cbn [fst]. rewrite Edb, Eg in Hsel. exact Hsel.
  - unfold status_fresh. rewrite Hred. discriminate.
Qed.

Lemma put_day_meals_only_new_date_witness :
  let db := run [Startup "2025-01-01"] empty_db in
  let body :=
    mkDayBody (DailyPatch.mk None None None None None None None None None
                             None None None None None)
      (Some [MedicationBody.mk 2 true None])
              (Some [MealBody.mk 1 "skipped" None None None]) in
  reachable db
  /\ select_daily_record "2025-01-02" db = None
  /\ Object_keys (body_recordData body) = []
  /\ exists data,
       fst (put_day "2025-01-02 08:00:00" "2025-01-02" body db) = Returns data
       /\ option_map DailyRecord.day_status (fd_record data) = Some "GREEN".
Proof.
  intros db body.
  assert (R : reachable db) by (eexists; reflexivity).
  split; [exact R | split; [reflexivity | split; [reflexivity | ] ] ].
  destruct (put_day_meals_only_new_date "2025-01-02 08:00:00" "2025-01-02"
              body db R eq_refl eq_refl) as (A & F & _).
  destruct A as [data E].
  { intros medications0 med M Hmed. injection M as <-.
    destruct Hmed as [<- | []]. right. left. reflexivity. }
  exists data. split; [exact E | ].
  rewrite (proj1 (F data E)). reflexivity.
Defined.

(** ** A request on one day leaves the other days *)













(** ** The summary of a range *)

Lemma records_between_inverted startDate endDate db :
  text_le startDate endDate = false ->
  records_between startDate endDate db = []
  /\ meals_between startDate endDate db = [].
Proof.
  intro H.
  assert (B : forall d, between d startDate endDate = false).
  { intro d. unfold between.
    destruct (text_le startDate d) eqn:E1; [ | reflexivity].
    destruct (text_le d endDate) eqn:E2; [ | reflexivity].
    rewrite (text_le_trans _ _ _ E1 E2) in H. discriminate. }
  split; apply filter_none; intros x _; apply B.
Qed.

(** X19. A range whose end is before its start selects nothing: every
    count of the summary is 0, its lists and charts are empty, and no
    problem day is reported, whatever the store holds. *)
Theorem getTrendsSummary_inverted_range startDate endDate db :
  text_le startDate endDate = false ->
  getTrendsSummary startDate endDate db
  = mkTrendsSummary (startDate, endDate) 0 (mkStatusCounts 0 0 0) 0 0 0 0
                    [] [] 0 0 [] []
  /\ getProblemDays startDate endDate db = [].
Proof.
  intro H. destruct (records_between_inverted startDate endDate db H)
    as [Er Em].
  split.
  - unfold getTrendsSummary. rewrite Er, Em. reflexivity.
  - unfold getProblemDays.
    rewrite (filter_none _ (rows (daily_records db))); [reflexivity | ].
    intros r _. apply andb_false_iff. left.
    unfold between.
    destruct (text_le startDate (DailyRecord.date r)) eqn:E1;
      [ | reflexivity].
    destruct (text_le (DailyRecord.date r) endDate) eqn:E2; [ | reflexivity].
    rewrite (text_le_trans _ _ _ E1 E2) in H. discriminate.
Qed.

Lemma getTrendsSummary_inverted_range_witness :
  let db :=
    run [PutDay "2025-01-02 08:00:00" "2025-01-02"
           (mkDayBody
              (DailyPatch.mk None None None None (Some 2)
                None None None None None None None None None)
              None None)]
        empty_db in
  text_le "2025-01-03" "2025-01-01" = false
  /\ totalDays (getTrendsSummary "2025-01-03" "2025-01-01" db) = 0
  /\ getProblemDays "2025-01-03" "2025-01-01" db = [].
Proof.
  intro db.
  assert (H : text_le "2025-01-03" "2025-01-01" = false) by reflexivity.
  split; [exact H | ].
  destruct (getTrendsSummary_inverted_range "2025-01-03" "2025-01-01" db H)
    as [E1 E2].
  split; [rewrite E1; reflexivity | exact E2].
Defined.

Lemma fold_add_shift l a : fold_left Z.add l a = a + fold_left Z.add l 0.
Proof.
  revert a. induction l as [ | x l IH]; intro a; simpl; [lia | ].
  rewrite IH, (IH x). lia.
Qed.

Lemma fold_add_sum {K : Type} (f g : K -> Z) ks :
  fold_left Z.add (map (fun k => f k + g k) ks) 0
  = fold_left Z.add (map f ks) 0 + fold_left Z.add (map g ks) 0.
Proof.
  induction ks as [ | k ks IH]; simpl; [reflexivity | ].
  rewrite (fold_add_shift _ (f k + g k)), (fold_add_shift _ (f k)),
    (fold_add_shift _ (g k)), IH.
  lia.
Qed.

Lemma fold_add_zero {K : Type} (ks : list K) :
  fold_left Z.add (map (fun _ => 0) ks) 0 = 0.
Proof. induction ks as [ | k ks IH]; simpl; auto. Qed.

Lemma fold_add_one_key (k0 : string) (x : Z) ks :
  NoDup ks -> In k0 ks ->
  fold_left Z.add (map (fun k => if String.eqb k0 k then x else 0) ks) 0 = x.
Proof.
  induction ks as [ | k ks IH]; intros N Hin; [contradiction | ].
  inversion N as [ | ? ? Hk N']; subst. simpl.
  rewrite fold_add_shift.
  destruct (String.eqb_spec k0 k) as [E | E].
  - subst k.
    assert (Z0 : fold_left Z.add
                   (map (fun k => if String.eqb k0 k then x else 0) ks) 0
                 = 0).
    { rewrite <- (fold_add_zero ks) at 2. f_equal. apply map_ext_in.
      intros k Hk'. destruct (String.eqb_spec k0 k); [ | reflexivity].
      subst k. contradiction. }
    rewrite Z0. lia.
  - destruct Hin as [Hin | Hin]; [congruence | ].
    rewrite (IH N' Hin). lia.
Qed.

(** [SUM(...) ... GROUP BY key] adds up, over the groups, to the sum over
    the rows. *)
Lemma group_sum {A : Type} (key : A -> string) (w : A -> Z) ks (l : list A) :
  NoDup ks -> (forall e, In e l -> In (key e) ks) ->
  fold_left Z.add
    (map (fun k =>
            fold_left Z.add
              (map w (filter (fun e => String.eqb (key e) k) l)) 0)
         ks) 0
  = fold_left Z.add (map w l) 0.
Proof.
  intros N. induction l as [ | e l IH]; intro Hin.
  - simpl. apply fold_add_zero.
  - transitivity
      (fold_left Z.add
         (map (fun k =>
                 (if String.eqb (key e) k then w e else 0)
                 + fold_left Z.add
                     (map w (filter (fun e => String.eqb (key e) k) l)) 0)
              ks) 0).
    + f_equal. apply map_ext. intro k. cbn [filter].
      destruct (String.eqb (key e) k); [ | reflexivity].
      cbn [map fold_left]. apply fold_add_shift.
    + rewrite fold_add_sum, IH by (intros x Hx; apply Hin; right; exact Hx).
      rewrite fold_add_one_key;
        [ | exact N | apply Hin; left; reflexivity].
      cbn [map fold_left]. symmetry. apply fold_add_shift.
Qed.

Lemma sum_of_indicator {A : Type} (p : A -> bool) (l : list A) :
  fold_left Z.add (map (fun e => if p e then 1 else 0) l) 0
  = sql_count (filter p l).
Proof.
  unfold sql_count. induction l as [ | e l IH]; [reflexivity | ].
  cbn [map fold_left filter]. rewrite fold_add_shift, IH.
  destruct (p e); cbn [List.length]; lia.
Qed.

Lemma filter_length_le {A : Type} (p : A -> bool) (l : list A) :
  (List.length (filter p l) <= List.length l)%nat.
Proof.
  induction l as [ | e l IH]; simpl; [lia | ].
  destruct (p e); simpl; lia.
Qed.

(** X20. The meals chart agrees with the meal totals: the [missed] values
    of [charts.dailyMeals] add up to [meals.missed], each is the count of
    the entries of its date that are not 'ate_fully', and [meals.missed]
    lies between 0 and [meals.total]. *)
Theorem dailyMeals_sum_missed startDate endDate db :
  let t := getTrendsSummary startDate endDate db in
  fold_left Z.add (map snd (dailyMeals t)) 0 = meals_missed t
  /\ 0 <= meals_missed t <= meals_total t
  /\ (forall d n, In (d, n) (dailyMeals t) ->
        n = sql_count
              (filter is_missed
                 (filter (fun e => String.eqb (MealEntry.date e) d)
                         (meals_between startDate endDate db)))
        /\ 0 < sql_count
                 (filter (fun e => String.eqb (MealEntry.date e) d)
                         (meals_between startDate endDate db))).
Proof.
  intro t. subst t. unfold getTrendsSummary.
  cbn [dailyMeals meals_missed meals_total].
  set (ms := meals_between startDate endDate db).
  split; [ | split ].
  - rewrite map_map. cbn [snd].
    rewrite (group_sum MealEntry.date (fun e => if is_missed e then 1 else 0)).
    + apply sum_of_indicator.
    + apply (Permutation_NoDup (Permutation_sym (order_by_perm _ _))).
      apply NoDup_nodup.
    + intros e He. apply order_by_In. apply nodup_In. apply in_map, He.
  - unfold sql_count. pose proof (filter_length_le is_missed ms). lia.
  - intros d n Hin. apply in_map_iff in Hin. destruct Hin as [d' [E Hd]].
    injection E as -> <-. split; [apply sum_of_indicator | ].
    apply order_by_In, nodup_In, in_map_iff in Hd.
    destruct Hd as [e [Ee He]].
    assert (Hf : In e (filter (fun e => String.eqb (MealEntry.date e) d) ms)).
    { apply filter_In. split; [exact He | ].
      rewrite Ee. apply String.eqb_refl. }
    unfold sql_count.
    destruct (filter (fun e => String.eqb (MealEntry.date e) d) ms);
      [contradiction | simpl; lia].
Qed.

(** ** Meal entries and daily records *)

Lemma grows_on_refl date db : grows_on date db db.
Proof. split; [apply incl_refl | auto]. Qed.

Lemma grows_on_trans date db1 db2 db3 :
  grows_on date db1 db2 -> grows_on date db2 db3 -> grows_on date db1 db3.
Proof.
  intros [D1 M1] [D2 M2]. split.
  - eapply incl_tran; eassumption.
  - intros d Hd. destruct (M2 d Hd) as [E | H]; [left; exact E | ].
    apply M1, H.
Qed.

Lemma grows_on_same date db db' :
  days db' = days db -> meals db' = meals db -> grows_on date db db'.
Proof. intros Ed Em. unfold grows_on. rewrite Ed, Em. apply grows_on_refl. Qed.

Lemma grows_on_same_days date db db' : same_days db db' -> grows_on date db db'.
Proof. intros (Ed & Em & _). apply grows_on_same; assumption. Qed.

Lemma grows_on_fold {A : Type} date (step : Db -> A -> Db) (l : list A) db :
  (forall db a, grows_on date db (step db a)) ->
  grows_on date db (fold_left step l db).
Proof.
  intro Hs. revert db. induction l as [ | a l IH]; intro db; simpl.
  - apply grows_on_refl.
  - eapply grows_on_trans; [apply Hs | apply IH].
Qed.


Lemma grows_on_updateDailyRecord now date data db :
  grows_on date db (updateDailyRecord now date data db).
Proof.
  split.
  - rewrite updateDailyRecord_dates. intros d Hd.
    apply getOrCreateDailyRecord_dates_keep, Hd.
  - rewrite updateDailyRecord_meals. auto.
Qed.

Lemma grows_on_updateDayStatus date db :
  grows_on date db (snd (updateDayStatus date db)).
Proof.
  split.
  - rewrite updateDayStatus_dates. apply incl_refl.
  - rewrite updateDayStatus_meals. auto.
Qed.

Lemma grows_on_upsertMedicationEntry date id taken comment db :
  grows_on date db (snd (upsertMedicationEntry date id taken comment db)).
Proof.
  apply grows_on_same; [apply upsertMedicationEntry_days | ].
  destruct (upsertMedicationEntry_state date id taken comment db) as [f ->].
  destruct db; reflexivity.
Qed.


Lemma grows_on_upsertMealEntry date slot status amount comment db :
  grows_on date db (upsertMealEntry date slot status amount comment db).
Proof.
  split.
  - rewrite upsertMealEntry_days. apply incl_refl.
  - intros d Hd. rewrite meals_upsertMealEntry in Hd.
    destruct (existsb _ (meals db)).
    + right. rewrite map_map in Hd. apply in_map_iff in Hd.
      destruct Hd as [e [<- He]].
      assert (Ed : forall (c : bool) e',
                 MealEntry.date e' = MealEntry.date e ->
                 MealEntry.date (if c then e' else e) = MealEntry.date e)
        by (intros [ | ] e' E; [exact E | reflexivity]).
      rewrite Ed by reflexivity. apply in_map, He.
    + rewrite map_app in Hd. apply in_app_iff in Hd.
      destruct Hd as [Hd | [<- | [ ] ] ]; [right; exact Hd | left; reflexivity].
Qed.

Lemma grows_on_importCsv_row now ids row db :
  grows_on (csv_date row) db (importCsv_row now ids row db)
  /\ In (csv_date row)
        (map DailyRecord.date (days (importCsv_row now ids row db))).
Proof.
  apply (importCsv_row_preserves_from
           (fun x => x = db)
           (fun x => grows_on (csv_date row) db x
                     /\ In (csv_date row) (map DailyRecord.date (days x))));
    [ | | | | reflexivity].
  - intros data x _ ->. split; [apply grows_on_updateDailyRecord | ].
    rewrite updateDailyRecord_dates.
    destruct (getOrCreateDailyRecord_defined now (csv_date row) db)
      as [r (_ & Hr & Hd)].
    rewrite <- Hd at 1. apply in_map, Hr.
  - intros id taken comment x [G D]. split.
    + eapply grows_on_trans;
        [exact G | apply grows_on_upsertMedicationEntry].
    + rewrite upsertMedicationEntry_days. exact D.
  - intros slot status amount comment x [G D]. split.
    + eapply grows_on_trans; [exact G | apply grows_on_upsertMealEntry].
    + rewrite upsertMealEntry_days. exact D.
  - intros x [G D]. split.
    + eapply grows_on_trans; [exact G | apply grows_on_updateDayStatus].
    + rewrite updateDayStatus_dates. exact D.
Qed.






(** ** The period [all] *)







(** ** Writing a default amount *)

Lemma setDefaultAmount_written slot amount date db :
  exists h, In h (history (setDefaultAmount slot amount date db))
            /\ MealDefaultHistory.meal_slot h = slot
            /\ MealDefaultHistory.effective_date h = date
            /\ MealDefaultHistory.default_amount h = amount.
Proof.
  rewrite history_setDefaultAmount.
  destruct (existsb (same_version slot date) (history db)) eqn:E.
  - apply existsb_exists in E. destruct E as [h0 [H0 S0]].
    exists (set_amount amount h0). split.
    + apply in_map_iff. exists h0. rewrite S0. auto.
    + apply same_version_key in S0. inversion S0. auto.
  - eexists. split; [apply in_app_iff; right; left; reflexivity | auto].
Qed.

Lemma applicable_setDefaultAmount slot amount date db s d :
  s <> slot \/ text_le date d = false ->
  applicable s d (setDefaultAmount slot amount date db) = applicable s d db.
Proof.
  intro H.
  assert (P : (slot =? s) && text_le date d = false).
  { destruct H as [H | ->]; [ | apply andb_false_r].
    destruct (Z.eqb_spec slot s); [congruence | reflexivity]. }
  unfold applicable. rewrite history_setDefaultAmount.
  destruct (existsb (same_version slot date) (history db)).
  - apply filter_update_other. intros r Hr.
    apply same_version_key in Hr. inversion Hr as [[Es Ed]].
    cbn [set_amount MealDefaultHistory.meal_slot
         MealDefaultHistory.effective_date].
    rewrite Es, Ed. auto.
  - rewrite filter_app. cbn [filter MealDefaultHistory.meal_slot
                             MealDefaultHistory.effective_date].
    rewrite P. apply app_nil_r.
Qed.

(** X22. [PUT /api/meal-config/:slot] puts its amount in force from its
    date, which is today when the body gives no [effective_date] or an
    empty one: whether the slot had a version of that date or not, the
    default of the slot on that date is then the amount written, the
    history keeps one version per slot and date, and the default of every
    other slot, and of the slot on every earlier date, is what it was. *)
Theorem put_meal_config_in_force slot amount effective_date today db :
  history_unique db ->
  let date := or_else effective_date today in
  let db' := put_meal_config slot amount effective_date today db in
  getEffectiveDefaultAmount slot date db' = amount
  /\ history_unique db'
  /\ (forall s d, s <> slot \/ text_le date d = false ->
        getEffectiveDefaultAmount s d db' = getEffectiveDefaultAmount s d db)
  /\ getMealConfig db' = getMealConfig db.
Proof.
  intros U date db'. subst db'. unfold put_meal_config. cbv zeta. fold date.
  pose proof (setDefaultAmount_unique slot amount date db U) as U'.
  split; [ | split; [exact U' | split ] ].
  - destruct (setDefaultAmount_written slot amount date db)
      as [h (Hin & Hs & Hd & Ha)].
    rewrite <- Ha at 2.
    apply getEffectiveDefaultAmount_in_force; [exact U' | ].
    split.
    + split; [exact Hin | split; [exact Hs | ] ].
      rewrite Hd. apply text_le_refl.
    + intros h' (_ & _ & Hle). rewrite Hd. exact Hle.
  - intros s d H. rewrite !getEffectiveDefaultAmount_eq.
    rewrite applicable_setDefaultAmount by exact H. reflexivity.
  - destruct db; reflexivity.
Qed.

Lemma put_meal_config_in_force_witness :
  let db :=
    run [PutMealConfig 2 40 (Some "2025-01-10") "2025-01-01"] empty_db in
  history_unique db
  /\ getEffectiveDefaultAmount 2 "2025-01-10"
       (put_meal_config 2 55 (Some "2025-01-10") "2025-01-20" db) = 55
  /\ getEffectiveDefaultAmount 2 "2025-01-20"
       (put_meal_config 2 60 (Some "") "2025-01-20" db) = 60.
Proof.
  intro db.
  assert (U : history_unique db).
  { unfold history_unique. vm_compute. repeat constructor. intros [ ]. }
  split; [exact U | split ].
  - exact (proj1 (put_meal_config_in_force 2 55 (Some "2025-01-10")
                    "2025-01-20" db U)).
  - exact (proj1 (put_meal_config_in_force 2 60 (Some "") "2025-01-20" db U)).
Defined.

(** X23. [GET /api/meal-config] never shows an amount that was written: in
    every reachable state it returns [default_amount] 0 for every slot,
    and no request changes what it returns once the configuration is
    seeded. *)
Theorem getMealConfig_never_updated db :
  reachable db ->
  (forall c, In c (getMealConfig db) -> MealConfig.default_amount c = 0)
  /\ forall req,
       rows (meal_config db) <> [] ->
       getMealConfig (handle db req) = getMealConfig db.
Proof.
  intro R. pose proof (reachable_config_zero db R) as Z0. split.
  - intros c Hc. apply order_by_In in Hc.
    unfold config_zero in Z0. rewrite Forall_forall in Z0. apply Z0, Hc.
  - intros req Hne. unfold getMealConfig. rewrite handle_meal_config.
    destruct req; try reflexivity;
      (rewrite seed_meal_config_again; [reflexivity | ];
       unfold sql_count; destruct (rows (meal_config db));
       [contradiction | reflexivity]).
Qed.

Lemma getMealConfig_never_updated_witness :
  let db :=
    run [Startup "2025-01-01";
         PutMealConfig 2 40 None "2025-01-02"] empty_db in
  reachable db
  /\ map MealConfig.default_amount (getMealConfig db) = [0; 0; 0; 0]
  /\ forall c, In c (getMealConfig db) -> MealConfig.default_amount c = 0.
Proof.
  intro db.
  assert (R : reachable db) by (eexists; reflexivity).
  split; [exact R | split; [reflexivity | ] ].
  exact (proj1 (getMealConfig_never_updated db R)).
Defined.

(** ** A row of the CSV file, imported *)

Lemma upsertMealEntry_other_slot date slot status amount comment db e :
  MealEntry.meal_slot e <> slot ->
  In e (getMealEntries date
          (upsertMealEntry date slot status amount comment db))
  <-> In e (getMealEntries date db).
Proof.
  intros Hs. rewrite !getMealEntries_In.
  rewrite meals_upsertMealEntry.
  destruct (existsb _ (meals db)).
  - rewrite in_map_iff. split.
    + intros [[e0 [E H0]] Hd].
      destruct (String.eqb (MealEntry.date e0) date
                && (MealEntry.meal_slot e0 =? slot)) eqn:K.
      * apply andb_true_iff in K. destruct K as [_ K].
        apply Z.eqb_eq in K. subst e. cbn in Hs. contradiction.
      * subst e0. auto.
    + intros [H0 Hd]. split; [ | exact Hd]. exists e. split; [ | exact H0].
      destruct (Z.eqb_spec (MealEntry.meal_slot e) slot);
        [contradiction | ].
      rewrite andb_false_r. reflexivity.
  - rewrite in_app_iff. split.
    + intros [[H0 | [<- | []]] Hd]; [auto | ]. cbn in Hs. contradiction.
    + intros [H0 Hd]. auto.
Qed.

Lemma meal_written_upsertMealEntry date slot status amount comment db :
  meal_written date slot status amount comment
    (upsertMealEntry date slot status amount comment db).
Proof. apply upsertMealEntry_written. Qed.

Lemma meal_written_other_slot date slot status amount comment
    slot' status' amount' comment' db :
  slot <> slot' ->
  meal_written date slot status amount comment db ->
  meal_written date slot status amount comment
    (upsertMealEntry date slot' status' amount' comment' db).
Proof.
  intros Hne [[e [He Hs]] Hall]. split.
  - exists e. split; [ | exact Hs].
    apply upsertMealEntry_other_slot; [congruence | exact He].
  - intros e' He' Hs'. apply Hall; [ | exact Hs'].
    apply upsertMealEntry_other_slot in He'; [exact He' | congruence].
Qed.

Lemma meal_written_same_meals date slot status amount comment db db' :
  meals db' = meals db ->
  meal_written date slot status amount comment db ->
  meal_written date slot status amount comment db'.
Proof.
  intros E. unfold meal_written, getMealEntries. fold (meals db) (meals db').
  rewrite E. auto.
Qed.

(** *** The ids of the import *)

Lemma id_stored_grows id db db' :
  (forall m, In m (meds db) ->
             exists m', In m' (meds db')
                        /\ Medication.id m' = Medication.id m
                        /\ (Medication.is_active m <> 1 ->
                            Medication.is_active m' <> 1)) ->
  id_stored id db -> id_stored id db'.
Proof.
  intros G H T. specialize (H T). apply in_map_iff in H.
  destruct H as [m [E Hm]]. destruct (G m Hm) as [m' (Hm' & E' & _)].
  rewrite <- E, <- E'. apply in_map, Hm'.
Qed.

Lemma id_stored_medications id db db' :
  medications db' = medications db -> id_stored id db -> id_stored id db'.
Proof. unfold id_stored, meds. intros ->. auto. Qed.

Lemma ids_stored_medications ids db db' :
  medications db' = medications db -> ids_stored ids db -> ids_stored ids db'.
Proof.
  intros E (H1 & H2 & H3 & H4 & H5 & H6 & H7).
  repeat split; apply (id_stored_medications _ db); assumption.
Qed.

Lemma find_id_stored p db : id_stored (find_id p (getMedications true db)) db.
Proof.
  unfold id_stored, find_id.
  destruct (find p (getMedications true db)) as [m | ] eqn:F;
    [ | discriminate].
  intros _. apply find_some in F. destruct F as [F _].
  unfold getMedications in F. apply order_by_In in F.
  cbn [option_map nullish]. apply in_map, F.
Qed.

(** The block that adds a medication no longer given never throws: the row
    read back after the insert is the row inserted. *)
Lemma ensure_inactive_stored id name timeLabel db :
  id_stored id db ->
  exists id',
    fst (ensure_inactive id name timeLabel db) = Returns id'
    /\ id_stored id' (snd (ensure_inactive id name timeLabel db))
    /\ forall x, id_stored x db ->
                 id_stored x (snd (ensure_inactive id name timeLabel db)).
Proof.
  intro H. unfold ensure_inactive.
  destruct (negb (truthy id)); [ | exists id; auto].
  assert (G : forall x, id_stored x db ->
                        id_stored x (snd (addMedication name timeLabel db)))
    by (intro x; apply id_stored_grows; intros m Hm;
        apply addMedication_stays, Hm).
  assert (N : exists med,
            fst (addMedication name timeLabel db) = Some med
            /\ In med (meds (snd (addMedication name timeLabel db)))).
  { unfold addMedication. cbv zeta. cbn [fst snd].
    unfold meds. rewrite medications_on_medications.
    cbn [sql_insert rows seq]. rewrite filter_app. cbn [filter Medication.id].
    rewrite Z.eqb_refl.
    destruct (filter _ (rows (medications db))) as [ | m l] eqn:F.
    - eexists. split; [reflexivity | ].
      apply in_app_iff. right. left. reflexivity.
    - exists m. split; [reflexivity | ].
      assert (Hm : In m (filter
                           (fun m => Medication.id m
                                     =? seq (medications db) + 1)
                           (rows (medications db))))
        by (rewrite F; left; reflexivity).
      apply filter_In in Hm. apply in_app_iff. left. apply Hm. }
  destruct N as [med [E Hmed]].
  destruct (addMedication name timeLabel db) as [med0 db1];
    cbn [fst snd] in *. subst med0.
  exists (Some (Medication.id med)). cbn [fst snd].
  split; [reflexivity | split].
  - intros _. cbn [nullish].
    destruct (deactivateMedication_stays (Medication.id med) db1 med Hmed)
      as [m' (Hm' & E' & _)].
    apply in_map_iff. exists m'. split; [exact E' | exact Hm'].
  - intros x Hx. apply (id_stored_grows x db1).
    + intros m Hm. apply deactivateMedication_stays, Hm.
    + apply G, Hx.
Qed.

(** [importCsv] reaches its loop, and with ids of stored medications. *)
Lemma importCsv_ids_stored today db :
  exists ids,
    fst (importCsv_ids today db) = Returns ids
    /\ ids_stored ids (snd (importCsv_ids today db)).
Proof.
  unfold importCsv_ids. cbv zeta.
  generalize (initializeDatabase today db). intro db0.
  pose proof (fun p => find_id_stored p db0) as F.
  repeat match goal with
  | |- context [ensure_inactive ?id ?name ?timeLabel ?d] =>
      let id' := fresh "id" in
      let E := fresh "E" in
      let S := fresh "S" in
      let K := fresh "K" in
      destruct (ensure_inactive_stored id name timeLabel d)
        as [id' (E & S & K)];
      [ solve [eauto] | ];
      destruct (ensure_inactive id name timeLabel d) as [[? | ?] ?];
      cbn [fst snd] in E, S, K; [ | discriminate E];
      injection E as ->
  end.
  eexists. split; [reflexivity | ].
  cbn [snd]. unfold ids_stored.
  cbn [normolactMorningId normolactEveningId renalvetId fortifloraId
       robekserId gabapentinMorningId gabapentinEveningId].
  repeat split; eauto.
Qed.

Lemma on_medication_entries_twice f g db :
  on_medication_entries f (on_medication_entries g db)
  = on_medication_entries (fun t => f (g t)) db.
Proof. destruct db; reflexivity. Qed.

(** A row whose ids are those of stored medications is imported without
    exception: its medication entries are written, then its meals, and
    the status of its date is recomputed. *)
Lemma importCsv_row_steps now ids row db :
  ids_stored ids db ->
  let date := csv_date row in
  let db1 :=
    updateDailyRecord now date
      (DailyPatch.mk None None
         (Some (if csv_teethBrushed row then 1 else 0)) None
         (Some (csv_vomited row)) None
         (Some (csv_peed row)) None
         (Some (csv_pooped row)) None
         (Some (csv_drank row)) None
         (Some (match csv_comments row with
                | EmptyString => None
                | c => Some c
                end))
         None)
      db in
  exists f,
    importCsv_row now ids row db
    = snd (updateDayStatus date
             (upsertMealEntry date 4 (fst (csv_meal4 row)) None
                (snd (csv_meal4 row))
                (upsertMealEntry date 3 (fst (csv_meal3 row)) None
                   (snd (csv_meal3 row))
                   (upsertMealEntry date 2 (fst (csv_meal2 row)) None
                      (snd (csv_meal2 row))
                      (upsertMealEntry date 1 (fst (csv_meal1 row)) None
                         (snd (csv_meal1 row))
                         (on_medication_entries f db1)))))).
Proof.
  intros S date db1. unfold importCsv_row. cbv zeta. fold date. fold db1.
  assert (M1 : medications db1 = medications db).
  { subst db1. apply (unwritten_updateDailyRecord medications).
    apply medications_unwritten_by. }
  assert (S1 : ids_stored ids db1)
    by (apply (ids_stored_medications ids db); assumption).
  match goal with
  | |- context [for_of ?body ?l db1] =>
      pose proof (for_of_preserves
                    (fun d => exists f, d = on_medication_entries f db1)
                    body l db1) as P;
      pose proof (for_of_returns
                    (fun d => medications d = medications db1)
                    body l db1) as Q;
      destruct (for_of body l db1) as [[u | message] db2]
  end; cbn [fst snd] in P, Q.
  - destruct P as [f ->].
    + intros [id flag] d [f ->]. cbn [fst snd].
      destruct (truthy id); [ | exists f; reflexivity].
      destruct (upsertMedicationEntry_state date (nullish id 0) flag None
                  (on_medication_entries f db1)) as [g ->].
      rewrite on_medication_entries_twice. eexists. reflexivity.
    + exists (fun t => t). destruct db1; reflexivity.
    + exists f. reflexivity.
  - exfalso. destruct Q as [u E]; [ | reflexivity | discriminate E].
    intros [id flag] d Hin Hd. cbn [fst snd].
    destruct (truthy id) eqn:T; [ | exists tt; split; [reflexivity | exact Hd] ].
    exists tt. split.
    + apply upsertMedicationEntry_returns. rewrite Hd.
      destruct S1 as (H1 & H2 & H3 & H4 & H5 & H6 & H7).
      cbn [In] in Hin.
      repeat match goal with
      | H : _ \/ _ |- _ => destruct H as [H | H]
      | H : (_, _) = (_, _) |- _ => injection H as <- <-
      | H : False |- _ => destruct H
      end; auto.
    + rewrite (unwritten_upsertMedicationEntry medications);
        [exact Hd | apply medications_unwritten_by].
Qed.

Lemma importCsv_row_consistent now ids row db :
  ids_stored ids db -> consistent db ->
  consistent (importCsv_row now ids row db).
Proof.
  intros S C. destruct (importCsv_row_steps now ids row db S) as [f ->].
  apply updateDayStatus_consistent.
  do 4 apply upsertMealEntry_consistent_but.
  match goal with
  | |- consistent_but _ (on_medication_entries f ?d) =>
      apply (consistent_but_same _ d)
  end; autorewrite with tables; auto.
  - unfold history_unique. autorewrite with tables.
    apply updateDailyRecord_consistent_but, consistent_weaken, C.
  - apply updateDailyRecord_consistent_but, consistent_weaken, C.
Qed.

(** The import, ended by a row. *)
Lemma importCsv_last today rows now row db :
  exists ids,
    ids_stored ids (snd (importCsv today rows db))
    /\ fst (importCsv today (rows ++ [(now, row)]) db) = Returns tt
    /\ snd (importCsv today (rows ++ [(now, row)]) db)
       = importCsv_row now ids row (snd (importCsv today rows db))
    /\ (consistent db -> consistent (snd (importCsv today rows db))).
Proof.
  destruct (importCsv_ids_stored today db) as [ids [E S]].
  pose proof (importCsv_ids_preserves (same_days db)) as D.
  specialize (D (fun t d H =>
                   same_days_trans _ _ _ H (initializeDatabase_same_days t d))).
  specialize (D (fun n l d H =>
                   same_days_trans _ _ _ H (addMedication_same_days n l d))).
  specialize (D (fun i d H =>
                   same_days_trans _ _ _ H (same_days_on_medications _ d))).
  specialize (D today db (same_days_refl db)).
  unfold importCsv.
  destruct (importCsv_ids today db) as [[ids0 | message] db1];
    cbn [fst snd] in *; [ | discriminate E].
  injection E as ->. exists ids.
  assert (I : forall l d,
            ids_stored ids d ->
            ids_stored ids
              (fold_left (fun db row => importCsv_row (fst row) ids (snd row) db)
                         l d)
            /\ (consistent d ->
                consistent
                  (fold_left
                     (fun db row => importCsv_row (fst row) ids (snd row) db)
                     l d))).
  { induction l as [ | x l IH]; intros d Hd; cbn [fold_left]; [auto | ].
    assert (Hd' : ids_stored ids (importCsv_row (fst x) ids (snd x) d)).
    { apply (ids_stored_medications ids d); [ | exact Hd].
      apply (unwritten_importCsv_row medications);
        apply medications_unwritten_by. }
    destruct (IH _ Hd') as [I1 I2]. split; [exact I1 | ].
    intro C. apply I2, importCsv_row_consistent; assumption. }
  destruct (I rows db1 S) as [I1 I2].
  split; [exact I1 | split; [reflexivity | split ] ].
  - rewrite fold_left_app. reflexivity.
  - intro C. apply I2. apply (same_days_consistent db); assumption.
Qed.

(** X24. A row of the CSV file replaces the day.  From a reachable state
    [importCsv] reaches its loop and no row ends with an exception, the
    ids of its entries being those of stored medications; once it has
    processed a row, the date of the row has a record that holds the
    counts of the row and a status recomputed from them and from the meal
    entries of the date, and each of the slots 1 to 4 has an entry that
    holds the status and the comment read from the row, without an amount,
    whatever was stored for the date before.  The UNIQUE constraints
    hold afterwards, and if before the import every stored status was the
    recomputed one or the default, so it is after it. *)
Theorem importCsv_row_stored today rows now row db :
  reachable db ->
  let date := csv_date row in
  let db' := snd (importCsv today (rows ++ [(now, row)]) db) in
  fst (importCsv today (rows ++ [(now, row)]) db) = Returns tt
  /\ (exists r, select_daily_record date db' = Some r
                /\ DailyRecord.teeth_brushed r
                   = (if csv_teethBrushed row then 1 else 0)
                /\ DailyRecord.vomited r = csv_vomited row
                /\ DailyRecord.peed r = csv_peed row
                /\ DailyRecord.pooped r = csv_pooped row
                /\ DailyRecord.drank r = csv_drank row
                /\ status_fresh db' r)
  /\ meal_written date 1 (fst (csv_meal1 row)) None (snd (csv_meal1 row)) db'
  /\ meal_written date 2 (fst (csv_meal2 row)) None (snd (csv_meal2 row)) db'
  /\ meal_written date 3 (fst (csv_meal3 row)) None (snd (csv_meal3 row)) db'
  /\ meal_written date 4 (fst (csv_meal4 row)) None (snd (csv_meal4 row)) db'
  /\ constraints db'
  /\ (consistent db -> consistent db').
Proof.
  intros R date db'.
  destruct (importCsv_last today rows now row db) as [ids (S & E & Edb & K)].
  split; [exact E | ].
  assert (R0 : reachable (snd (importCsv today rows db))).
  { destruct R as [reqs0 ->]. exists (reqs0 ++ [Import today rows]).
    unfold run. rewrite fold_left_app. reflexivity. }
  assert (R' : reachable db').
  { destruct R as [reqs0 ->].
    exists (reqs0 ++ [Import today (rows ++ [(now, row)])]).
    unfold run. rewrite fold_left_app. reflexivity. }
  pose proof (reachable_constraints _ R') as C'.
  assert (K' : consistent db -> consistent db').
  { intro C. subst db'. rewrite Edb.
    apply importCsv_row_consistent; [exact S | apply K, C]. }
  pose proof (reachable_constraints _ R0) as C0.
  subst db'. rewrite Edb in *. clear Edb E K R R0 R'.
  generalize dependent (snd (importCsv today rows db)).
  intros before S C' K' C0.
  destruct (grows_on_importCsv_row now ids row before) as [_ Hdate].
  destruct (importCsv_row_steps now ids row before S) as [f Erow].
  cbv zeta in Erow. fold date in Erow, Hdate. rewrite Erow in *. clear Erow.
  set (patch := DailyPatch.mk _ _ _ _ _ _ _ _ _ _ _ _ _ _) in *.
  set (db1 := updateDailyRecord now date patch before) in *.
  set (db2 := on_medication_entries f db1) in *.
  set (db3 := upsertMealEntry date 1 _ _ _ db2) in *.
  set (db4 := upsertMealEntry date 2 _ _ _ db3) in *.
  set (db5 := upsertMealEntry date 3 _ _ _ db4) in *.
  set (db6 := upsertMealEntry date 4 _ _ _ db5) in *.
  assert (D6 : days db6 = days db1).
  { subst db6 db5 db4 db3 db2. rewrite !upsertMealEntry_days.
    autorewrite with tables. reflexivity. }
  assert (U6 : dates_unique db6).
  { unfold dates_unique. rewrite D6. subst db1.
    rewrite updateDailyRecord_dates.
    apply getOrCreateDailyRecord_dates_unique, C0. }
  split; [ | split; [ | split; [ | split; [ | split; [ | split;
    [exact C' | exact K'] ] ] ] ] ].
  - destruct (select_daily_record date (snd (updateDayStatus date db6)))
      as [r | ] eqn:Sr;
      [ | apply select_daily_record_None in Sr; contradiction].
    exists r. split; [reflexivity | ].
    apply select_daily_record_Some in Sr. destruct Sr as [Hr Hd].
    assert (F : status_fresh (snd (updateDayStatus date db6)) r)
      by (apply updateDayStatus_fresh; [exact U6 | exact Hr | exact Hd]).
    assert (H6 : exists r6, In r6 (days db6) /\ DailyRecord.date r6 = date
                            /\ DailyRecord.set_day_status "" r
                               = DailyRecord.set_day_status "" r6).
    { rewrite updateDayStatus_days in Hr.
      destruct (select_daily_record date db6).
      - apply in_map_iff in Hr. destruct Hr as [r6 [E H6]]. exists r6.
        split; [exact H6 | ]. subst r.
        destruct (String.eqb_spec (DailyRecord.date r6) date) as [E6 | E6].
        + split; [exact E6 | destruct r6; reflexivity].
        + contradiction.
      - exists r. auto. }
    destruct H6 as [r6 (H6 & Hd6 & E6)].
    rewrite D6 in H6. subst db1. rewrite updateDailyRecord_days in H6.
    apply in_map_iff in H6. destruct H6 as [r0 [E0 H0]].
    assert (E1 : r6 = patched now patch r0).
    { destruct (String.eqb_spec (DailyRecord.date r0) date) as [K | K];
        [auto | ]. subst r6. contradiction. }
    assert (G : forall (A : Type) (g : DailyRecord.t -> A),
              (forall x, g (DailyRecord.set_day_status "" x) = g x) ->
              g r = g (patched now patch r0)).
    { intros A g Hg. rewrite <- (Hg r), E6, Hg, E1. reflexivity. }
    repeat split; try exact F.
    + apply (G _ DailyRecord.teeth_brushed). intro x. destruct x. reflexivity.
    + apply (G _ DailyRecord.vomited). intro x. destruct x. reflexivity.
    + apply (G _ DailyRecord.peed). intro x. destruct x. reflexivity.
    + apply (G _ DailyRecord.pooped). intro x. destruct x. reflexivity.
    + apply (G _ DailyRecord.drank). intro x. destruct x. reflexivity.
  - apply meal_written_same_meals with (db := db6);
      [apply updateDayStatus_meals | ].
    subst db6 db5 db4.
    do 3 (apply meal_written_other_slot; [discriminate | ]).
    apply meal_written_upsertMealEntry.
  - apply meal_written_same_meals with (db := db6);
      [apply updateDayStatus_meals | ].
    subst db6 db5.
    do 2 (apply meal_written_other_slot; [discriminate | ]).
    apply meal_written_upsertMealEntry.
  - apply meal_written_same_meals with (db := db6);
      [apply updateDayStatus_meals | ].
    subst db6.
    apply meal_written_other_slot; [discriminate | ].
    apply meal_written_upsertMealEntry.
  - apply meal_written_same_meals with (db := db6);
      [apply updateDayStatus_meals | ].
    apply meal_written_upsertMealEntry.
Qed.

Lemma importCsv_row_stored_witness :
  let db :=
    run [PutDay "2025-01-12 08:00:00" "2025-01-12"
           (mkDayBody
              (DailyPatch.mk None None None None (Some 3)
                None None None None None None None None None)
              None
              (Some [MealBody.mk 1 "skipped" (Some 10) None (Some "left")]))]
        empty_db in
  let row :=
    mkCsvDay "2025-01-12" true 1 2 1 0 true false false true true false true
             ("ate_fully", None) ("ate_fully", None) ("ate_fully", None)
             ("ate_fully", None) "" in
  let rows :=
    [("2025-02-01 10:00:00",
      mkCsvDay "2025-01-11" false 0 1 1 1 false false false true false false
               false ("skipped", Some "left") ("ate_fully", None)
               ("ate_fully", None) ("ate_fully", None) "tired")] in
  reachable db
  /\ meal_written "2025-01-12" 1 "ate_fully" None None
       (snd (importCsv "2025-02-01" (rows ++ [("2025-02-01 10:00:01", row)])
                       db)).
Proof.
  intros db row rows.
  assert (R : reachable db) by (eexists; reflexivity).
  split; [exact R | ].
  exact (proj1 (proj2 (proj2 (importCsv_row_stored
                                "2025-02-01" rows "2025-02-01 10:00:01" row
                                db R)))).
Defined.

(** ** The issues of a day and its classification *)

Lemma getDayIssues_some date db r :
  select_daily_record date db = Some r ->
  getDayIssues date db = issues_of r (meals_on date db).
Proof.
  intro S. unfold getDayIssues. rewrite S. cbv zeta. rewrite fold_push.
  unfold issues_of, meals_on, meals, is_missed.
  destruct (0 <? DailyRecord.vomited r);
    destruct (DailyRecord.peed r =? 0);
    destruct (DailyRecord.pooped r =? 0); reflexivity.
Qed.

(** X25. The issue list and the classifier agree on a good day:
    [getDayIssues] reports no issue for a date exactly when the status
    [updateDayStatus] computes for it is 'GREEN' (both hold of a date
    without record). *)
Theorem getDayIssues_none_iff_GREEN date db :
  getDayIssues date db = [] <-> fst (updateDayStatus date db) = GREEN.
Proof.
  destruct (select_daily_record date db) as [r | ] eqn:S.
  - rewrite (getDayIssues_some date db r S).
    unfold updateDayStatus. rewrite S. cbv zeta. cbn [fst].
    rewrite select_meal_statuses_eq.
    split; [apply no_issue_GREEN | apply GREEN_no_issue].
  - unfold getDayIssues, updateDayStatus. rewrite S. split; reflexivity.
Qed.
